(** * marblecutter: windowed reads, transform planning, cropping, rendering

    A shallow embedding of [marblecutter/__init__.py] and
    [marblecutter/transformations/image.py], and the properties of the
    design document that can be settled on it.

    Conventions of the embedding.
    - Python floats are idealised as rationals ([Q]); every float is a dyadic
      rational, the rounding of float arithmetic is not modelled.
    - Python exceptions are values of [PyException]; a function that can
      raise returns a [Result].
    - Calls into rasterio, numpy's kernels, the catalog, the compositor, the
      transformation and the formatter are parameters of the functions that
      make them. *)

From Stdlib Require Import ZArith QArith Qabs Qround Qpower String Ascii List Bool Lia Lqa.
From stdpp Require Import gmap strings.

Local Open Scope string_scope.
Local Open Scope Z_scope.

(** ** Exceptions and results *)

Inductive PyException : Type :=
| Exception_ (message : string)      (* raise Exception("...") *)
| NoDataAvailable                    (* class NoDataAvailable(Exception) *)
| NoCatalogAvailable                 (* class NoCatalogAvailable(Exception) *)
| InvalidTileRequest (message : string)
| KeyError (key : string)            (* missing dict key *)
| AttributeError (attr : string)     (* attribute read on None *)
| ZeroDivisionError
| ValueError (message : string)
| TypeError (message : string)
| MemoryError.                       (* MemoryError / CPLE_OutOfMemoryError *)

Inductive Result (A : Type) : Type :=
| Ok (a : A)
| Raise (e : PyException).
Arguments Ok {A} a.
Arguments Raise {A} e.

Definition bind {A B} (r : Result A) (k : A -> Result B) : Result B :=
  match r with
  | Ok a => k a
  | Raise e => Raise e
  end.

Notation "'let*' x ':=' r 'in' k" := (bind r (fun x => k))
  (at level 10, x pattern, r at level 100, k at level 200).

Definition is_ok {A} (r : Result A) : bool :=
  match r with Ok _ => true | Raise _ => false end.

(** Python's true division on floats: a zero divisor raises. *)
Definition py_div (x y : Q) : Result Q :=
  if Qeq_bool y 0 then Raise ZeroDivisionError else Ok (x / y)%Q.

(** ** Coordinate reference systems, bounds *)

(** A rasterio CRS, as far as this module looks at one: its string form
    ([str(crs)], the key of [EXTENTS]), the coordinate system its definition
    denotes, and its [is_geographic] flag.  One system has many definitions
    (an EPSG code, PROJ parameters, WKT with or without an authority), hence
    many string forms; [crs_system] is the EPSG code of the system, as GDAL
    resolves the definition. *)
Record CRS : Type := mkCRS {
  crs_string : string;
  crs_system : Z;
  is_geographic : bool }.

Definition str (c : CRS) : string := crs_string c.

(** The system a CRS denotes.  A CRS that prints as "EPSG:<n>" is the system
    of code n, for the two codes this module names. *)
Definition system (c : CRS) : Z :=
  if String.eqb (crs_string c) "EPSG:3857" then 3857
  else if String.eqb (crs_string c) "EPSG:4326" then 4326
  else crs_system c.

(** [a == b]: rasterio compares what the two definitions denote (GDAL's
    OSRIsSame), not their strings. *)
Definition CRS_eqb (a b : CRS) : bool := system a =? system b.

(** CRS.from_epsg(3857), CRS.from_epsg(4326) *)
Definition WEB_MERCATOR_CRS : CRS := mkCRS "EPSG:3857" 3857 false.
Definition WGS84_CRS : CRS := mkCRS "EPSG:4326" 4326 true.

(** (west, south, east, north) *)
Definition Quad : Type := (Q * Q * Q * Q)%type.

Definition q0 (b : Quad) : Q := let '(w, _, _, _) := b in w.
Definition q1 (b : Quad) : Q := let '(_, s, _, _) := b in s.
Definition q2 (b : Quad) : Q := let '(_, _, e, _) := b in e.
Definition q3 (b : Quad) : Q := let '(_, _, _, n) := b in n.

Definition Quad_eq (a b : Quad) : Prop :=
  (q0 a == q0 b /\ q1 a == q1 b /\ q2 a == q2 b /\ q3 a == q3 b)%Q.

(** utils.Bounds: namedtuple (bounds, crs) *)
Record Bounds : Type := mkBounds { bounds : Quad; crs : CRS }.

(** ** The table of world extents *)

Definition EARTH_RADIUS : Q := 6378137.

(** math.pi, the double nearest to pi *)
Definition math_pi : Q := 884279719003555 # 281474976710656.

(** math.degrees *)
Definition math_degrees (x : Q) : Q := (x * (180 / math_pi))%Q.

Definition EXTENTS : gmap string Quad :=
  <[ str WGS84_CRS :=
       (math_degrees (- math_pi), math_degrees (- math_pi / 2),
        math_degrees math_pi, math_degrees (math_pi / 2))%Q ]>
  (<[ str WEB_MERCATOR_CRS :=
       (- math_pi * EARTH_RADIUS, - math_pi * EARTH_RADIUS,
        math_pi * EARTH_RADIUS, math_pi * EARTH_RADIUS)%Q ]> ∅).

(** [EXTENTS[str(crs)]]: a missing key raises KeyError. *)
Definition get_extent (c : CRS) : Result Quad :=
  match EXTENTS !! str c with
  | Some e => Ok e
  | None => Raise (KeyError (str c))
  end.

(** ** Affine transforms (the [affine] package) *)

(** | a b c |
    | d e f |
    | 0 0 1 | *)
Record Affine : Type := mkAffine {
  af_a : Q; af_b : Q; af_c : Q;
  af_d : Q; af_e : Q; af_f : Q }.

Definition Affine_identity : Affine := mkAffine 1 0 0 0 1 0.
Definition Affine_translation (x y : Q) : Affine := mkAffine 1 0 x 0 1 y.
Definition Affine_scale (sx sy : Q) : Affine := mkAffine sx 0 0 0 sy 0.

(** [s * t] *)
Definition Affine_mul (s t : Affine) : Affine :=
  mkAffine
    (af_a s * af_a t + af_b s * af_d t)
    (af_a s * af_b t + af_b s * af_e t)
    (af_a s * af_c t + af_b s * af_f t + af_c s)
    (af_d s * af_a t + af_e s * af_d t)
    (af_d s * af_b t + af_e s * af_e t)
    (af_d s * af_c t + af_e s * af_f t + af_f s)%Q.

(** [t * (x, y)] *)
Definition Affine_apply (t : Affine) (p : Q * Q) : Q * Q :=
  let '(x, y) := p in
  (af_a t * x + af_b t * y + af_c t, af_d t * x + af_e t * y + af_f t)%Q.

(** [~t]; a degenerate transform cannot be inverted. *)
Definition Affine_invert (t : Affine) : Result Affine :=
  let det := (af_a t * af_e t - af_b t * af_d t)%Q in
  if Qeq_bool det 0 then Raise (ValueError "Cannot invert degenerate transform")
  else
    let idet := (1 / det)%Q in
    let ra := (af_e t * idet)%Q in
    let rb := (- af_b t * idet)%Q in
    let rd := (- af_d t * idet)%Q in
    let re := (af_a t * idet)%Q in
    Ok (mkAffine ra rb (- af_c t * ra - af_f t * rb)
                 rd re (- af_c t * rd - af_f t * re))%Q.

(** rasterio.transform.from_bounds *)
Definition from_bounds (b : Quad) (width height : Z) : Result Affine :=
  let '(west, south, east, north) := b in
  let* sx := py_div (east - west) (inject_Z width) in
  let* sy := py_div (south - north) (inject_Z height) in
  Ok (Affine_mul (Affine_translation west north) (Affine_scale sx sy)).

(** rasterio.windows.Window(col_off, row_off, width, height) *)
Record Window : Type := mkWindow {
  col_off : Q; row_off : Q; win_width : Q; win_height : Q }.

(** rasterio.windows.bounds *)
Definition windows_bounds (w : Window) (t : Affine) : Quad :=
  let row_min := row_off w in
  let row_max := (row_min + win_height w)%Q in
  let col_min := col_off w in
  let col_max := (col_min + win_width w)%Q in
  let '(x_left, y_bottom) := Affine_apply t (col_min, row_max) in
  let '(x_right, y_top) := Affine_apply t (col_max, row_min) in
  (x_left, y_bottom, x_right, y_top).

(** ** Resolution and zoom *)

(** A shape is (height, width). *)
Definition Shape : Type := (Z * Z)%type.

Definition get_resolution (b : Bounds) (dims : Shape) : Result (Q * Q) :=
  let '(height, width) := dims in
  let* t := from_bounds (bounds b) width height in
  Ok (Qabs (af_a t), Qabs (af_e t)).

Section Resolution.
(** [haversine(p, q)]: great-circle distance in kilometres. *)
Variable haversine : Q * Q -> Q * Q -> Q.
(** [math.log], on its domain *)
Variable math_log : Q -> Q.

Definition get_resolution_in_meters (b : Bounds) (dims : Shape) : Result (Q * Q) :=
  if is_geographic (crs b) then
    let bb := bounds b in
    let '(height, width) := dims in
    let p_left := (q0 bb, (q1 bb + q3 bb) / 2)%Q in
    let p_right := (q2 bb, (q1 bb + q3 bb) / 2)%Q in
    let p_top := ((q0 bb + q2 bb) / 2, q3 bb)%Q in
    let p_bottom := ((q0 bb + q2 bb) / 2, q1 bb)%Q in
    let* rx := py_div (haversine p_left p_right * 1000) (inject_Z width) in
    let* ry := py_div (haversine p_top p_bottom * 1000) (inject_Z height) in
    Ok (rx, ry)
  else get_resolution b dims.

(** [math.log(x)] raises on a non-positive argument. *)
Definition py_log (x : Q) : Result Q :=
  if Qle_bool x 0 then Raise (ValueError "math domain error") else Ok (math_log x).

(** [get_zoom(resolution, op)]; [op] is [round] or [math.ceil]. *)
Definition get_zoom (resolution : Q) (op : Q -> Z) : Result Z :=
  let* r := py_div (2 * math_pi * 6378137) (resolution * 256) in
  let* l := py_log r in
  let* l2 := py_log 2 in
  let* q := py_div l l2 in
  Ok (op q).
End Resolution.

(** [math.ceil] *)
Definition math_ceil (x : Q) : Z := Qceiling x.

(** Python 3 [round]: to the nearest integer, ties to even. *)
Definition py_round (x : Q) : Z :=
  let f := Qfloor x in
  let d := (x - inject_Z f)%Q in
  if Qlt_le_dec d (1 # 2) then f
  else if Qlt_le_dec (1 # 2) d then f + 1
  else if Z.even f then f else f + 1.

(** [max] of a pair: the first maximal element. *)
Definition py_max2 (p : Q * Q) : Q :=
  let '(x, y) := p in if Qlt_le_dec x y then y else x.

(** ** Pixel buffers *)

(** numpy dtypes of raster bands *)
Inductive dtype : Type :=
| uint8 | int8 | uint16 | int16 | uint32 | int32 | float32 | float64.

Definition dtype_eqb (a b : dtype) : bool :=
  match a, b with
  | uint8, uint8 | int8, int8 | uint16, uint16 | int16, int16
  | uint32, uint32 | int32, int32 | float32, float32 | float64, float64 => true
  | _, _ => false
  end.

(** [np.issubdtype(dtype, np.floating)] *)
Definition is_floating (dt : dtype) : bool :=
  match dt with float32 | float64 => true | _ => false end.

(** [np.iinfo(dtype).min] *)
Definition iinfo_min (dt : dtype) : Z :=
  match dt with
  | int8 => -128
  | int16 => -32768
  | int32 => -2147483648
  | _ => 0
  end.

(** [np.iinfo(dtype).max] *)
Definition iinfo_max (dt : dtype) : Z :=
  match dt with
  | uint8 => 255
  | int8 => 127
  | uint16 => 65535
  | int16 => 32767
  | uint32 => 4294967295
  | _ => 2147483647
  end.

(** [np.finfo(dtype).min]: minus the largest finite float, an integer. *)
Definition finfo_min (dt : dtype) : Z :=
  match dt with
  | float32 => - (2 ^ 128 - 2 ^ 104)
  | _ => - (2 ^ 1024 - 2 ^ 971)
  end.

(** A three-dimensional array: its shape, its dtype, its items by index. *)
Record ndarray : Type := mkArray {
  shape : nat * nat * nat;
  adtype : dtype;
  item : nat -> nat -> nat -> Q }.

(** A numpy masked array; [mask] is true where the item is invalid. *)
Record MaskedArray : Type := mkMasked {
  ma_shape : nat * nat * nat;
  ma_dtype : dtype;
  ma_data : nat -> nat -> nat -> Q;
  ma_mask : nat -> nat -> nat -> bool }.

(** Two masked arrays with the same shape, items and mask. *)
Definition ma_same (a b : MaskedArray) : Prop :=
  ma_shape a = ma_shape b /\
  forall i j k : nat,
    (i < fst (fst (ma_shape a)))%nat ->
    (j < snd (fst (ma_shape a)))%nat ->
    (k < snd (ma_shape a))%nat ->
    (ma_data a i j k == ma_data b i j k)%Q /\ ma_mask a i j k = ma_mask b i j k.

(** utils.PixelCollection: namedtuple (data, bounds, band, colormap), the last
    two defaulting to None.  [D] is what [data] holds. *)
Record PixelCollection (D : Type) : Type := mkPixelCollection {
  data : D;
  pc_bounds : Bounds;
  pc_band : option nat;
  pc_colormap : option (list (Z * Z)) }.
Arguments mkPixelCollection {D}.
Arguments data {D}.
Arguments pc_bounds {D}.
Arguments pc_band {D}.
Arguments pc_colormap {D}.

(** [PixelCollection(data, bounds)] *)
Definition PixelCollection_ {D} (d : D) (b : Bounds) : PixelCollection D :=
  mkPixelCollection d b None None.

(** ** Masking by value *)

(** [np.isclose(x, v)] with numpy's default tolerances *)
Definition np_isclose (x v : Q) : bool :=
  Qle_bool (Qabs (x - v)) ((1 # 100000000) + (1 # 100000) * Qabs v).

(** [np.ma.masked_values(data, v, copy=False)] on a floating array *)
Definition masked_values (d : ndarray) (v : Q) : MaskedArray :=
  mkMasked (shape d) (adtype d) (item d) (fun i j k => np_isclose (item d i j k) v).

(** [np.ma.masked_equal(data, v, copy=False)] *)
Definition masked_equal (d : ndarray) (v : Q) : MaskedArray :=
  mkMasked (shape d) (adtype d) (item d) (fun i j k => Qeq_bool (item d i j k) v).

Definition _mask (d : ndarray) (nodata : Q) : MaskedArray :=
  if is_floating (adtype d) then masked_values d nodata else masked_equal d nodata.

Definition _nodata (dt : dtype) : Q :=
  if is_floating dt then inject_Z (finfo_min dt) else inject_Z (iinfo_min dt).

(** [np.ma.masked_array(data, mask=np.ma.nomask)] *)
Definition masked_nomask (d : ndarray) : MaskedArray :=
  mkMasked (shape d) (adtype d) (item d) (fun _ _ _ => false).

(** [_isimage]: [data_format.upper() in ["RGB", "RGBA"]] *)
Definition upper_ascii (c : ascii) : ascii :=
  let n := nat_of_ascii c in
  if (97 <=? n)%nat && (n <=? 122)%nat then ascii_of_nat (n - 32) else c.

Fixpoint upper (s : string) : string :=
  match s with
  | EmptyString => EmptyString
  | String c r => String (upper_ascii c) (upper r)
  end.

Definition _isimage (data_format : string) : bool :=
  let u := upper data_format in
  String.eqb u "RGB" || String.eqb u "RGBA".

(** ** Crop *)

(** Python's [seq[start:stop]] on a sequence of [n] items: a negative index
    counts from the end, both ends are clamped to the sequence.  The result
    is the first index kept and the number of items kept. *)
Definition slice_bound (x : Z) (n : nat) : Z :=
  if x <? 0 then Z.max (x + Z.of_nat n) 0 else Z.min x (Z.of_nat n).

Definition py_slice (start stop : Z) (n : nat) : nat * nat :=
  let lo := slice_bound start n in
  let hi := slice_bound stop n in
  (Z.to_nat lo, Z.to_nat (hi - lo)).

(** [a[s0, s1, :]] *)
Definition slice_01 (a : MaskedArray) (s0 s1 : nat * nat) : MaskedArray :=
  let '(_, _, d2) := ma_shape a in
  mkMasked (snd s0, snd s1, d2) (ma_dtype a)
    (fun i j k => ma_data a (fst s0 + i)%nat (fst s1 + j)%nat k)
    (fun i j k => ma_mask a (fst s0 + i)%nat (fst s1 + j)%nat k).

(** [a[:, s1, s2]] *)
Definition slice_12 (a : MaskedArray) (s1 s2 : nat * nat) : MaskedArray :=
  let '(d0, _, _) := ma_shape a in
  mkMasked (d0, snd s1, snd s2) (ma_dtype a)
    (fun i j k => ma_data a i (fst s1 + j)%nat (fst s2 + k)%nat)
    (fun i j k => ma_mask a i (fst s1 + j)%nat (fst s2 + k)%nat).

(** (left, bottom, right, top), in pixels *)
Definition Offsets : Type := (Z * Z * Z * Z)%type.

Definition crop (pixel_collection : PixelCollection MaskedArray)
    (data_format : string) (offsets : Offsets)
    : Result (PixelCollection MaskedArray) :=
  let d := data pixel_collection in
  let bnds := bounds (pc_bounds pixel_collection) in
  let data_crs := crs (pc_bounds pixel_collection) in
  let '(o_left, o_bottom, o_right, o_top) := offsets in
  if _isimage data_format then
    (* width, height, _ = data.shape *)
    let '(n0, n1, _) := ma_shape d in
    let width := Z.of_nat n0 in
    let height := Z.of_nat n1 in
    let* t := from_bounds bnds width height in
    (* data[top:height - bottom, left:width - right, :] *)
    let d' := slice_01 d (py_slice o_top (height - o_bottom) n0)
                         (py_slice o_left (width - o_right) n1) in
    let cropped_window :=
      mkWindow (inject_Z o_left) (inject_Z o_top) (inject_Z width) (inject_Z height) in
    let cropped_bounds := windows_bounds cropped_window t in
    Ok (PixelCollection_ d' (mkBounds cropped_bounds data_crs))
  else
    (* _, height, width = data.shape *)
    let '(_, n1, n2) := ma_shape d in
    let height := Z.of_nat n1 in
    let width := Z.of_nat n2 in
    let* t := from_bounds bnds width height in
    (* data[:, top:height - bottom, left:width - right] *)
    let d' := slice_12 d (py_slice o_top (height - o_bottom) n1)
                         (py_slice o_left (width - o_right) n2) in
    let cropped_window :=
      mkWindow (inject_Z o_left) (inject_Z o_top) (inject_Z width) (inject_Z height) in
    let cropped_bounds := windows_bounds cropped_window t in
    Ok (PixelCollection_ d' (mkBounds cropped_bounds data_crs)).

(** ** The Image transformation *)

(** numpy arrays are objects: a [PixelCollection] holds a reference to its
    buffer, and a statement such as [data *= 255] writes into the buffer the
    caller still holds.  The store maps references to buffers; a new array
    takes the next free reference. *)
Abbreviation Heap := (list MaskedArray).
Abbreviation Ref := nat.

Definition alloc (h : Heap) (a : MaskedArray) : Heap * Ref :=
  ((h ++ [a])%list, length h).

(** [a *= c] on a masked array: masked items are multiplied by one. *)
Definition imul (a : MaskedArray) (c : Q) : MaskedArray :=
  mkMasked (ma_shape a) (ma_dtype a)
    (fun i j k => if ma_mask a i j k then (ma_data a i j k * 1)%Q
                  else (ma_data a i j k * c)%Q)
    (ma_mask a).

(** The integer part of a number: rounding towards zero. *)
Definition Qtrunc (x : Q) : Z :=
  if Qle_bool 0 x then Qfloor x else Qceiling x.

Definition fits_int32 (n : Z) : bool := (- 2 ^ 31 <=? n) && negb (2 ^ 31 <=? n).

(** The value of an item of dtype [dt] after [astype(np.uint8)].  An item of
    an integer dtype wraps modulo 256.  An item of a floating dtype loses its
    fraction and goes through C's conversion of a floating value, which
    numpy's kernels do on x86 through a 32-bit integer: an integer part
    within int32 wraps modulo 256; beyond int32, where C leaves the result
    undefined, the conversion answers 0x80000000, whose low byte is zero. *)
Definition to_uint8 (dt : dtype) (x : Q) : Q :=
  let n := Qtrunc x in
  if is_floating dt && negb (fits_int32 n) then inject_Z 0 else inject_Z (n mod 256).

Definition astype_uint8 (a : MaskedArray) : MaskedArray :=
  mkMasked (ma_shape a) uint8
    (fun i j k => to_uint8 (ma_dtype a) (ma_data a i j k)) (ma_mask a).

(** [np.ma.transpose(a, [1, 2, 0])] *)
Definition transpose_120 (a : MaskedArray) : MaskedArray :=
  let '(d0, d1, d2) := ma_shape a in
  mkMasked (d1, d2, d0) (ma_dtype a)
    (fun i j k => ma_data a k i j)
    (fun i j k => ma_mask a k i j).

(** [a.mask.any()] *)
Definition mask_any (a : MaskedArray) : bool :=
  let '(d0, d1, d2) := ma_shape a in
  existsb (fun i =>
    existsb (fun j =>
      existsb (fun k => ma_mask a i j k) (seq 0 d2)) (seq 0 d1)) (seq 0 d0).

(** [np.logical_and.reduce(~a.mask)]: over the first axis *)
Definition logical_and_reduce_not_mask (a : MaskedArray) (i j : nat) : bool :=
  forallb (fun b => negb (ma_mask a b i j)) (seq 0 (fst (fst (ma_shape a)))).

(** [np.dstack((rgb, a))] for [rgb] of shape (h, w, n) and [a] of shape
    (h, w); the result carries no mask. *)
Definition dstack (rgb : MaskedArray) (a : nat -> nat -> Q) : MaskedArray :=
  let '(h, w, n) := ma_shape rgb in
  mkMasked (h, w, S n) (ma_dtype rgb)
    (fun i j k => if (k <? n)%nat then ma_data rgb i j k else a i j)
    (fun _ _ _ => false).

Definition Image_transform (h : Heap) (pixels : PixelCollection Ref)
    : Heap * Result (PixelCollection Ref * string) :=
  match h !! data pixels with
  | None => (h, Raise (AttributeError "shape"))
  | Some d =>
    let '(count, _, _) := ma_shape d in
    (* if 3 > count > 4 *)
    if (count <? 3)%nat && (4 <? count)%nat then
      (h, Raise (Exception_ "Source data must be 3 or 4 bands"))
    else
      (* data *= np.iinfo(np.uint8).max, in place *)
      let d1 := if dtype_eqb (ma_dtype d) float32
                then imul d (inject_Z (iinfo_max uint8)) else d in
      let h1 := if dtype_eqb (ma_dtype d) float32
                then <[ data pixels := d1 ]> h else h in
      if (count =? 4)%nat then
        let rgba := transpose_120 (astype_uint8 d1) in
        let '(h2, r) := alloc h1 rgba in
        (h2, Ok (PixelCollection_ r (pc_bounds pixels), "RGBA"))
      else
        let rgb := transpose_120 (astype_uint8 d1) in
        let a := if mask_any d1
                 then (fun i j => if logical_and_reduce_not_mask d1 i j
                                  then (1 * 255)%Q else (0 * 255)%Q)
                 else (fun _ _ => 255%Q) in
        let '(h2, r) := alloc h1 (dstack rgb a) in
        (h2, Ok (PixelCollection_ r (pc_bounds pixels), "RGBA"))
  end.

(** ** Sources, recipes, warped views *)

(** rasterio.enums.ColorInterp *)
Inductive ColorInterp : Type :=
| CI_undefined | CI_gray | CI_palette | CI_red | CI_green | CI_blue | CI_alpha.

Definition ColorInterp_eqb (a b : ColorInterp) : bool :=
  match a, b with
  | CI_undefined, CI_undefined | CI_gray, CI_gray | CI_palette, CI_palette
  | CI_red, CI_red | CI_green, CI_green | CI_blue, CI_blue
  | CI_alpha, CI_alpha => true
  | _, _ => false
  end.

(** rasterio.enums.MaskFlags *)
Inductive MaskFlags : Type := MF_all_valid | MF_per_dataset | MF_alpha | MF_nodata.

Definition MaskFlags_eqb (a b : MaskFlags) : bool :=
  match a, b with
  | MF_all_valid, MF_all_valid | MF_per_dataset, MF_per_dataset
  | MF_alpha, MF_alpha | MF_nodata, MF_nodata => true
  | _, _ => false
  end.

(** What [read_window] reads of an open rasterio dataset. *)
Record Source : Type := mkSource {
  src_bounds : Quad;                           (* src.bounds *)
  src_crs : CRS;                               (* src.crs *)
  src_width : Z;                               (* src.width *)
  src_height : Z;                              (* src.height *)
  src_nodata : option Q;                       (* src.nodata, None if undeclared *)
  src_dtype : dtype;                           (* src.meta["dtype"] *)
  src_colorinterp : list ColorInterp;          (* src.colorinterp *)
  src_mask_flag_enums : list (list MaskFlags)  (* src.mask_flag_enums *) }.

(** The recipes dict, by the keys [read_window] looks at; [None] is a
    missing key.  The value under "nodata" may itself be None. *)
Record Recipes : Type := mkRecipes {
  r_dem : option bool;
  r_nodata : option (option Q);
  r_resample : option string }.

Definition no_recipes : Recipes := mkRecipes None None None.

(** ["k" in recipes] *)
Definition has_key {A} (v : option A) : bool :=
  match v with Some _ => true | None => false end.

(** rasterio.warp.Resampling, by member name *)
Definition Resampling_names : list string :=
  ["nearest"; "bilinear"; "cubic"; "cubic_spline"; "lanczos"; "average"; "mode";
   "gauss"; "max"; "min"; "med"; "q1"; "q3"].

(** [Resampling[name]] *)
Definition Resampling_lookup (name : string) : Result string :=
  if existsb (String.eqb name) Resampling_names then Ok name
  else Raise (KeyError name).

(** An open WarpedVRT, by what [read_window] asks of it. *)
Record VRT : Type := mkVRT {
  vrt_count : nat;                                   (* vrt.count *)
  vrt_colorinterp : list ColorInterp;                (* vrt.colorinterp *)
  vrt_nodata : option Q;                             (* vrt.nodata *)
  vrt_window : Quad -> Window;                       (* vrt.window of the bounds *)
  vrt_read : Z * Z * Z -> Window -> ndarray          (* vrt.read(out_shape, window) *) }.

(** The keyword arguments of [WarpedVRT(src, ...)] *)
Record VRTOptions : Type := mkVRTOptions {
  o_src_nodata : option Q;
  o_crs : CRS;
  o_width : Z;
  o_height : Z;
  o_transform : Affine;
  o_resampling : string;
  o_add_alpha : bool }.

(** [x or y] on an optional number: None and zero are false. *)
Definition py_or (x : option Q) (y : Q) : Q :=
  match x with
  | Some v => if Qeq_bool v 0 then y else v
  | None => y
  end.

(** [seq.index(x)] *)
Fixpoint index_of (x : ColorInterp) (l : list ColorInterp) : option nat :=
  match l with
  | [] => None
  | y :: r => if ColorInterp_eqb y x then Some 0%nat else S <$> index_of x r
  end.

(** [~v] on an integer item of the given dtype; floats have no [~]. *)
Definition np_invert (dt : dtype) (v : Q) : Q :=
  match dt with
  | uint8 | uint16 | uint32 => (inject_Z (iinfo_max dt) - v)%Q
  | _ => (- v - 1)%Q
  end.

(** The planned destination grid; a None is a name still unbound or None. *)
Record Plan : Type := mkPlan {
  dst_transform : option Affine;
  dst_width : option Q;
  dst_height : option Q }.

(** ** read_window *)

Section ReadWindow.
Variable haversine : Q * Q -> Q * Q -> Q.
Variable math_log : Q -> Q.
(** [warp.calculate_default_transform(src_crs, dst_crs, width, height,
    *src_bounds, resolution=resolution)]; it may raise, MemoryError among
    others. *)
Variable calculate_default_transform :
  CRS -> CRS -> Z -> Z -> Quad -> option (Q * Q) -> Result (Affine * Z * Z).
(** [WarpedVRT(src, src_nodata=..., crs=..., ...)] *)
Variable WarpedVRT : Source -> VRTOptions -> VRT.

(** The branch for web Mercator DEMs (lines 177-200). *)
Definition plan_special (src : Source) (b : Bounds) : Result Plan :=
  let* res := get_resolution_in_meters haversine
                (mkBounds (src_bounds src) (src_crs src))
                (src_height src, src_width src) in
  let* z := get_zoom math_log (py_max2 res) math_ceil in
  let zoom := Z.min 22 z in
  let dst_w := (2 ^ zoom * 256)%Q in
  let dst_h := dst_w in
  let* extent := get_extent (crs b) in
  let* rx := py_div (q2 extent - q0 extent) dst_w in
  let* ry := py_div (q3 extent - q1 extent) dst_h in
  Ok (mkPlan (Some (mkAffine rx 0 (q0 extent) 0 (- ry) (q3 extent)))
             (Some dst_w) (Some dst_h)).

(** The [while] loop of lines 217-240, from the state (attempts,
    scale_factor) with [dst_transform] still None.  Each turn of the loop
    spends one unit of [budget]; [None] means the budget ran out before the
    loop ended. *)
Fixpoint retry_loop (budget : nat) (src : Source) (b : Bounds)
    (resolution : option (Q * Q)) (attempts scale_factor : Z)
    : option (Result Plan) :=
  if (0 <? src_width src / scale_factor) && (0 <? src_height src / scale_factor)
  then
    match budget with
    | O => None
    | S budget' =>
      match calculate_default_transform (src_crs src) (crs b)
              (src_width src / scale_factor) (src_height src / scale_factor)
              (src_bounds src) resolution with
      | Ok (t, w, h) =>
        let scale := Affine_scale (inject_Z scale_factor) (inject_Z scale_factor) in
        match Affine_invert scale with
        | Raise e => Some (Raise e)
        | Ok inv =>
          let '(w', h') := Affine_apply scale (inject_Z w, inject_Z h) in
          Some (Ok (mkPlan (Some (Affine_mul t inv)) (Some w') (Some h')))
        end
      | Raise MemoryError =>
        let attempts' := attempts + 1 in
        retry_loop budget' src b resolution attempts' (2 * attempts')
      | Raise e => Some (Raise e)
      end
    end
  else Some (Ok (mkPlan None None None)).

(** The states the loop goes through: (0, 1), (1, 2), (2, 4), (3, 6), ... *)
Definition loop_state (attempts scale_factor : Z) : Prop :=
  0 <= attempts /\ 1 <= scale_factor <= 2 * attempts + 1.

(** The generic branch (lines 202-240).  The scale factor grows at every
    turn, so [src.width] turns are enough (lemma [retry_loop_total]). *)
Definition plan_generic (src : Source) (b : Bounds)
    (source_resolution target_resolution : Q * Q) : Result Plan :=
  let resolution :=
    if Qlt_le_dec (fst target_resolution) (fst source_resolution) then Some target_resolution
    else if Qlt_le_dec (snd target_resolution) (snd source_resolution) then Some target_resolution
    else None in
  match retry_loop (Z.to_nat (src_width src)) src b resolution 0 1 with
  | Some r => r
  | None => Raise (Exception_ "retry budget exhausted")
  end.

(** ["dem" in recipes and bounds.crs == WEB_MERCATOR_CRS and (...)] *)
Definition special_case (recipes : Recipes) (b : Bounds)
    (source_resolution target_resolution : Q * Q) : bool :=
  has_key (r_dem recipes)
  && CRS_eqb (crs b) WEB_MERCATOR_CRS
  && (if Qlt_le_dec (fst source_resolution) (fst target_resolution) then true else false)
  && (if Qlt_le_dec (snd source_resolution) (snd target_resolution) then true else false).

(** Lines 154-240: the destination transform and dimensions. *)
Definition plan_transform (src : Source) (b : Bounds) (target_shape : Shape)
    (recipes : Recipes) : Result Plan :=
  let* source_resolution :=
    get_resolution_in_meters haversine
      (mkBounds (src_bounds src) (src_crs src)) (src_height src, src_width src) in
  let* target_resolution := get_resolution b target_shape in
  if special_case recipes b source_resolution target_resolution
  then plan_special src b
  else plan_generic src b source_resolution target_resolution.

(** Lines 260-263: the nodata value. *)
Definition resolve_nodata (src : Source) (recipes : Recipes) : option Q :=
  (* nodata = src.nodata or _nodata(src.meta["dtype"]) *)
  let nodata := Some (py_or (src_nodata src) (_nodata (src_dtype src))) in
  (* if "nodata" in recipes: nodata = recipes["nodata"] *)
  match r_nodata recipes with Some v => v | None => nodata end.

(** Lines 301-311: the mask of what was read. *)
Definition mask_read (vrt : VRT) (nodata : option Q) (d : ndarray) : Result MaskedArray :=
  if existsb (ColorInterp_eqb CI_alpha) (vrt_colorinterp vrt) then
    match index_of CI_alpha (vrt_colorinterp vrt) with
    | None => Raise (ValueError "is not in list")
    | Some alpha_idx =>
      if is_floating (adtype d)
      then Raise (TypeError "ufunc 'invert' not supported for the input types")
      else
        let '(_, h, w) := shape d in
        let band k := if (k <? alpha_idx)%nat then k else S k in
        Ok (mkMasked ((vrt_count vrt - 1)%nat, h, w) (adtype d)
              (fun k i j => item d (band k) i j)
              (fun k i j =>
                 negb (Qeq_bool (np_invert (adtype d) (item d alpha_idx i j)) 0)))
    end
  else
    match nodata, vrt_nodata vrt with
    | Some _, Some v => Ok (_mask d v)
    | _, _ => Ok (masked_nomask d)
    end.

Definition read_window (src : Source) (b : Bounds) (target_shape : Shape)
    (recipes : option Recipes) : Result (PixelCollection MaskedArray) :=
  let recipes := match recipes with Some r => r | None => no_recipes end in
  let* plan := plan_transform src b target_shape recipes in
  let* resampling :=
    if existsb (ColorInterp_eqb CI_palette) (src_colorinterp src)
    then Resampling_lookup (match r_resample recipes with Some n => n | None => "nearest" end)
    else Resampling_lookup (match r_resample recipes with Some n => n | None => "bilinear" end) in
  let nodata := resolve_nodata src recipes in
  let per_dataset :=
    existsb (existsb (MaskFlags_eqb MF_per_dataset)) (src_mask_flag_enums src) in
  let alpha :=
    existsb (existsb (MaskFlags_eqb MF_alpha)) (src_mask_flag_enums src) in
  let '(src_nodata, add_alpha) :=
    if per_dataset && negb alpha then (None, true) else (nodata, false) in
  let '(w, s, e, n) := bounds b in
  match dst_transform plan with
  | None => Raise (AttributeError "a")
  | Some t =>
    let vrt_transform :=
      Affine_mul (Affine_mul (Affine_translation w n) (Affine_scale (af_a t) (af_e t)))
                 Affine_identity in
    let* vw := py_div (e - w) (af_a t) in
    let* vh := py_div (s - n) (af_e t) in
    let vrt := WarpedVRT src
                 (mkVRTOptions src_nodata (crs b) (math_ceil vw) (math_ceil vh)
                    vrt_transform resampling add_alpha) in
    let dst_window := vrt_window vrt (bounds b) in
    let d := vrt_read vrt (Z.of_nat (vrt_count vrt), fst target_shape, snd target_shape)
               dst_window in
    let* d' := mask_read vrt nodata d in
    Ok (PixelCollection_ d' b)
  end.
End ReadWindow.

(** ** render *)

(** The calls [render] makes to its collaborators, in the order made. *)
Inductive Event : Type :=
| EvExpand          (* transformation.expand *)
| EvGetSources      (* catalog.get_sources *)
| EvComposite       (* mosaic.composite *)
| EvTransform       (* transformation.transform *)
| EvPostprocess     (* transformation.postprocess *)
| EvFormat.         (* format *)

(** A computation that calls collaborators and may raise: the calls made,
    and the result. *)
Definition Traced (A : Type) : Type := (list Event * Result A)%type.

Definition ret {A} (a : A) : Traced A := ([], Ok a).
Definition raise {A} (e : PyException) : Traced A := ([], Raise e).
Definition lift {A} (r : Result A) : Traced A := ([], r).
Definition call {A} (ev : Event) (r : Result A) : Traced A := ([ev], r).

Definition bindT {A B} (m : Traced A) (k : A -> Traced B) : Traced B :=
  match m with
  | (t, Ok a) => let '(t', r) := k a in ((t ++ t')%list, r)
  | (t, Raise e) => (t, Raise e)
  end.

Notation "'do*' x ':=' m 'in' k" := (bindT m (fun x => k))
  (at level 10, x pattern, m at level 100, k at level 200).

(** The buffer of a composited PixelCollection may be None. *)
Definition Pixels : Type := PixelCollection (option MaskedArray).

(** One entry of the Server-Timing header: [op<i>;desc="<name>";dur=<time>]
    or [src<i>;desc="<name> - <url>"]. *)
Inductive TimingEntry : Type :=
| OpEntry (i : nat) (name : string) (dur : Q)
| SrcEntry (i : nat) (name : string) (url : string).

Record Headers : Type := mkHeaders {
  content_type : string;
  server_timing : list TimingEntry }.

Section Render.
Variable haversine : Q * Q -> Q * Q -> Q.
(** A source as the catalog and the compositor exchange it. *)
Variable SourceRef : Type.
(** [t.elapsed] of the Timer around the stage of that label *)
Variable elapsed : string -> Q.
(** The name of a source as written in the header: NFKD-normalised, quotes
    escaped, non-ASCII characters dropped. *)
Variable header_name : string -> string.
(** [mosaic.composite(sources, bounds, shape, target_crs, expand)] *)
Variable composite :
  list SourceRef -> Bounds -> Shape -> CRS -> bool ->
  Result (list (string * string) * Pixels).

Record Catalog : Type := mkCatalog {
  get_sources : Bounds -> Q * Q -> Result (list SourceRef) }.

Record Transformation : Type := mkTransformation {
  t_expand : Bounds -> Shape -> Result (Bounds * Shape * Offsets);
  t_transform : Pixels -> Result (Pixels * string);
  t_postprocess : Pixels -> string -> Offsets -> Result Pixels }.

Definition Formatter : Type := Pixels -> string -> Result (string * list Byte.byte).

Definition is_None {A} (x : option A) : bool :=
  match x with None => true | Some _ => false end.

(** [enumerate] *)
Fixpoint enumerate_from {A} (i : nat) (l : list A) : list (nat * A) :=
  match l with
  | [] => []
  | x :: r => (i, x) :: enumerate_from (S i) r
  end.

Definition render (b : Bounds) (shape : Shape) (target_crs : CRS)
    (format : Formatter) (expand : bool)
    (catalog : option Catalog) (sources : option (list SourceRef))
    (transformation : option Transformation)
    : Traced (Headers * list Byte.byte) :=
  do* resolution_m := lift (get_resolution_in_meters haversine b shape) in
  let stats : list (string * Q) := [] in
  if is_None sources && is_None catalog then
    raise (Exception_ "Either sources or a catalog must be provided.")
  else
  do* (b, shape, offsets) :=
    match transformation with
    | Some t =>
      do* (b', shape', offsets) := call EvExpand (t_expand t b shape) in
      ret (b', shape', Some offsets)
    | None => ret (b, shape, None)
    end in
  do* (sources, stats) :=
    match sources, catalog with
    | None, Some c =>
      do* s := call EvGetSources (get_sources c b resolution_m) in
      ret (s, (stats ++ [("Get Sources", elapsed "Get Sources")])%list)
    | Some s, _ => ret (s, stats)
    | None, None => ret ([], stats)
    end in
  (* sources = list(sources) *)
  if (length sources =? 0)%nat then raise NoDataAvailable else
  do* (sources_used, pixels) :=
    call EvComposite (composite sources b shape target_crs expand) in
  let stats := (stats ++ [("Composite", elapsed "Composite")])%list in
  if is_None (data pixels) then raise NoDataAvailable else
  let data_format := "raw" in
  do* (pixels, data_format, stats) :=
    match transformation, offsets with
    | Some t, Some offsets =>
      do* (pixels, data_format) := call EvTransform (t_transform t pixels) in
      let stats := (stats ++ [("Transform", elapsed "Transform")])%list in
      do* pixels := call EvPostprocess (t_postprocess t pixels data_format offsets) in
      ret (pixels, data_format, (stats ++ [("Post-process", elapsed "Post-process")])%list)
    | _, _ => ret (pixels, data_format, stats)
    end in
  do* (ctype, formatted) := call EvFormat (format pixels data_format) in
  let stats := (stats ++ [("Format", elapsed "Format")])%list in
  let headers :=
    mkHeaders ctype
      ((map (fun '(i, (name, time)) => OpEntry i name time) (enumerate_from 0 stats))
       ++ map (fun '(i, (name, url)) => SrcEntry i (header_name name) url)
              (enumerate_from 0 sources_used))%list in
  ret (headers, formatted).
End Render.

(** ** What [Image_transform] leaves in the store *)

(** The buffer the input reference holds after the call. *)
Definition scaled_input (d : MaskedArray) : MaskedArray :=
  if dtype_eqb (ma_dtype d) float32 then imul d (inject_Z (iinfo_max uint8)) else d.

(** The alpha band the three-band path builds. *)
Definition alpha_band (d : MaskedArray) : nat -> nat -> Q :=
  if mask_any d
  then (fun i j => if logical_and_reduce_not_mask d i j then (1 * 255)%Q else (0 * 255)%Q)
  else (fun _ _ => 255%Q).

(** The buffer the call returns. *)
Definition image_output (d : MaskedArray) : MaskedArray :=
  let d1 := scaled_input d in
  if (fst (fst (ma_shape d)) =? 4)%nat
  then transpose_120 (astype_uint8 d1)
  else dstack (transpose_120 (astype_uint8 d1)) (alpha_band d1).

(** ** Sample collaborators and inputs

    Concrete stand-ins for the external calls, used to run the functions
    above on explicit inputs. *)

(** A stand-in for [math.log]: the integer part of the binary logarithm. *)
Definition sample_log (x : Q) : Q := inject_Z (Z.log2 (Qfloor x)).

(** A stand-in for [haversine]: 111 km per degree along the axes. *)
Definition sample_haversine (p q : Q * Q) : Q :=
  (111 * (Qabs (fst p - fst q) + Qabs (snd p - snd q)))%Q.

(** A calculator that always runs out of memory. *)
Definition calc_oom (_ _ : CRS) (_ _ : Z) (_ : Quad) (_ : option (Q * Q))
    : Result (Affine * Z * Z) := Raise MemoryError.

(** A calculator for a source already on the target grid. *)
Definition calc_same_grid (_ _ : CRS) (w h : Z) (bb : Quad) (_ : option (Q * Q))
    : Result (Affine * Z * Z) :=
  let* t := from_bounds bb w h in Ok (t, w, h).

(** A warped view that hands back a given raster: its nodata value is the
    [src_nodata] it was opened with, and it has an alpha band exactly when
    the source has one or one was asked for. *)
Definition raster_vrt (raster : ndarray) (src : Source) (o : VRTOptions) : VRT :=
  let ci := if o_add_alpha o then (src_colorinterp src ++ [CI_alpha])%list
            else src_colorinterp src in
  mkVRT (length ci) ci (o_src_nodata o)
        (fun _ => mkWindow 0 0 (inject_Z (o_width o)) (inject_Z (o_height o)))
        (fun _ _ => raster).

(** A 2 x 2 projected source of one gray band. *)
Definition sample_source (dt : dtype) (nodata : option Q) : Source :=
  mkSource (0, 0, 2, 2)%Q WEB_MERCATOR_CRS 2 2 nodata dt [CI_gray] [[MF_nodata]].

Definition sample_bounds : Bounds := mkBounds (0, 0, 2, 2)%Q WEB_MERCATOR_CRS.

(** One band, one row: the items 0, 7 and the least int16. *)
Definition sample_raster : ndarray :=
  mkArray (1, 1, 3)%nat int16
    (fun _ _ k => match k with 0%nat => 0 | 1%nat => 7 | _ => -32768 end)%Q.

(** A 256 x 256 source at one metre per pixel, and a target four times
    coarser. *)
Definition dem_source : Source :=
  mkSource (0, 0, 256, 256)%Q (mkCRS "EPSG:32633" 32633 false) 256 256 None float32
           [CI_gray] [[MF_all_valid]].

Definition dem_target : Bounds := mkBounds (0, 0, 1024, 1024)%Q WEB_MERCATOR_CRS.

Definition dem_recipes : Recipes := mkRecipes (Some true) None None.

(** Web Mercator given by its PROJ parameters: the same system under
    another string form. *)
Definition mercator_by_parameters : CRS :=
  mkCRS "+proj=merc +a=6378137 +b=6378137 +lat_ts=0.0 +lon_0=0.0 +x_0=0.0 +y_0=0 +k=1.0 +units=m +nadgrids=@null +wktext +no_defs"
        3857 false.

Definition dem_target_by_parameters : Bounds :=
  mkBounds (0, 0, 1024, 1024)%Q mercator_by_parameters.

(** A buffer of the given shape whose items tell their index, unmasked, with
    the bounds (0, 0, 4, 4). *)
Definition sample_grid (s : nat * nat * nat) (dt : dtype) : MaskedArray :=
  mkMasked s dt
    (fun i j k => inject_Z (Z.of_nat (i * 100 + j * 10 + k)))
    (fun _ _ _ => false).

Definition sample_pixels (s : nat * nat * nat) : PixelCollection MaskedArray :=
  PixelCollection_ (sample_grid s uint8) (mkBounds (0, 0, 4, 4)%Q WEB_MERCATOR_CRS).

(** A compositor and a formatter for runs that never reach them. *)
Definition sample_composite (_ : list string) (_ : Bounds) (_ : Shape) (_ : CRS)
    (_ : bool) : Result (list (string * string) * Pixels) :=
  Ok ([], PixelCollection_ None sample_bounds).

Definition sample_format (_ : Pixels) (_ : string) : Result (string * list Byte.byte) :=
  Ok ("application/octet-stream", []).

(** A transformation asking for a margin of one pixel. *)
Definition sample_transformation : Transformation :=
  mkTransformation
    (fun b s => Ok (b, (fst s + 2, snd s + 2), (1, 1, 1, 1)))
    (fun p => Ok (p, "raw"))
    (fun p _ _ => Ok p).

(** A transformation whose [expand] raises. *)
Definition raising_transformation : Transformation :=
  mkTransformation
    (fun _ _ => Raise (ValueError "cannot expand"))
    (fun p => Ok (p, "raw"))
    (fun p _ _ => Ok p).

(** A catalog with no source. *)
Definition empty_catalog : Catalog string := mkCatalog string (fun _ _ => Ok []).

(** ** InvalidTileRequest *)

(** The values a payload dict holds, and the message. *)
Inductive PyValue : Type :=
| VNone
| VBool (b : bool)
| VNum (q : Z)
| VStr (s : string).

(** An [InvalidTileRequest] instance: [self.message], [self.payload]
    (None by default). *)
Record InvalidTileRequest_ : Type := mkInvalidTileRequest {
  itr_message : PyValue;
  itr_payload : option (gmap string PyValue) }.

(** [dict(self.payload or ())]: None and the empty dict are false. *)
Definition payload_or_empty (p : option (gmap string PyValue)) : gmap string PyValue :=
  match p with
  | Some m => if decide (m = ∅) then ∅ else m
  | None => ∅
  end.

(** [to_dict]: a copy of the payload with the message under "message". *)
Definition to_dict (e : InvalidTileRequest_) : gmap string PyValue :=
  let rv := payload_or_empty (itr_payload e) in
  <[ "message" := itr_message e ]> rv.

(** ** Equality up to [==] *)

Definition Point_eq (p q : Q * Q) : Prop :=
  (fst p == fst q /\ snd p == snd q)%Q.

Definition Affine_eq (s t : Affine) : Prop :=
  (af_a s == af_a t /\ af_b s == af_b t /\ af_c s == af_c t /\
   af_d s == af_d t /\ af_e s == af_e t /\ af_f s == af_f t)%Q.

(** The states of the retry loop, exactly: (0, 1), then (n, 2 n). *)
Definition retry_state (attempts scale_factor : Z) : Prop :=
  (attempts = 0 /\ scale_factor = 1) \/ (1 <= attempts /\ scale_factor = 2 * attempts).

(** What a plan with a transform is made of. *)
Definition rescaled_from
    (calc : CRS -> CRS -> Z -> Z -> Quad -> option (Q * Q) -> Result (Affine * Z * Z))
    (src : Source) (b : Bounds) (res : option (Q * Q))
    (p : Plan) (t : Affine) : Prop :=
  exists (sf : Z) (t0 : Affine) (w0 h0 : Z) (w' h' : Q),
    (sf = 1 \/ Z.even sf = true) /\ 1 <= sf
    /\ 0 < src_width src / sf /\ 0 < src_height src / sf
    /\ calc (src_crs src) (crs b) (src_width src / sf) (src_height src / sf)
            (src_bounds src) res = Ok (t0, w0, h0)
    /\ dst_width p = Some w' /\ dst_height p = Some h'
    /\ (w' == inject_Z sf * inject_Z w0)%Q /\ (h' == inject_Z sf * inject_Z h0)%Q
    /\ (af_a t == af_a t0 / inject_Z sf)%Q /\ (af_b t == af_b t0 / inject_Z sf)%Q
    /\ (af_c t == af_c t0)%Q
    /\ (af_d t == af_d t0 / inject_Z sf)%Q /\ (af_e t == af_e t0 / inject_Z sf)%Q
    /\ (af_f t == af_f t0)%Q
    /\ Point_eq (Affine_apply t (w', h')) (Affine_apply t0 (inject_Z w0, inject_Z h0)).

(** Lines 208-215: the [resolution] argument of the transform calculation. *)
Definition resolution_hint (source_resolution target_resolution : Q * Q)
    : option (Q * Q) :=
  if Qlt_le_dec (fst target_resolution) (fst source_resolution) then Some target_resolution
  else if Qlt_le_dec (snd target_resolution) (snd source_resolution) then Some target_resolution
  else None.

(** A calculator that runs out of memory unless it is given a resolution. *)
Definition calc_hinted (_ _ : CRS) (_ _ : Z) (_ : Quad) (r : option (Q * Q))
    : Result (Affine * Z * Z) :=
  match r with
  | Some _ => Ok (Affine_identity, 2, 2)
  | None => Raise MemoryError
  end.

(** A calculator with one answer. *)
Definition calc_always (_ _ : CRS) (_ _ : Z) (_ : Quad) (_ : option (Q * Q))
    : Result (Affine * Z * Z) := Ok (Affine_identity, 2, 2).

(** ** What [read_window] asks of the warped view *)

(** ["resample"] of the recipes, or the default for the source: nearest for
    a paletted source, bilinear otherwise. *)
Definition resample_name (src : Source) (recipes : Recipes) : string :=
  match r_resample recipes with
  | Some n => n
  | None =>
    if existsb (ColorInterp_eqb CI_palette) (src_colorinterp src)
    then "nearest" else "bilinear"
  end.

(** The source has a per-dataset mask and no alpha band. *)
Definition prefers_mask (src : Source) : bool :=
  existsb (existsb (MaskFlags_eqb MF_per_dataset)) (src_mask_flag_enums src)
  && negb (existsb (existsb (MaskFlags_eqb MF_alpha)) (src_mask_flag_enums src)).

(** The item whose bitwise complement is zero: all bits set. *)
Definition all_ones (dt : dtype) : Q :=
  match dt with
  | uint8 | uint16 | uint32 => inject_Z (iinfo_max dt)
  | _ => (-1)%Q
  end.

(** A warped view without an alpha band, whatever was asked for. *)
Definition plain_vrt (raster : ndarray) (src : Source) (o : VRTOptions) : VRT :=
  mkVRT (length (src_colorinterp src)) (src_colorinterp src) (o_src_nodata o)
        (fun _ => mkWindow 0 0 (inject_Z (o_width o)) (inject_Z (o_height o)))
        (fun _ _ => raster).

(** A view of one gray band and an alpha band, and a read of it: two pixels,
    the first opaque, the second transparent. *)
Definition alpha_view : VRT :=
  mkVRT 2 [CI_gray; CI_alpha] None (fun _ => mkWindow 0 0 2 1)
        (fun _ _ => mkArray (2, 1, 2)%nat uint8 (fun _ _ _ => 0%Q)).

Definition alpha_raster : ndarray :=
  mkArray (2, 1, 2)%nat uint8
    (fun band _ col =>
       match band, col with
       | 0%nat, 0%nat => 10
       | 0%nat, _ => 20
       | _, 0%nat => 255
       | _, _ => 0
       end)%Q.

(** A float32 buffer of three bands and one pixel, holding 0, 1/2 and 1. *)
Definition normalised_grid : MaskedArray :=
  mkMasked (3, 1, 1)%nat float32
    (fun band _ _ => match band with 0%nat => 0 | 1%nat => 1 # 2 | _ => 1 end)%Q
    (fun _ _ _ => false).

(** ** The stages of a render *)

(** The collaborator calls of a render that succeeds, in order. *)
Definition render_calls (with_transformation from_catalog : bool) : list Event :=
  ((if with_transformation then [EvExpand] else [])
   ++ (if from_catalog then [EvGetSources] else [])
   ++ [EvComposite]
   ++ (if with_transformation then [EvTransform; EvPostprocess] else [])
   ++ [EvFormat])%list.

(** The labels of the timed stages, in order. *)
Definition render_labels (with_transformation from_catalog : bool) : list string :=
  ((if from_catalog then ["Get Sources"] else [])
   ++ ["Composite"]
   ++ (if with_transformation then ["Transform"; "Post-process"] else [])
   ++ ["Format"])%list.

(** A compositor that answers with one source used and a buffer. *)
Definition full_composite (_ : list string) (b : Bounds) (_ : Shape) (_ : CRS)
    (_ : bool) : Result (list (string * string) * Pixels) :=
  Ok ([("imagery", "s3://bucket/imagery.tif")],
      PixelCollection_ (Some (sample_grid (3, 2, 2)%nat uint8)) b).

(** A catalog with one source. *)
Definition one_source_catalog : Catalog string :=
  mkCatalog string (fun _ _ => Ok ["imagery"]).

(** * Properties *)

(** ** The table of world extents *)

Lemma Qeq_bool_false (x y : Q) : ~ (x == y)%Q -> Qeq_bool x y = false.
Proof.
  intros Hne. destruct (Qeq_bool x y) eqn:E; [|reflexivity].
  apply Qeq_bool_eq in E. contradiction.
Qed.

Lemma Qle_bool_false (x y : Q) : (y < x)%Q -> Qle_bool x y = false.
Proof.
  intros Hlt. destruct (Qle_bool x y) eqn:E; [|reflexivity].
  apply Qle_bool_imp_le in E. exfalso. apply (Qlt_not_le _ _ Hlt E).
Qed.

Lemma web_mercator_extent :
  exists e, get_extent WEB_MERCATOR_CRS = Ok e /\
    Quad_eq e (- math_pi * EARTH_RADIUS, - math_pi * EARTH_RADIUS,
               math_pi * EARTH_RADIUS, math_pi * EARTH_RADIUS)%Q.
Proof.
  eexists. split; [vm_compute; reflexivity|].
  repeat split; vm_compute; reflexivity.
Qed.

Lemma wgs84_extent :
  exists e, get_extent WGS84_CRS = Ok e /\ Quad_eq e (-180, -90, 180, 90)%Q.
Proof.
  eexists. split; [vm_compute; reflexivity|].
  repeat split; vm_compute; reflexivity.
Qed.

(** C8.  [get_extent] is the lookup of [str(crs)] in [EXTENTS]: a CRS absent
    from the table raises the lookup's error (KeyError, the code's form of
    the design's UnsupportedCRS), a CRS in the table gets its entry; web
    Mercator and WGS84 are in the table, with the whole-world bounds. *)
Theorem get_extent_table (c : CRS) :
  (EXTENTS !! str c = None -> get_extent c = Raise (KeyError (str c)))
  /\ (forall e, EXTENTS !! str c = Some e -> get_extent c = Ok e)
  /\ (exists e, get_extent WEB_MERCATOR_CRS = Ok e /\
        Quad_eq e (- math_pi * EARTH_RADIUS, - math_pi * EARTH_RADIUS,
                   math_pi * EARTH_RADIUS, math_pi * EARTH_RADIUS)%Q)
  /\ (exists e, get_extent WGS84_CRS = Ok e /\ Quad_eq e (-180, -90, 180, 90)%Q).
Proof.
  unfold get_extent. split; [|split; [|split]].
  - intros ->. reflexivity.
  - intros e ->. reflexivity.
  - exact web_mercator_extent.
  - exact wgs84_extent.
Qed.

Lemma get_extent_table_witness :
  get_extent (mkCRS "EPSG:32633" 32633 false) = Raise (KeyError "EPSG:32633")
  /\ is_ok (get_extent WGS84_CRS) = true.
Proof.
  destruct (get_extent_table (mkCRS "EPSG:32633" 32633 false)) as (Habsent & _ & _ & Hwgs).
  split.
  - apply Habsent. vm_compute. reflexivity.
  - destruct Hwgs as (e & -> & _). reflexivity.
Defined.

(** ** The transform planner *)

Lemma inject_Z_eq0 (z : Z) : (inject_Z z == 0)%Q <-> z = 0.
Proof. unfold Qeq. simpl. lia. Qed.

Section PlannerFacts.
Variable haversine : Q * Q -> Q * Q -> Q.
Variable math_log : Q -> Q.
Variable calc : CRS -> CRS -> Z -> Z -> Quad -> option (Q * Q) -> Result (Affine * Z * Z).

Lemma loop_state_next (attempts sf : Z) :
  loop_state attempts sf ->
  loop_state (attempts + 1) (2 * (attempts + 1)) /\ sf < 2 * (attempts + 1).
Proof. unfold loop_state. lia. Qed.

Lemma scaled_zero (n sf : Z) : 1 <= sf -> n < sf -> (0 <? n / sf) = false.
Proof.
  intros Hsf Hlt. apply Z.ltb_ge.
  assert (n / sf < 1) by (apply Z.div_lt_upper_bound; lia). lia.
Qed.

Lemma scaled_pos (n sf : Z) : 1 <= sf -> (0 <? n / sf) = true -> sf <= n.
Proof.
  intros Hsf Hpos. apply Z.ltb_lt in Hpos.
  destruct (Z_lt_le_dec n sf) as [Hlt|]; [|assumption].
  pose proof (scaled_zero n sf Hsf Hlt) as Hz. apply Z.ltb_ge in Hz. lia.
Qed.

(** The loop ends within its budget, whatever the calculator does. *)
Lemma retry_loop_total (src : Source) (b : Bounds) (res : option (Q * Q)) :
  forall (budget : nat) (attempts sf : Z),
    loop_state attempts sf ->
    src_width src - sf + 1 <= Z.of_nat budget ->
    retry_loop calc budget src b res attempts sf <> None.
Proof.
  induction budget as [|budget IH]; intros attempts sf Hst Hb; simpl.
  - rewrite (scaled_zero (src_width src) sf); [discriminate | unfold loop_state in Hst; lia | lia].
  - destruct (0 <? src_width src / sf) eqn:Hw; simpl; [|discriminate].
    destruct (0 <? src_height src / sf) eqn:Hh; simpl; [|discriminate].
    destruct (calc _ _ _ _ _ _) as [[[t w] h]|e].
    + destruct (Affine_invert (Affine_scale _ _)); simpl; discriminate.
    + destruct (loop_state_next attempts sf Hst) as [Hst' Hlt].
      destruct e; try discriminate.
      apply IH; [assumption | lia].
Qed.

(** When every call on a grid of positive size runs out of memory, the loop
    ends with no transform. *)
Lemma retry_loop_exhausted (src : Source) (b : Bounds) (res : option (Q * Q)) :
  (forall c1 c2 w h bb r, 0 < w -> 0 < h -> calc c1 c2 w h bb r = Raise MemoryError) ->
  forall (budget : nat) (attempts sf : Z),
    loop_state attempts sf ->
    src_width src - sf + 1 <= Z.of_nat budget ->
    retry_loop calc budget src b res attempts sf = Some (Ok (mkPlan None None None)).
Proof.
  intros Hoom.
  induction budget as [|budget IH]; intros attempts sf Hst Hb; simpl.
  - rewrite (scaled_zero (src_width src) sf); [reflexivity | unfold loop_state in Hst; lia | lia].
  - destruct (0 <? src_width src / sf) eqn:Hw; simpl; [|reflexivity].
    destruct (0 <? src_height src / sf) eqn:Hh; simpl; [|reflexivity].
    rewrite Hoom by (apply Z.ltb_lt; assumption).
    destruct (loop_state_next attempts sf Hst) as [Hst' Hlt].
    apply IH; [assumption | lia].
Qed.

Lemma loop_state_init : loop_state 0 1.
Proof. unfold loop_state. lia. Qed.

(** [plan_generic] gives its loop budget enough. *)
Lemma plan_generic_budget (src : Source) (b : Bounds) (res : option (Q * Q)) :
  retry_loop calc (Z.to_nat (src_width src)) src b res 0 1 <> None.
Proof. apply retry_loop_total; [exact loop_state_init | lia]. Qed.

Lemma plan_generic_exhausted (src : Source) (b : Bounds) (sr tr : Q * Q) :
  (forall c1 c2 w h bb r, 0 < w -> 0 < h -> calc c1 c2 w h bb r = Raise MemoryError) ->
  plan_generic calc src b sr tr = Ok (mkPlan None None None).
Proof.
  intros Hoom. unfold plan_generic.
  rewrite (retry_loop_exhausted src b _ Hoom); [reflexivity | exact loop_state_init | lia].
Qed.

(** What a transform of the generic branch is made of. *)
Lemma Affine_invert_scale (s : Q) :
  ~ (s == 0)%Q ->
  exists inv,
    Affine_invert (Affine_scale s s) = Ok inv
    /\ (af_a inv == 1 / s)%Q /\ (af_b inv == 0)%Q /\ (af_c inv == 0)%Q
    /\ (af_d inv == 0)%Q /\ (af_e inv == 1 / s)%Q /\ (af_f inv == 0)%Q.
Proof.
  intros Hs. unfold Affine_invert, Affine_scale. cbn [af_a af_b af_c af_d af_e af_f].
  assert (Hdet : ~ (s * s - 0 * 0 == 0)%Q).
  { intros E. apply Hs. assert (E' : (s * s == 0)%Q) by (rewrite <- E; ring).
    apply Qmult_integral in E'. destruct E'; assumption. }
  rewrite Qeq_bool_false by exact Hdet.
  eexists. split; [reflexivity|]. cbn [af_a af_b af_c af_d af_e af_f].
  repeat split; field; auto.
Qed.

Lemma retry_state_next (attempts sf : Z) :
  retry_state attempts sf -> retry_state (attempts + 1) (2 * (attempts + 1)).
Proof. unfold retry_state. lia. Qed.

Lemma retry_state_scale (attempts sf : Z) :
  retry_state attempts sf -> (sf = 1 \/ Z.even sf = true) /\ 1 <= sf.
Proof.
  unfold retry_state. intros [[_ ->] | [Ha ->]].
  - split; [left; reflexivity | lia].
  - split; [right; rewrite Z.even_mul; reflexivity | lia].
Qed.

Lemma retry_loop_rescaled (src : Source) (b : Bounds) (res : option (Q * Q)) :
  forall (budget : nat) (attempts sf : Z) (p : Plan) (t : Affine),
    retry_state attempts sf ->
    retry_loop calc budget src b res attempts sf = Some (Ok p) ->
    dst_transform p = Some t ->
    rescaled_from calc src b res p t.
Proof.
  induction budget as [|budget IH]; intros attempts sf p t Hst; simpl.
  - destruct (_ && _); [discriminate|]. intros [= <-]. discriminate.
  - destruct (0 <? src_width src / sf) eqn:Hw; simpl;
      [|intros [= <-]; discriminate].
    destruct (0 <? src_height src / sf) eqn:Hh; simpl;
      [|intros [= <-]; discriminate].
    destruct (calc _ _ _ _ _ _) as [[[t0 w0] h0]|e] eqn:Hc.
    + destruct (retry_state_scale attempts sf Hst) as [Hform Hge].
      assert (Hsf : ~ (inject_Z sf == 0)%Q) by (rewrite inject_Z_eq0; lia).
      destruct (Affine_invert_scale (inject_Z sf) Hsf)
        as (inv & -> & Ha & Hb & Hcc & Hd & He & Hf).
      intros [= <-]. cbn [dst_transform]. intros [= <-].
      exists sf, t0, w0, h0. do 2 eexists.
      apply Z.ltb_lt in Hw. apply Z.ltb_lt in Hh.
      split; [exact Hform|]. split; [exact Hge|].
      split; [exact Hw|]. split; [exact Hh|]. split; [exact Hc|].
      cbn [dst_width dst_height].
      split; [reflexivity|]. split; [reflexivity|].
      cbn [Affine_mul Affine_apply Affine_scale af_a af_b af_c af_d af_e af_f].
      split; [ring|]. split; [ring|].
      rewrite Ha, Hb, Hcc, Hd, He, Hf.
      split; [field; exact Hsf|]. split; [field; exact Hsf|]. split; [ring|].
      split; [field; exact Hsf|]. split; [field; exact Hsf|]. split; [ring|].
      unfold Point_eq. cbn [fst snd]. split; field; exact Hsf.
    + destruct e; try discriminate.
      apply IH. apply (retry_state_next attempts sf Hst).
Qed.
End PlannerFacts.

Section ReadWindowFacts.
Variable haversine : Q * Q -> Q * Q -> Q.
Variable math_log : Q -> Q.
Variable calc : CRS -> CRS -> Z -> Z -> Quad -> option (Q * Q) -> Result (Affine * Z * Z).
Variable WarpedVRT : Source -> VRTOptions -> VRT.

Lemma Resampling_lookup_cases (name : string) :
  Resampling_lookup name = Ok name \/ Resampling_lookup name = Raise (KeyError name).
Proof. unfold Resampling_lookup. destruct (existsb _ _); auto. Qed.

(** Without a transform, [read_window] stops at the first use of it, or at
    the resampling lookup just before. *)
Lemma read_window_no_transform (src : Source) (b : Bounds) (shape : Shape)
    (recipes : Recipes) :
  plan_transform haversine math_log calc src b shape recipes = Ok (mkPlan None None None) ->
  read_window haversine math_log calc WarpedVRT src b shape (Some recipes)
    = Raise (AttributeError "a")
  \/ exists name,
       read_window haversine math_log calc WarpedVRT src b shape (Some recipes)
         = Raise (KeyError name).
Proof.
  intros Hplan. unfold read_window. rewrite Hplan. simpl.
  destruct (existsb (ColorInterp_eqb CI_palette) (src_colorinterp src));
    (match goal with
     | |- context [Resampling_lookup ?n] =>
       destruct (Resampling_lookup_cases n) as [-> | ->]; simpl;
         [| right; eexists; reflexivity]
     end);
    destruct (_ && negb _); destruct (bounds b) as [[[w s] e] n];
    left; reflexivity.
Qed.

(** C4.  In the generic case, when every transform calculation on a grid of
    positive size runs out of memory, the retry loop ends within its budget,
    once a scaled dimension reaches zero, and leaves no transform.  The
    planner does not abort there: the loop has caught the memory error and
    nothing raises it again, so the plan goes on without a transform and
    [read_window] fails further down, never with the memory error.  With any
    calculator, a transform the generic branch returns is the calculator's
    answer for a grid whose scaled width and height are both positive,
    brought back to full size. *)
Theorem retry_exhausted_not_propagated (src : Source) (b : Bounds) (shape : Shape)
    (recipes : Recipes) (sr tr : Q * Q) :
  (forall c1 c2 w h bb r, 0 < w -> 0 < h -> calc c1 c2 w h bb r = Raise MemoryError) ->
  get_resolution_in_meters haversine (mkBounds (src_bounds src) (src_crs src))
    (src_height src, src_width src) = Ok sr ->
  get_resolution b shape = Ok tr ->
  special_case recipes b sr tr = false ->
  (forall res, retry_loop calc (Z.to_nat (src_width src)) src b res 0 1
               = Some (Ok (mkPlan None None None)))
  /\ plan_transform haversine math_log calc src b shape recipes
       = Ok (mkPlan None None None)
  /\ read_window haversine math_log calc WarpedVRT src b shape (Some recipes)
       <> Raise MemoryError
  /\ (forall pc,
        read_window haversine math_log calc WarpedVRT src b shape (Some recipes) <> Ok pc)
  /\ (forall calc' p t,
        plan_generic calc' src b sr tr = Ok p -> dst_transform p = Some t ->
        exists res, rescaled_from calc' src b res p t).
Proof.
  intros Hoom Hsr Htr Hgen.
  assert (Hplan : plan_transform haversine math_log calc src b shape recipes
                  = Ok (mkPlan None None None)).
  { unfold plan_transform. rewrite Hsr, Htr. simpl. rewrite Hgen.
    apply plan_generic_exhausted. exact Hoom. }
  split; [|split; [|split; [|split]]].
  - intros res. apply retry_loop_exhausted;
      [exact Hoom | exact loop_state_init | lia].
  - exact Hplan.
  - destruct (read_window_no_transform src b shape recipes Hplan) as [-> | [name ->]];
      discriminate.
  - intros pc.
    destruct (read_window_no_transform src b shape recipes Hplan) as [-> | [name ->]];
      discriminate.
  - intros calc' p t. unfold plan_generic. intros Hp Ht.
    match type of Hp with
    | context [retry_loop calc' ?n src b ?res 0 1] =>
      destruct (retry_loop calc' n src b res 0 1) as [r|] eqn:Hloop; [|discriminate];
      subst r; exists res;
      apply (retry_loop_rescaled calc' src b res n 0 1 p t);
        [left; split; reflexivity | exact Hloop | exact Ht]
    end.
Qed.

(** C5.  In the web Mercator DEM case the planner's zoom is
    [min(22, get_zoom(max(source_resolution), ceil))], at most 22, and the
    destination width and height are both 256 * 2^zoom.  The zoom is chosen
    whenever the source resolution is positive; the branch then returns its
    plan for a target that prints as "EPSG:3857", and raises the KeyError of
    [get_extent] for a target that is the web Mercator system under a string
    form the table does not hold. *)
Theorem special_case_zoom (src : Source) (b : Bounds) (shape : Shape)
    (recipes : Recipes) (sr tr : Q * Q) :
  get_resolution_in_meters haversine (mkBounds (src_bounds src) (src_crs src))
    (src_height src, src_width src) = Ok sr ->
  get_resolution b shape = Ok tr ->
  special_case recipes b sr tr = true ->
  (forall p, plan_transform haversine math_log calc src b shape recipes = Ok p ->
     exists z zoom : Z,
       get_zoom math_log (py_max2 sr) math_ceil = Ok z /\
       zoom = Z.min 22 z /\ zoom <= 22 /\
       dst_width p = Some (2 ^ zoom * 256)%Q /\
       dst_height p = Some (2 ^ zoom * 256)%Q)
  /\ ((0 < py_max2 sr)%Q -> ~ (math_log 2 == 0)%Q ->
      (exists z, get_zoom math_log (py_max2 sr) math_ceil = Ok z)
      /\ (str (crs b) = "EPSG:3857" ->
          exists p, plan_transform haversine math_log calc src b shape recipes = Ok p)
      /\ (EXTENTS !! str (crs b) = None ->
          plan_transform haversine math_log calc src b shape recipes
          = Raise (KeyError (str (crs b))))).
Proof.
  intros Hsr Htr Hsp.
  assert (Hplan : plan_transform haversine math_log calc src b shape recipes
                  = plan_special haversine math_log src b).
  { unfold plan_transform. rewrite Hsr, Htr. simpl. rewrite Hsp. reflexivity. }
  rewrite Hplan. unfold plan_special. rewrite Hsr. simpl.
  split.
  - intros p. destruct (get_zoom math_log (py_max2 sr) math_ceil) as [z|]; simpl;
      [|discriminate].
    destruct (get_extent (crs b)); simpl; [|discriminate].
    destruct (py_div _ _); simpl; [|discriminate].
    destruct (py_div _ _); simpl; [|discriminate].
    intros [= <-]. exists z, (Z.min 22 z). simpl. repeat split; lia.
  - intros Hpos Hlog2.
    assert (Hz : exists z, get_zoom math_log (py_max2 sr) math_ceil = Ok z).
    { unfold get_zoom, py_div, py_log.
      assert (Hden : (0 < py_max2 sr * 256)%Q).
      { apply Qmult_lt_0_compat; [exact Hpos | reflexivity]. }
      rewrite Qeq_bool_false by (intros E; rewrite E in Hden; discriminate).
      simpl.
      rewrite Qle_bool_false;
        [| apply Qlt_shift_div_l; [exact Hden | rewrite Qmult_0_l; reflexivity]].
      simpl.
      rewrite Qeq_bool_false by exact Hlog2. simpl. eexists. reflexivity. }
    destruct Hz as [z Hz]. rewrite Hz. simpl.
    split; [exists z; reflexivity|]. split.
    + intros Hcrs.
      assert (Hext : exists e, get_extent (crs b) = Ok e).
      { unfold get_extent. rewrite Hcrs. vm_compute. eexists. reflexivity. }
      destruct Hext as [e ->]. simpl.
      assert (Hdim : ~ (2 ^ Z.min 22 z * 256 == 0)%Q).
      { intros E.
        assert (H0 : (0 < 2 ^ Z.min 22 z * 256)%Q).
        { apply Qmult_lt_0_compat; [apply Qpower_0_lt|]; reflexivity. }
        rewrite E in H0. discriminate. }
      unfold py_div. rewrite Qeq_bool_false by exact Hdim. simpl.
      eexists. reflexivity.
    + intros Hnone. unfold get_extent. rewrite Hnone. reflexivity.
Qed.
End ReadWindowFacts.

Lemma retry_exhausted_not_propagated_witness :
  plan_transform sample_haversine sample_log calc_oom
    (sample_source int16 (Some 7%Q)) sample_bounds (1, 3) no_recipes
    = Ok (mkPlan None None None)
  /\ read_window sample_haversine sample_log calc_oom (raster_vrt sample_raster)
       (sample_source int16 (Some 7%Q)) sample_bounds (1, 3) (Some no_recipes)
     <> Raise MemoryError.
Proof.
  destruct (retry_exhausted_not_propagated sample_haversine sample_log calc_oom
              (raster_vrt sample_raster) (sample_source int16 (Some 7%Q)) sample_bounds
              (1, 3) no_recipes (2 # 2, 2 # 2)%Q ((2 # 3), 2)%Q)
    as (_ & Hplan & Hmem & _).
  - intros. reflexivity.
  - vm_compute. reflexivity.
  - vm_compute. reflexivity.
  - vm_compute. reflexivity.
  - split; [exact Hplan | exact Hmem].
Defined.

(** The same call, evaluated: two attempts, at the scale factors 1 and 2,
    then a scaled width of zero; the caller gets the AttributeError of the
    first use of the missing transform. *)
Lemma retry_exhausted_attribute_error :
  read_window sample_haversine sample_log calc_oom (raster_vrt sample_raster)
    (sample_source int16 (Some 7%Q)) sample_bounds (1, 3) None
    = Raise (AttributeError "a")
  /\ read_window sample_haversine sample_log calc_oom (raster_vrt sample_raster)
       (sample_source int16 (Some 7%Q)) sample_bounds (1, 3) None
     <> Raise MemoryError.
Proof. split; [vm_compute; reflexivity | vm_compute; discriminate]. Qed.

Lemma special_case_zoom_witness :
  exists z zoom : Z,
    get_zoom sample_log (py_max2 (256 # 256, 256 # 256)%Q) math_ceil = Ok z /\
    zoom = Z.min 22 z /\ zoom <= 22 /\
    Some (33554432%Q) = Some (2 ^ zoom * 256)%Q /\
    Some (33554432%Q) = Some (2 ^ zoom * 256)%Q.
Proof.
  refine (proj1 (special_case_zoom sample_haversine sample_log calc_oom
            dem_source dem_target (256, 256) dem_recipes
            (256 # 256, 256 # 256)%Q (1024 # 256, 1024 # 256)%Q _ _ _)
          (mkPlan _ (Some 33554432%Q) (Some 33554432%Q)) _).
  - vm_compute. reflexivity.
  - vm_compute. reflexivity.
  - vm_compute. reflexivity.
  - vm_compute. reflexivity.
Defined.

(** A target that is web Mercator by its PROJ parameters takes the same
    branch, and the lookup of its extent fails. *)
Lemma special_case_by_parameters :
  special_case dem_recipes dem_target_by_parameters
    (256 # 256, 256 # 256)%Q (1024 # 256, 1024 # 256)%Q = true
  /\ plan_transform sample_haversine sample_log calc_oom
       dem_source dem_target_by_parameters (256, 256) dem_recipes
     = Raise (KeyError (str mercator_by_parameters)).
Proof. split; vm_compute; reflexivity. Qed.

(** ** The nodata value and the mask of a read *)

Lemma resolve_nodata_undeclared (src : Source) (recipes : Recipes) :
  r_nodata recipes = None ->
  src_nodata src = None ->
  resolve_nodata src recipes = Some (_nodata (src_dtype src)).
Proof. intros Hr H. unfold resolve_nodata, py_or. rewrite Hr, H. reflexivity. Qed.

Lemma resolve_nodata_declared (src : Source) (recipes : Recipes) (v : Q) :
  r_nodata recipes = None ->
  src_nodata src = Some v -> ~ (v == 0)%Q ->
  resolve_nodata src recipes = Some v.
Proof.
  intros Hr H Hv. unfold resolve_nodata, py_or. rewrite Hr, H.
  rewrite Qeq_bool_false by exact Hv. reflexivity.
Qed.

(** A declared value of zero is false for [or]: the value derived from the
    dtype takes its place. *)
Lemma resolve_nodata_declared_zero (src : Source) (recipes : Recipes) (v : Q) :
  r_nodata recipes = None ->
  src_nodata src = Some v -> (v == 0)%Q ->
  resolve_nodata src recipes = Some (_nodata (src_dtype src)).
Proof.
  intros Hr H Hv. unfold resolve_nodata, py_or. rewrite Hr, H.
  apply Qeq_bool_iff in Hv. rewrite Hv. reflexivity.
Qed.

(** The recipe's value, None included, replaces either. *)
Lemma resolve_nodata_recipe (src : Source) (recipes : Recipes) (v : option Q) :
  r_nodata recipes = Some v -> resolve_nodata src recipes = v.
Proof. intros Hr. unfold resolve_nodata. rewrite Hr. reflexivity. Qed.

(** Without an alpha band, an integer read is masked exactly at the items
    equal to the view's nodata value. *)
Lemma mask_read_by_value (vrt : VRT) (nodata v : Q) (d : ndarray) :
  existsb (ColorInterp_eqb CI_alpha) (vrt_colorinterp vrt) = false ->
  vrt_nodata vrt = Some v ->
  is_floating (adtype d) = false ->
  exists m, mask_read vrt (Some nodata) d = Ok m /\
    ma_shape m = shape d /\
    forall i j k, ma_mask m i j k = true <-> (item d i j k == v)%Q.
Proof.
  intros Halpha Hv Hint. unfold mask_read. rewrite Halpha, Hv.
  unfold _mask. rewrite Hint. eexists. split; [reflexivity|].
  split; [reflexivity|]. intros i j k. simpl. apply Qeq_bool_iff.
Qed.

(** A read of integer pixels through a view that keeps the nodata value it
    is opened with and has no alpha band, from a source that declares a
    nonzero nodata value and prefers no dataset mask, with no nodata recipe:
    exactly the pixels equal to the declared value are masked. *)
Lemma read_window_declared_nonzero
    (haversine : Q * Q -> Q * Q -> Q) (math_log : Q -> Q)
    (calc : CRS -> CRS -> Z -> Z -> Quad -> option (Q * Q) -> Result (Affine * Z * Z))
    (WarpedVRT : Source -> VRTOptions -> VRT)
    (src : Source) (b : Bounds) (target_shape : Shape) (recipes : Recipes) (v : Q)
    (pc : PixelCollection MaskedArray) :
  src_nodata src = Some v -> ~ (v == 0)%Q ->
  r_nodata recipes = None ->
  existsb (existsb (MaskFlags_eqb MF_per_dataset)) (src_mask_flag_enums src)
    && negb (existsb (existsb (MaskFlags_eqb MF_alpha)) (src_mask_flag_enums src))
    = false ->
  (forall o, vrt_nodata (WarpedVRT src o) = o_src_nodata o) ->
  (forall o, existsb (ColorInterp_eqb CI_alpha) (vrt_colorinterp (WarpedVRT src o)) = false) ->
  (forall o s w, is_floating (adtype (vrt_read (WarpedVRT src o) s w)) = false) ->
  read_window haversine math_log calc WarpedVRT src b target_shape (Some recipes) = Ok pc ->
  exists o s w,
    o_src_nodata o = Some v /\
    ma_shape (data pc) = shape (vrt_read (WarpedVRT src o) s w) /\
    forall i j k,
      ma_mask (data pc) i j k = true <-> (item (vrt_read (WarpedVRT src o) s w) i j k == v)%Q.
Proof.
  intros Hdecl Hv Hrec Hpref Hnod Halpha Hint Hread.
  unfold read_window in Hread.
  destruct (plan_transform _ _ _ _ _ _ _) as [plan|]; cbn [bind] in Hread;
    [|discriminate].
  destruct (existsb (ColorInterp_eqb CI_palette) (src_colorinterp src));
    (match type of Hread with
     | context [Resampling_lookup ?n] =>
       destruct (Resampling_lookup n) as [rs|]; cbn [bind] in Hread; [|discriminate]
     end);
    rewrite Hpref in Hread;
    destruct (bounds b) as [[[bw bs] be] bn];
    (destruct (dst_transform plan) as [t|]; [|discriminate]);
    (destruct (py_div (be - bw) (af_a t)) as [vw|]; cbn [bind] in Hread; [|discriminate]);
    (destruct (py_div (bs - bn) (af_e t)) as [vh|]; cbn [bind] in Hread; [|discriminate]);
    rewrite (resolve_nodata_declared src recipes v Hrec Hdecl Hv) in Hread;
    (match type of Hread with
     | context [mask_read (WarpedVRT src ?o) (Some v) (vrt_read _ ?s ?w)] =>
       destruct (mask_read_by_value (WarpedVRT src o) v v
                   (vrt_read (WarpedVRT src o) s w)
                   (Halpha o) (eq_trans (Hnod o) eq_refl) (Hint o s w))
         as (m & Hm & Hshape & Hmask);
       rewrite Hm in Hread; cbn [bind] in Hread;
       injection Hread as <-; exists o, s, w
     end);
    (split; [reflexivity|]); (split; [exact Hshape|]); exact Hmask.
Qed.

(** C1.  The code at an int16 source that declares nodata 0, with no
    recipe, no dataset mask and no alpha band: [src.nodata or ...] takes the
    declared 0 for a missing value and masks with the least int16 instead,
    so the pixel equal to the declared value stays valid and the pixel equal
    to -32768 is masked. *)
Theorem declared_zero_nodata_not_masked :
  resolve_nodata (sample_source int16 (Some 0%Q)) no_recipes = Some (-32768)%Q
  /\ exists pc,
       read_window sample_haversine sample_log calc_same_grid (raster_vrt sample_raster)
         (sample_source int16 (Some 0%Q)) sample_bounds (1, 3) None = Ok pc
       /\ (item sample_raster 0 0 0 == 0)%Q
       /\ ma_mask (data pc) 0 0 0 = false
       /\ (item sample_raster 0 0 2 == -32768)%Q
       /\ ma_mask (data pc) 0 0 2 = true.
Proof.
  split; [vm_compute; reflexivity|].
  eexists. split; [vm_compute; reflexivity|].
  repeat split; vm_compute; reflexivity.
Qed.

(** The same source declaring 7: the pixel equal to 7 is the one masked. *)
Lemma declared_nonzero_nodata_masked :
  exists pc,
    read_window sample_haversine sample_log calc_same_grid (raster_vrt sample_raster)
      (sample_source int16 (Some 7%Q)) sample_bounds (1, 3) None = Ok pc
    /\ ma_mask (data pc) 0 0 0 = false
    /\ ma_mask (data pc) 0 0 1 = true
    /\ ma_mask (data pc) 0 0 2 = false.
Proof.
  eexists. split; [vm_compute; reflexivity|].
  repeat split; vm_compute; reflexivity.
Qed.

(** ** Crop *)

Lemma py_slice_inner (lo hi : Z) (n : nat) :
  0 <= lo -> lo <= hi -> hi <= Z.of_nat n ->
  py_slice lo hi n = (Z.to_nat lo, Z.to_nat (hi - lo)).
Proof.
  intros H0 H1 H2. unfold py_slice, slice_bound.
  destruct (lo <? 0) eqn:E1; [apply Z.ltb_lt in E1; lia|].
  destruct (hi <? 0) eqn:E2; [apply Z.ltb_lt in E2; lia|].
  rewrite !Z.min_l by lia. reflexivity.
Qed.

Lemma inject_Z_nonzero (n : nat) : (0 < n)%nat -> ~ (inject_Z (Z.of_nat n) == 0)%Q.
Proof.
  intros Hn E. unfold Qeq in E. simpl in E. lia.
Qed.

Lemma py_div_ok (x y : Q) : ~ (y == 0)%Q -> py_div x y = Ok (x / y)%Q.
Proof. intros Hy. unfold py_div. rewrite Qeq_bool_false by exact Hy. reflexivity. Qed.

(** The start of both branches of [crop], on a buffer with pixels. *)
Ltac crop_begin Hfmt Hshape :=
  unfold crop; cbn [data pc_bounds bounds crs]; rewrite Hfmt, Hshape;
  unfold from_bounds;
  rewrite !py_div_ok by (apply inject_Z_nonzero; assumption);
  cbn [bind].

(** The band-major branch keeps the rows [top, height - bottom) and the
    columns [left, width - right). *)
Lemma crop_band_major_shape (pc : PixelCollection MaskedArray) (fmt : string)
    (o_left o_bottom o_right o_top : Z) (c h w : nat) :
  _isimage fmt = false ->
  ma_shape (data pc) = (c, h, w) ->
  (0 < h)%nat -> (0 < w)%nat ->
  0 <= o_left -> 0 <= o_bottom -> 0 <= o_right -> 0 <= o_top ->
  o_top + o_bottom <= Z.of_nat h -> o_left + o_right <= Z.of_nat w ->
  exists pc', crop pc fmt (o_left, o_bottom, o_right, o_top) = Ok pc' /\
    ma_shape (data pc') =
      (c, Z.to_nat (Z.of_nat h - o_top - o_bottom),
          Z.to_nat (Z.of_nat w - o_left - o_right)).
Proof.
  intros Hfmt Hshape Hh Hw Hl Hb Hr Ht Hv Hu.
  destruct pc as [d [[[[west south] east] north] dcrs] band cmap]. simpl in *.
  crop_begin Hfmt Hshape.
  eexists. split; [reflexivity|].
  cbn [data PixelCollection_]. unfold slice_12. rewrite Hshape. cbn [ma_shape].
  rewrite !py_slice_inner by lia. cbn [snd].
  f_equal; [f_equal|]; lia.
Qed.

(** The bounds [crop] returns are those of a window of the full width and
    height placed at (left, top): the old bounds moved by [left] pixels to
    the east and [top] pixels to the south; [right] and [bottom] play no
    part. *)
Lemma crop_band_major_bounds (pc : PixelCollection MaskedArray) (fmt : string)
    (o_left o_bottom o_right o_top : Z) (c h w : nat) :
  _isimage fmt = false ->
  ma_shape (data pc) = (c, h, w) ->
  (0 < h)%nat -> (0 < w)%nat ->
  exists pc', crop pc fmt (o_left, o_bottom, o_right, o_top) = Ok pc' /\
    let bb := bounds (pc_bounds pc) in
    let dx := (inject_Z o_left * ((q2 bb - q0 bb) / inject_Z (Z.of_nat w)))%Q in
    let dy := (inject_Z o_top * ((q3 bb - q1 bb) / inject_Z (Z.of_nat h)))%Q in
    Quad_eq (bounds (pc_bounds pc'))
            (q0 bb + dx, q1 bb - dy, q2 bb + dx, q3 bb - dy)%Q.
Proof.
  intros Hfmt Hshape Hh Hw.
  destruct pc as [d [[[[west south] east] north] dcrs] band cmap]. simpl in *.
  crop_begin Hfmt Hshape.
  eexists. split; [reflexivity|]. cbn [data pc_bounds bounds crs PixelCollection_].
  pose proof (inject_Z_nonzero h Hh) as Hh0.
  pose proof (inject_Z_nonzero w Hw) as Hw0.
  unfold Quad_eq, windows_bounds. simpl. repeat split; field; auto.
Qed.

(** With no offsets the band-major branch gives back the same data and
    bounds. *)
Lemma crop_zero_offsets_band_major (pc : PixelCollection MaskedArray) (fmt : string)
    (c h w : nat) :
  _isimage fmt = false ->
  ma_shape (data pc) = (c, h, w) ->
  (0 < h)%nat -> (0 < w)%nat ->
  exists pc', crop pc fmt (0, 0, 0, 0) = Ok pc' /\
    ma_same (data pc') (data pc) /\
    Quad_eq (bounds (pc_bounds pc')) (bounds (pc_bounds pc)) /\
    crs (pc_bounds pc') = crs (pc_bounds pc).
Proof.
  intros Hfmt Hshape Hh Hw.
  destruct pc as [d [[[[west south] east] north] dcrs] band cmap]. simpl in *.
  crop_begin Hfmt Hshape.
  eexists. split; [reflexivity|]. cbn [data pc_bounds bounds crs PixelCollection_].
  pose proof (inject_Z_nonzero h Hh) as Hh0.
  pose proof (inject_Z_nonzero w Hw) as Hw0.
  split; [|split; [|reflexivity]].
  - unfold ma_same, slice_12. rewrite Hshape. cbn [ma_shape ma_data ma_mask].
    rewrite !py_slice_inner by lia. cbn [fst snd].
    rewrite !Z.sub_0_r, !Nat2Z.id. change (Z.to_nat 0) with 0%nat.
    split; [reflexivity|]. intros i j k _ _ _. split; reflexivity.
  - unfold Quad_eq, windows_bounds. simpl. repeat split; field; auto.
Qed.

(** The same on a square image-layout buffer. *)
Lemma crop_zero_offsets_square_image (pc : PixelCollection MaskedArray) (fmt : string)
    (n bands : nat) :
  _isimage fmt = true ->
  ma_shape (data pc) = (n, n, bands) ->
  (0 < n)%nat ->
  exists pc', crop pc fmt (0, 0, 0, 0) = Ok pc' /\
    ma_same (data pc') (data pc) /\
    Quad_eq (bounds (pc_bounds pc')) (bounds (pc_bounds pc)).
Proof.
  intros Hfmt Hshape Hn.
  destruct pc as [d [[[[west south] east] north] dcrs] band cmap]. simpl in *.
  crop_begin Hfmt Hshape.
  eexists. split; [reflexivity|]. cbn [data pc_bounds bounds crs PixelCollection_].
  pose proof (inject_Z_nonzero n Hn) as Hn0.
  split.
  - unfold ma_same, slice_01. rewrite Hshape. cbn [ma_shape ma_data ma_mask].
    rewrite !py_slice_inner by lia. cbn [fst snd].
    rewrite !Z.sub_0_r, !Nat2Z.id. change (Z.to_nat 0) with 0%nat.
    split; [reflexivity|]. intros i j k _ _ _. split; reflexivity.
  - unfold Quad_eq, windows_bounds. simpl. repeat split; field; auto.
Qed.

(** C2.  The code on a 4 x 4 band-major buffer over (0, 0, 4, 4): taking one
    pixel off the left edge gives the bounds (1, 0, 5, 4), the east bound
    moves outward with the west one; taking one pixel off the right edge
    leaves all four bounds as they were.  On a 2-row, 4-column image-layout
    buffer, taking one pixel off the bottom leaves both rows and cuts the
    columns to two. *)
Theorem crop_one_edge :
  (exists pc, crop (sample_pixels (1, 4, 4)%nat) "raw" (1, 0, 0, 0) = Ok pc /\
     ma_shape (data pc) = (1, 4, 3)%nat /\
     Quad_eq (bounds (pc_bounds pc)) (1, 0, 5, 4)%Q)
  /\ (exists pc, crop (sample_pixels (1, 4, 4)%nat) "raw" (0, 0, 1, 0) = Ok pc /\
        ma_shape (data pc) = (1, 4, 3)%nat /\
        Quad_eq (bounds (pc_bounds pc)) (0, 0, 4, 4)%Q)
  /\ (exists pc, crop (sample_pixels (2, 4, 3)%nat) "RGBA" (0, 1, 0, 0) = Ok pc /\
        ma_shape (data pc) = (2, 2, 3)%nat).
Proof.
  split; [|split]; eexists; (split; [vm_compute; reflexivity|]);
    repeat split; vm_compute; reflexivity.
Qed.

(** C7.  The code on an image-layout buffer of 2 rows and 1 column, with all
    offsets zero: the first axis is read as the width and the second as the
    height, and the result has 1 row; the bounds are unchanged. *)
Theorem crop_zero_offsets_image :
  ma_shape (data (sample_pixels (2, 1, 3)%nat)) = (2, 1, 3)%nat
  /\ exists pc, crop (sample_pixels (2, 1, 3)%nat) "RGBA" (0, 0, 0, 0) = Ok pc /\
       ma_shape (data pc) = (1, 1, 3)%nat /\
       ~ ma_same (data pc) (data (sample_pixels (2, 1, 3)%nat)) /\
       Quad_eq (bounds (pc_bounds pc)) (0, 0, 4, 4)%Q.
Proof.
  split; [reflexivity|].
  eexists. split; [vm_compute; reflexivity|].
  split; [vm_compute; reflexivity|]. split.
  - intros [Hs _]. vm_compute in Hs. discriminate.
  - repeat split; vm_compute; reflexivity.
Qed.

(** ** The Image transformation *)

Lemma dtype_eqb_eq (a b : dtype) : dtype_eqb a b = true <-> a = b.
Proof. destruct a, b; simpl; split; intros H; try reflexivity; discriminate. Qed.

(** [3 > count > 4] holds of no count. *)
Lemma band_check_never (count : nat) : (count <? 3)%nat && (4 <? count)%nat = false.
Proof.
  destruct (count <? 3)%nat eqn:E1; [|reflexivity].
  destruct (4 <? count)%nat eqn:E2; [|reflexivity].
  apply Nat.ltb_lt in E1. apply Nat.ltb_lt in E2. lia.
Qed.

Lemma Image_transform_result (h : Heap) (pixels : PixelCollection Ref) (d : MaskedArray) :
  h !! data pixels = Some d ->
  let h1 := if dtype_eqb (ma_dtype d) float32
            then <[ data pixels := scaled_input d ]> h else h in
  Image_transform h pixels
  = ((h1 ++ [image_output d])%list,
     Ok (PixelCollection_ (length h1) (pc_bounds pixels), "RGBA")).
Proof.
  intros Hd. unfold Image_transform, image_output, scaled_input, alpha_band.
  rewrite Hd. destruct (ma_shape d) as [[c rows] cols] eqn:Hs.
  rewrite band_check_never. cbn [fst].
  destruct (c =? 4)%nat; reflexivity.
Qed.

Lemma scaled_input_shape (d : MaskedArray) : ma_shape (scaled_input d) = ma_shape d.
Proof. unfold scaled_input. destruct (dtype_eqb _ _); reflexivity. Qed.

Lemma scaled_input_mask (d : MaskedArray) : ma_mask (scaled_input d) = ma_mask d.
Proof. unfold scaled_input. destruct (dtype_eqb _ _); reflexivity. Qed.




(** Whatever the band count, the call returns a buffer tagged "RGBA". *)
Lemma Image_transform_never_rejects (h : Heap) (pixels : PixelCollection Ref)
    (d : MaskedArray) :
  h !! data pixels = Some d ->
  exists pc, snd (Image_transform h pixels) = Ok (pc, "RGBA").
Proof.
  intros Hd. rewrite (Image_transform_result h pixels d Hd). cbn [snd].
  eexists. reflexivity.
Qed.

(** C3.  The code on a one-band buffer: the band check [3 > count > 4] lets
    it through, and the call returns a two-band image tagged "RGBA" instead
    of raising. *)
Theorem one_band_not_rejected :
  ma_shape (sample_grid (1, 2, 2)%nat uint8) = (1, 2, 2)%nat
  /\ exists h' pc out,
       Image_transform [sample_grid (1, 2, 2)%nat uint8] (PixelCollection_ 0%nat sample_bounds)
         = (h', Ok (pc, "RGBA"))
       /\ h' !! data pc = Some out
       /\ ma_shape out = (2, 2, 2)%nat.
Proof.
  split; [reflexivity|].
  rewrite (Image_transform_result [sample_grid (1, 2, 2)%nat uint8]
             (PixelCollection_ 0%nat sample_bounds) (sample_grid (1, 2, 2)%nat uint8) eq_refl).
  do 3 eexists. split; [reflexivity|]. split; reflexivity.
Qed.



(** C9 (as amended).  The call puts its result in a new buffer and leaves
    every buffer of the store as it was, but for the input buffer when its
    dtype is float32: that one is scaled in place by 255 (at its unmasked
    items). *)
Theorem transform_frame (h : Heap) (pixels : PixelCollection Ref) (d : MaskedArray) :
  h !! data pixels = Some d ->
  exists h' pc,
    Image_transform h pixels = (h', Ok (pc, "RGBA"))
    /\ data pc = length h
    /\ length h' = S (length h)
    /\ (forall r, r <> data pixels -> (r < length h)%nat -> h' !! r = h !! r)
    /\ (ma_dtype d <> float32 -> h' !! data pixels = Some d)
    /\ (ma_dtype d = float32 ->
        h' !! data pixels = Some (imul d (inject_Z (iinfo_max uint8)))).
Proof.
  intros Hd. rewrite (Image_transform_result h pixels d Hd).
  assert (Hlt : (data pixels < length h)%nat) by (eapply lookup_lt_Some; exact Hd).
  destruct (dtype_eqb (ma_dtype d) float32) eqn:E.
  - apply dtype_eqb_eq in E.
    do 2 eexists. split; [reflexivity|]. cbn [data PixelCollection_].
    split; [apply length_insert|].
    split; [rewrite length_app, length_insert; simpl; lia|].
    split; [|split].
    + intros r Hne Hr. rewrite lookup_app_l by (rewrite length_insert; exact Hr).
      apply list_lookup_insert_ne. congruence.
    + intros Hne. contradiction.
    + intros _. rewrite lookup_app_l by (rewrite length_insert; exact Hlt).
      rewrite list_lookup_insert_eq by exact Hlt.
      unfold scaled_input. rewrite (proj2 (dtype_eqb_eq _ _) E). reflexivity.
  - do 2 eexists. split; [reflexivity|]. cbn [data PixelCollection_].
    split; [reflexivity|].
    split; [rewrite length_app; simpl; lia|].
    split; [|split].
    + intros r _ Hr. apply lookup_app_l. exact Hr.
    + intros _. rewrite lookup_app_l by exact Hlt. exact Hd.
    + intros Heq. apply dtype_eqb_eq in Heq. congruence.
Qed.

Lemma transform_frame_witness :
  exists h' pc,
    Image_transform [sample_grid (3, 2, 2)%nat float32] (PixelCollection_ 0%nat sample_bounds)
      = (h', Ok (pc, "RGBA"))
    /\ data pc = 1%nat
    /\ h' !! 0%nat = Some (imul (sample_grid (3, 2, 2)%nat float32) 255).
Proof.
  destruct (transform_frame [sample_grid (3, 2, 2)%nat float32]
              (PixelCollection_ 0%nat sample_bounds)
              (sample_grid (3, 2, 2)%nat float32) eq_refl)
    as (h' & pc & H1 & H2 & _ & _ & _ & H3).
  exists h', pc. split; [exact H1|]. split; [exact H2|].
  apply H3. reflexivity.
Defined.

(** C9, as first stated, fails: a float32 input buffer is written to.  The
    item 100 of the caller's buffer reads 25500 after the call. *)
Lemma transform_mutates_float32_input :
  exists h' r d',
    Image_transform [sample_grid (3, 2, 2)%nat float32] (PixelCollection_ 0%nat sample_bounds)
      = (h', r)
    /\ h' !! 0%nat = Some d'
    /\ (ma_data (sample_grid (3, 2, 2)%nat float32) 1 0 0 == 100)%Q
    /\ (ma_data d' 1 0 0 == 25500)%Q
    /\ ~ ma_same d' (sample_grid (3, 2, 2)%nat float32).
Proof.
  do 3 eexists. split; [vm_compute; reflexivity|].
  split; [reflexivity|]. split; [reflexivity|]. split; [reflexivity|].
  intros [_ Hsame]. destruct (Hsame 1%nat 0%nat 0%nat) as [Hq _];
    [simpl; lia | simpl; lia | simpl; lia |].
  vm_compute in Hq. discriminate.
Qed.

(** ** render *)

Section RenderFacts.
Variable haversine : Q * Q -> Q * Q -> Q.
Variable SourceRef : Type.
Variable elapsed : string -> Q.
Variable header_name : string -> string.
Variable composite :
  list SourceRef -> Bounds -> Shape -> CRS -> bool ->
  Result (list (string * string) * Pixels).

(** C6 (as amended).  With neither sources nor a catalog, [render] fails
    before any call to a collaborator: with the Exception "Either sources or
    a catalog must be provided." (a plain Exception, the code has no typed
    configuration error) when the resolution of the request can be computed,
    and with the error of that computation otherwise, since line 328 runs
    before the check.  With a source list that is empty, [render] fails
    having called at most [expand], and [get_sources] when the list comes
    from the catalog: with NoDataAvailable when the resolution can be
    computed and [expand], if there is one, returns.  In all these cases
    nothing is composited, transformed, post-processed or formatted. *)
Theorem render_preconditions (b : Bounds) (shape : Shape) (target_crs : CRS)
    (format : Formatter) (expand : bool) (transformation : option Transformation) :
  (exists e,
     render haversine SourceRef elapsed header_name composite
       b shape target_crs format expand None None transformation
     = ([], Raise e)
     /\ (forall res, get_resolution_in_meters haversine b shape = Ok res ->
           e = Exception_ "Either sources or a catalog must be provided.")
     /\ (forall e', get_resolution_in_meters haversine b shape = Raise e' -> e = e'))
  /\ (forall catalog, exists tr e,
        render haversine SourceRef elapsed header_name composite
          b shape target_crs format expand catalog (Some []) transformation
        = (tr, Raise e)
        /\ Forall (fun ev => ev = EvExpand) tr
        /\ (forall res, get_resolution_in_meters haversine b shape = Ok res ->
            match transformation with
            | Some t => exists r, t_expand t b shape = Ok r
            | None => True
            end ->
            e = NoDataAvailable))
  /\ (forall c res b' shape',
        get_resolution_in_meters haversine b shape = Ok res ->
        match transformation with
        | Some t => exists offsets, t_expand t b shape = Ok (b', shape', offsets)
        | None => b' = b /\ shape' = shape
        end ->
        get_sources SourceRef c b' res = Ok [] ->
        exists tr,
          render haversine SourceRef elapsed header_name composite
            b shape target_crs format expand (Some c) None transformation
          = (tr, Raise NoDataAvailable)
          /\ Forall (fun ev => ev = EvExpand \/ ev = EvGetSources) tr).
Proof.
  unfold render.
  destruct (get_resolution_in_meters haversine b shape) as [res0|e0];
    cbn [lift bindT is_None andb app].
  - split; [|split].
    + eexists. split; [reflexivity|]. split; [reflexivity | discriminate].
    + intros catalog. destruct transformation as [t|].
      * destruct (t_expand t b shape) as [[[b1 shape1] offs]|e1] eqn:Hexp.
        -- destruct catalog; do 2 eexists; cbn;
             (split; [reflexivity|]); (split; [repeat constructor | reflexivity]).
        -- destruct catalog; do 2 eexists; cbn;
             (split; [reflexivity|]); (split; [repeat constructor|]);
             intros res _ [r Hr]; discriminate.
      * destruct catalog; do 2 eexists; cbn;
          (split; [reflexivity|]); (split; [constructor | reflexivity]).
    + intros c res b' shape' [= <-] Hexp Hc. destruct transformation as [t|].
      * destruct Hexp as [offsets ->]. cbn. rewrite Hc.
        eexists. split; [reflexivity|].
        repeat (match goal with |- Forall _ _ => constructor end; auto).
      * destruct Hexp as [-> ->]. cbn. rewrite Hc.
        eexists. split; [reflexivity|].
        repeat (match goal with |- Forall _ _ => constructor end; auto).
  - split; [|split].
    + eexists. split; [reflexivity|]. split; [discriminate|].
      intros e' [= <-]. reflexivity.
    + intros catalog. do 2 eexists. split; [reflexivity|].
      split; [constructor | discriminate].
    + intros c res b' shape' Hres. discriminate.
Qed.
End RenderFacts.

Lemma render_preconditions_witness :
  render sample_haversine string (fun _ => 0%Q) (fun s => s) sample_composite
    sample_bounds (2, 2) WEB_MERCATOR_CRS sample_format false
    None None (Some sample_transformation)
  = ([], Raise (Exception_ "Either sources or a catalog must be provided."))
  /\ exists tr,
       render sample_haversine string (fun _ => 0%Q) (fun s => s) sample_composite
         sample_bounds (2, 2) WEB_MERCATOR_CRS sample_format false
         (Some empty_catalog) None (Some sample_transformation)
       = (tr, Raise NoDataAvailable)
       /\ Forall (fun ev => ev = EvExpand \/ ev = EvGetSources) tr.
Proof.
  destruct (render_preconditions sample_haversine string (fun _ => 0%Q) (fun s => s)
              sample_composite sample_bounds (2, 2) WEB_MERCATOR_CRS sample_format false
              (Some sample_transformation))
    as ((e & Hnone & He & _) & _ & Hcat).
  split.
  - rewrite Hnone. rewrite (He (2 # 2, 2 # 2)%Q); [reflexivity|].
    vm_compute. reflexivity.
  - apply (Hcat empty_catalog (2 # 2, 2 # 2)%Q sample_bounds (4, 4)).
    + vm_compute. reflexivity.
    + exists (1, 1, 1, 1). reflexivity.
    + reflexivity.
Defined.

(** C6, as first stated, fails.  For a request of height zero the resolution
    cannot be computed, and both calls end in ZeroDivisionError: neither the
    configuration error nor NoDataAvailable.  With an [expand] that raises,
    the call with an empty source list ends in the error of [expand]. *)
Lemma render_zero_shape_division_error :
  render sample_haversine string (fun _ => 0%Q) (fun s => s) sample_composite
    sample_bounds (0, 2) WEB_MERCATOR_CRS sample_format false None None None
  = ([], Raise ZeroDivisionError)
  /\ render sample_haversine string (fun _ => 0%Q) (fun s => s) sample_composite
       sample_bounds (0, 2) WEB_MERCATOR_CRS sample_format false None (Some []) None
     = ([], Raise ZeroDivisionError)
  /\ render sample_haversine string (fun _ => 0%Q) (fun s => s) sample_composite
       sample_bounds (2, 2) WEB_MERCATOR_CRS sample_format false None (Some [])
       (Some raising_transformation)
     = ([EvExpand], Raise (ValueError "cannot expand"))
  /\ snd (render sample_haversine string (fun _ => 0%Q) (fun s => s) sample_composite
            sample_bounds (0, 2) WEB_MERCATOR_CRS sample_format false None None None)
     <> Raise (Exception_ "Either sources or a catalog must be provided.")
  /\ snd (render sample_haversine string (fun _ => 0%Q) (fun s => s) sample_composite
            sample_bounds (0, 2) WEB_MERCATOR_CRS sample_format false None (Some []) None)
     <> Raise NoDataAvailable.
Proof.
  repeat split; try (vm_compute; reflexivity); vm_compute; discriminate.
Qed.

(** * Further properties *)

(** ** InvalidTileRequest.to_dict *)

(** X1.  [to_dict] always holds the message under "message", also when the
    payload has an entry of that name, and holds every other entry of the
    payload unchanged; without a payload it holds the message alone. *)
Theorem to_dict_entries (e : InvalidTileRequest_) :
  to_dict e !! "message" = Some (itr_message e)
  /\ (forall k, k <> "message" ->
        to_dict e !! k = match itr_payload e with Some m => m !! k | None => None end)
  /\ (itr_payload e = None -> to_dict e = {[ "message" := itr_message e ]}).
Proof.
  unfold to_dict. split; [apply lookup_insert_eq|]. split.
  - intros k Hk. rewrite lookup_insert_ne by congruence.
    unfold payload_or_empty. destruct (itr_payload e) as [m|]; [|apply lookup_empty].
    destruct (decide (m = ∅)) as [-> |]; reflexivity.
  - intros ->. reflexivity.
Qed.

Lemma to_dict_entries_witness :
  to_dict (mkInvalidTileRequest (VStr "bad zoom")
             (Some (<[ "message" := VStr "old" ]> (<[ "zoom" := VNum 30 ]> ∅))))
    !! "zoom" = Some (VNum 30)
  /\ to_dict (mkInvalidTileRequest (VStr "bad zoom") None)
     = {[ "message" := VStr "bad zoom" ]}.
Proof.
  split.
  - rewrite (proj1 (proj2 (to_dict_entries
               (mkInvalidTileRequest (VStr "bad zoom")
                  (Some (<[ "message" := VStr "old" ]> (<[ "zoom" := VNum 30 ]> ∅))))))
               "zoom") by discriminate.
    vm_compute. reflexivity.
  - apply (proj2 (proj2 (to_dict_entries (mkInvalidTileRequest (VStr "bad zoom") None)))).
    reflexivity.
Defined.

(** ** Resolution *)

Lemma py_div_zero (x : Q) : py_div x (inject_Z 0) = Raise ZeroDivisionError.
Proof. reflexivity. Qed.

Lemma py_div_Z (x : Q) (z : Z) : z <> 0 -> py_div x (inject_Z z) = Ok (x / inject_Z z)%Q.
Proof. intros Hz. apply py_div_ok. rewrite inject_Z_eq0. exact Hz. Qed.

Lemma Qabs_div (x y : Q) : (Qabs (x / y) == Qabs x / Qabs y)%Q.
Proof. unfold Qdiv. rewrite Qabs_Qmult, Qabs_Qinv. reflexivity. Qed.

Lemma Qabs_zero (x : Q) : (Qabs x == 0)%Q <-> (x == 0)%Q.
Proof. destruct x as [n d]. unfold Qeq. simpl. lia. Qed.

Lemma Qabs_pos_lt (x : Q) : ~ (x == 0)%Q -> (0 < Qabs x)%Q.
Proof.
  intros Hx. pose proof (Qabs_nonneg x) as H.
  apply Qle_lteq in H as [H | H]; [exact H|].
  exfalso. apply Hx. apply Qabs_zero. symmetry. exact H.
Qed.

Lemma Qabs_div_zero (x y : Q) : (0 < y)%Q -> ((Qabs x / y == 0)%Q <-> (x == 0)%Q).
Proof.
  intros Hy. assert (Hy0 : ~ (y == 0)%Q) by (intros E; rewrite E in Hy; discriminate).
  rewrite <- (Qabs_zero x). split; intros E.
  - assert (H : (Qabs x == (Qabs x / y) * y)%Q) by (field; exact Hy0).
    rewrite H, E. ring.
  - rewrite E. field. exact Hy0.
Qed.

(** The value [get_resolution] returns for a grid with pixels. *)
Lemma get_resolution_value (b : Bounds) (height width : Z) :
  width <> 0 -> height <> 0 ->
  exists rx ry,
    get_resolution b (height, width) = Ok (rx, ry)
    /\ (rx == Qabs (q2 (bounds b) - q0 (bounds b)) / Qabs (inject_Z width))%Q
    /\ (ry == Qabs (q3 (bounds b) - q1 (bounds b)) / Qabs (inject_Z height))%Q.
Proof.
  destruct b as [[[[west south] east] north] c]. unfold get_resolution, from_bounds.
  cbn [bounds q0 q1 q2 q3]. intros Hw Hh.
  rewrite (py_div_Z _ width Hw), (py_div_Z _ height Hh).
  cbn [bind af_a af_e Affine_mul Affine_translation Affine_scale].
  assert (Hh0 : ~ (inject_Z height == 0)%Q) by (rewrite inject_Z_eq0; exact Hh).
  assert (Ha : (1 * ((east - west) / inject_Z width) + 0 * 0
                == (east - west) / inject_Z width)%Q) by ring.
  assert (He : (0 * 0 + 1 * ((south - north) / inject_Z height)
                == - ((north - south) / inject_Z height))%Q) by (field; exact Hh0).
  do 2 eexists. split; [reflexivity|].
  rewrite Ha, He, Qabs_opp, !Qabs_div. split; reflexivity.
Qed.

(** X2.  [get_resolution] raises ZeroDivisionError exactly when the width
    or the height is zero.  Otherwise it returns the absolute pixel size,
    |east - west| / |width| and |north - south| / |height|: never negative,
    and zero only for bounds without extent along that axis. *)
Theorem get_resolution_pixel_size (b : Bounds) (height width : Z) :
  (width = 0 \/ height = 0 ->
     get_resolution b (height, width) = Raise ZeroDivisionError)
  /\ (width <> 0 -> height <> 0 ->
      exists rx ry,
        get_resolution b (height, width) = Ok (rx, ry)
        /\ (rx == Qabs (q2 (bounds b) - q0 (bounds b)) / Qabs (inject_Z width))%Q
        /\ (ry == Qabs (q3 (bounds b) - q1 (bounds b)) / Qabs (inject_Z height))%Q
        /\ (0 <= rx)%Q /\ (0 <= ry)%Q
        /\ ((rx == 0)%Q <-> (q2 (bounds b) == q0 (bounds b))%Q)
        /\ ((ry == 0)%Q <-> (q3 (bounds b) == q1 (bounds b))%Q)).
Proof.
  split.
  - destruct b as [[[[west south] east] north] c]. unfold get_resolution, from_bounds.
    cbn [bounds]. intros [-> | ->].
    + reflexivity.
    + destruct (Z.eq_dec width 0) as [-> | Hw]; [reflexivity|].
      rewrite (py_div_Z _ width Hw). reflexivity.
  - intros Hw Hh.
    destruct (get_resolution_value b height width Hw Hh) as (rx & ry & Hr & Hx & Hy).
    exists rx, ry. split; [exact Hr|]. split; [exact Hx|]. split; [exact Hy|].
    assert (Hpw : (0 < Qabs (inject_Z width))%Q)
      by (apply Qabs_pos_lt; rewrite inject_Z_eq0; exact Hw).
    assert (Hph : (0 < Qabs (inject_Z height))%Q)
      by (apply Qabs_pos_lt; rewrite inject_Z_eq0; exact Hh).
    rewrite Hx, Hy.
    split; [apply Qle_shift_div_l; [exact Hpw | rewrite Qmult_0_l; apply Qabs_nonneg]|].
    split; [apply Qle_shift_div_l; [exact Hph | rewrite Qmult_0_l; apply Qabs_nonneg]|].
    split.
    + rewrite (Qabs_div_zero _ _ Hpw). split; intros E.
      * rewrite <- (Qplus_0_l (q0 (bounds b))), <- E. ring.
      * rewrite E. ring.
    + rewrite (Qabs_div_zero _ _ Hph). split; intros E.
      * rewrite <- (Qplus_0_l (q1 (bounds b))), <- E. ring.
      * rewrite E. ring.
Qed.

Lemma get_resolution_pixel_size_witness :
  get_resolution sample_bounds (0, 3) = Raise ZeroDivisionError
  /\ exists rx ry, get_resolution sample_bounds (1, 3) = Ok (rx, ry) /\ (0 <= rx)%Q.
Proof.
  split.
  - apply (proj1 (get_resolution_pixel_size sample_bounds 0 3)). right. reflexivity.
  - destruct (proj2 (get_resolution_pixel_size sample_bounds 1 3))
      as (rx & ry & Hr & _ & _ & Hx & _); [lia | lia |].
    exists rx, ry. split; assumption.
Defined.

(** X3.  The resolution depends on the pixel spacing only: multiplying the
    bounds and the shape by the same non-zero integer leaves it unchanged. *)
Theorem get_resolution_scale_invariant (west south east north : Q) (c : CRS)
    (height width k : Z) :
  k <> 0 -> width <> 0 -> height <> 0 ->
  exists rx ry rx' ry',
    get_resolution (mkBounds (west, south, east, north) c) (height, width) = Ok (rx, ry)
    /\ get_resolution
         (mkBounds (inject_Z k * west, inject_Z k * south,
                    inject_Z k * east, inject_Z k * north)%Q c)
         (k * height, k * width) = Ok (rx', ry')
    /\ (rx' == rx)%Q /\ (ry' == ry)%Q.
Proof.
  intros Hk Hw Hh.
  destruct (get_resolution_value (mkBounds (west, south, east, north) c) height width Hw Hh)
    as (rx & ry & Hr & Hx & Hy).
  destruct (get_resolution_value
              (mkBounds (inject_Z k * west, inject_Z k * south,
                         inject_Z k * east, inject_Z k * north)%Q c)
              (k * height) (k * width)) as (rx' & ry' & Hr' & Hx' & Hy'); [lia | lia |].
  exists rx, ry, rx', ry'. split; [exact Hr|]. split; [exact Hr'|].
  cbn [bounds q0 q1 q2 q3] in *.
  assert (Hk0 : ~ (Qabs (inject_Z k) == 0)%Q) by (rewrite Qabs_zero, inject_Z_eq0; exact Hk).
  assert (Hw0 : ~ (Qabs (inject_Z width) == 0)%Q)
    by (rewrite Qabs_zero, inject_Z_eq0; exact Hw).
  assert (Hh0 : ~ (Qabs (inject_Z height) == 0)%Q)
    by (rewrite Qabs_zero, inject_Z_eq0; exact Hh).
  assert (Hscale : forall x y : Q,
            (Qabs (inject_Z k * x - inject_Z k * y) == Qabs (inject_Z k) * Qabs (x - y))%Q).
  { intros x y. rewrite <- Qabs_Qmult. apply Qabs_wd. ring. }
  split.
  - rewrite Hx', Hx, Hscale, inject_Z_mult, Qabs_Qmult. field. split; assumption.
  - rewrite Hy', Hy, Hscale, inject_Z_mult, Qabs_Qmult. field. split; assumption.
Qed.

Lemma get_resolution_scale_invariant_witness :
  exists rx ry rx' ry',
    get_resolution (mkBounds (0, 0, 2, 2)%Q WEB_MERCATOR_CRS) (1, 3) = Ok (rx, ry)
    /\ get_resolution
         (mkBounds (inject_Z 2 * 0, inject_Z 2 * 0, inject_Z 2 * 2, inject_Z 2 * 2)%Q
                   WEB_MERCATOR_CRS) (2 * 1, 2 * 3) = Ok (rx', ry')
    /\ (rx' == rx)%Q /\ (ry' == ry)%Q.
Proof.
  apply (get_resolution_scale_invariant 0 0 2 2 WEB_MERCATOR_CRS 1 3 2); lia.
Defined.

(** X4.  [get_resolution_in_meters] raises ZeroDivisionError exactly when
    the width or the height is zero, for geographic and projected bounds
    alike.  Otherwise it returns, for projected bounds, what
    [get_resolution] returns, and for geographic bounds the great-circle
    lengths of the middle parallel and the middle meridian of the bounds, in
    metres, divided by the width and the height. *)
Theorem get_resolution_in_meters_defined (haversine : Q * Q -> Q * Q -> Q)
    (b : Bounds) (height width : Z) :
  (width = 0 \/ height = 0 ->
     get_resolution_in_meters haversine b (height, width) = Raise ZeroDivisionError)
  /\ (width <> 0 -> height <> 0 ->
      exists r,
        get_resolution_in_meters haversine b (height, width) = Ok r
        /\ (is_geographic (crs b) = false -> get_resolution b (height, width) = Ok r)
        /\ (is_geographic (crs b) = true ->
            let '(west, south, east, north) := bounds b in
            r = (haversine (west, (south + north) / 2) (east, (south + north) / 2)
                   * 1000 / inject_Z width,
                 haversine ((west + east) / 2, north) ((west + east) / 2, south)
                   * 1000 / inject_Z height)%Q)).
Proof.
  destruct b as [[[[west south] east] north] c].
  unfold get_resolution_in_meters. cbn [crs bounds q0 q1 q2 q3].
  split.
  - intros Hz. destruct (is_geographic c).
    + destruct Hz as [-> | ->]; [reflexivity|].
      destruct (Z.eq_dec width 0) as [-> | Hw]; [reflexivity|].
      rewrite (py_div_Z _ width Hw). reflexivity.
    + unfold get_resolution, from_bounds. cbn [bounds].
      destruct Hz as [-> | ->]; [reflexivity|].
      destruct (Z.eq_dec width 0) as [-> | Hw]; [reflexivity|].
      rewrite (py_div_Z _ width Hw). reflexivity.
  - intros Hw Hh. destruct (is_geographic c).
    + rewrite (py_div_Z _ width Hw), (py_div_Z _ height Hh). cbn [bind].
      eexists. split; [reflexivity|]. split; [discriminate|]. intros _. reflexivity.
    + destruct (get_resolution_value (mkBounds (west, south, east, north) c)
                  height width Hw Hh) as (rx & ry & Hr & _).
      exists (rx, ry). split; [exact Hr|]. split; [intros _; exact Hr | discriminate].
Qed.

Lemma get_resolution_in_meters_defined_witness :
  get_resolution_in_meters sample_haversine (mkBounds (-180, -90, 180, 90)%Q WGS84_CRS) (0, 256)
    = Raise ZeroDivisionError
  /\ exists r,
       get_resolution_in_meters sample_haversine
         (mkBounds (-180, -90, 180, 90)%Q WGS84_CRS) (256, 256) = Ok r.
Proof.
  split.
  - apply (proj1 (get_resolution_in_meters_defined sample_haversine
                    (mkBounds (-180, -90, 180, 90)%Q WGS84_CRS) 0 256)).
    right. reflexivity.
  - destruct (proj2 (get_resolution_in_meters_defined sample_haversine
                       (mkBounds (-180, -90, 180, 90)%Q WGS84_CRS) 256 256))
      as (r & Hr & _); [lia | lia |].
    exists r. exact Hr.
Defined.

(** ** Zoom *)

(** [2 * math.pi * 6378137] *)
Lemma circumference_pos : (0 < 2 * math_pi * 6378137)%Q.
Proof. reflexivity. Qed.

(** The value [get_zoom] returns for a positive resolution. *)
Lemma get_zoom_value (math_log : Q -> Q) (op : Q -> Z) (resolution : Q) :
  (0 < resolution)%Q -> ~ (math_log 2 == 0)%Q ->
  get_zoom math_log resolution op
  = Ok (op (math_log (2 * math_pi * 6378137 / (resolution * 256)) / math_log 2)%Q).
Proof.
  intros Hpos Hlog2. unfold get_zoom.
  assert (Hden : (0 < resolution * 256)%Q)
    by (apply Qmult_lt_0_compat; [exact Hpos | reflexivity]).
  rewrite py_div_ok by (intros E; rewrite E in Hden; discriminate).
  cbn [bind]. unfold py_log at 1.
  rewrite Qle_bool_false
    by (apply Qlt_shift_div_l; [exact Hden | rewrite Qmult_0_l; reflexivity]).
  cbn [bind]. unfold py_log. change (Qle_bool 2 0) with false. cbn [bind].
  rewrite py_div_ok by exact Hlog2. reflexivity.
Qed.

(** X5.  [get_zoom] raises ZeroDivisionError for a resolution of zero and
    ValueError (math domain error) for a negative one; for a positive
    resolution it returns [op(log(2 pi 6378137 / (256 resolution)) / log 2)]. *)
Theorem get_zoom_domain (math_log : Q -> Q) (op : Q -> Z) (resolution : Q) :
  ((resolution == 0)%Q -> get_zoom math_log resolution op = Raise ZeroDivisionError)
  /\ ((resolution < 0)%Q ->
      get_zoom math_log resolution op = Raise (ValueError "math domain error"))
  /\ ((0 < resolution)%Q -> ~ (math_log 2 == 0)%Q ->
      get_zoom math_log resolution op
      = Ok (op (math_log (2 * math_pi * 6378137 / (resolution * 256)) / math_log 2)%Q)).
Proof.
  split; [|split].
  - intros E. unfold get_zoom, py_div.
    assert (E' : (resolution * 256 == 0)%Q) by (rewrite E; reflexivity).
    apply Qeq_bool_iff in E'. rewrite E'. reflexivity.
  - intros Hneg. unfold get_zoom.
    assert (Hden : (resolution * 256 < 0)%Q).
    { change (resolution * 256 < 0 * 256)%Q.
      apply Qmult_lt_compat_r; [reflexivity | exact Hneg]. }
    assert (Hden0 : ~ (resolution * 256 == 0)%Q)
      by (intros E; rewrite E in Hden; discriminate).
    rewrite py_div_ok by exact Hden0.
    cbn [bind]. unfold py_log at 1.
    assert (Hq : (2 * math_pi * 6378137 / (resolution * 256) <= 0)%Q).
    { assert (E : (2 * math_pi * 6378137 / (resolution * 256)
                   == - (2 * math_pi * 6378137 / - (resolution * 256)))%Q)
        by (field; intros E; apply Hden0; rewrite E; reflexivity).
      rewrite E. change 0%Q with (- 0)%Q. apply Qopp_le_compat.
      apply Qopp_lt_compat in Hden. change (- 0)%Q with 0%Q in Hden.
      apply Qle_shift_div_l; [exact Hden|].
      rewrite Qmult_0_l. apply Qlt_le_weak. exact circumference_pos. }
    apply Qle_bool_iff in Hq. rewrite Hq. reflexivity.
  - apply get_zoom_value.
Qed.

Lemma get_zoom_domain_witness :
  get_zoom sample_log 0 math_ceil = Raise ZeroDivisionError
  /\ get_zoom sample_log (-1) math_ceil = Raise (ValueError "math domain error")
  /\ exists z, get_zoom sample_log 1 math_ceil = Ok z.
Proof.
  destruct (get_zoom_domain sample_log math_ceil 0) as (H0 & _ & _).
  destruct (get_zoom_domain sample_log math_ceil (-1)) as (_ & Hneg & _).
  destruct (get_zoom_domain sample_log math_ceil 1) as (_ & _ & Hpos).
  split; [apply H0; reflexivity|].
  split; [apply Hneg; reflexivity|].
  eexists. apply Hpos; [reflexivity | vm_compute; discriminate].
Defined.

Lemma sample_log_monotone (x y : Q) : (x <= y)%Q -> (sample_log x <= sample_log y)%Q.
Proof.
  intros Hxy. unfold sample_log. rewrite <- Zle_Qle.
  apply Z.log2_le_mono. apply Qfloor_resp_le. exact Hxy.
Qed.

(** X6.  With a logarithm that is monotone on the positive numbers and
    positive at 2, and a monotone rounding [op] (such as [math.ceil]), the
    zoom does not grow with the resolution: a coarser resolution gets a
    zoom that is lower or equal. *)
Theorem get_zoom_antitone (math_log : Q -> Q) (op : Q -> Z) (r1 r2 : Q) :
  (forall x y, (0 < x)%Q -> (x <= y)%Q -> (math_log x <= math_log y)%Q) ->
  (0 < math_log 2)%Q ->
  (forall x y, (x <= y)%Q -> op x <= op y) ->
  (0 < r1)%Q -> (r1 <= r2)%Q ->
  exists z1 z2,
    get_zoom math_log r1 op = Ok z1 /\ get_zoom math_log r2 op = Ok z2 /\ z2 <= z1.
Proof.
  intros Hlog Hlog2 Hop Hr1 Hr12.
  assert (Hr2 : (0 < r2)%Q) by (eapply Qlt_le_trans; eassumption).
  assert (Hl2 : ~ (math_log 2 == 0)%Q) by (intros E; rewrite E in Hlog2; discriminate).
  do 2 eexists. rewrite !get_zoom_value by assumption.
  split; [reflexivity|]. split; [reflexivity|].
  apply Hop. unfold Qdiv at 1 3. apply Qmult_le_compat_r;
    [|apply Qlt_le_weak; apply Qinv_lt_0_compat; exact Hlog2].
  assert (Hd1 : (0 < r1 * 256)%Q) by (apply Qmult_lt_0_compat; [exact Hr1 | reflexivity]).
  assert (Hd2 : (0 < r2 * 256)%Q) by (apply Qmult_lt_0_compat; [exact Hr2 | reflexivity]).
  apply Hlog.
  - apply Qlt_shift_div_l; [exact Hd2 | rewrite Qmult_0_l; reflexivity].
  - apply Qle_shift_div_l; [exact Hd1|].
    assert (E : (2 * math_pi * 6378137 / (r2 * 256) * (r1 * 256)
                 == 2 * math_pi * 6378137 * (r1 / r2))%Q)
      by (field; intros E; rewrite E in Hr2; discriminate).
    rewrite E.
    assert (Hle : (r1 / r2 <= 1)%Q)
      by (apply Qle_shift_div_r; [exact Hr2 | rewrite Qmult_1_l; exact Hr12]).
    assert (E1 : (2 * math_pi * 6378137 == 2 * math_pi * 6378137 * 1)%Q) by ring.
    rewrite E1 at 2.
    apply Qmult_le_l; [exact circumference_pos | exact Hle].
Qed.

Lemma get_zoom_antitone_witness :
  exists z1 z2,
    get_zoom sample_log 1 math_ceil = Ok z1 /\ get_zoom sample_log 1000 math_ceil = Ok z2
    /\ z2 <= z1.
Proof.
  apply (get_zoom_antitone sample_log math_ceil 1 1000).
  - intros x y _. apply sample_log_monotone.
  - reflexivity.
  - apply Qceiling_resp_le.
  - reflexivity.
  - discriminate.
Defined.

(** ** The destination grid *)

Lemma get_extent_web_mercator (c : CRS) :
  str c = "EPSG:3857" ->
  get_extent c
  = Ok (- math_pi * EARTH_RADIUS, - math_pi * EARTH_RADIUS,
        math_pi * EARTH_RADIUS, math_pi * EARTH_RADIUS)%Q.
Proof. unfold get_extent. intros ->. reflexivity. Qed.

(** The special case is taken for the web Mercator system only; when the
    table holds the string of such a target, it holds the web Mercator
    extent under it. *)
Lemma special_case_system (recipes : Recipes) (b : Bounds) (sr tr : Q * Q) :
  special_case recipes b sr tr = true -> system (crs b) = 3857.
Proof.
  unfold special_case. intros Hsp.
  destruct (has_key _); [|discriminate]. cbn [andb] in Hsp.
  destruct (CRS_eqb (crs b) WEB_MERCATOR_CRS) eqn:E; [|discriminate].
  unfold CRS_eqb in E. apply Z.eqb_eq in E. exact E.
Qed.

Lemma special_case_extent (recipes : Recipes) (b : Bounds) (sr tr : Q * Q) (e : Quad) :
  special_case recipes b sr tr = true ->
  get_extent (crs b) = Ok e ->
  e = (- math_pi * EARTH_RADIUS, - math_pi * EARTH_RADIUS,
       math_pi * EARTH_RADIUS, math_pi * EARTH_RADIUS)%Q.
Proof.
  intros Hsp Hext. apply special_case_system in Hsp.
  destruct (String.eqb (str (crs b)) "EPSG:3857") eqn:E.
  - apply String.eqb_eq in E.
    rewrite (get_extent_web_mercator (crs b) E) in Hext.
    injection Hext as <-. reflexivity.
  - exfalso. unfold system in Hsp. unfold str in E. rewrite E in Hsp.
    destruct (String.eqb (crs_string (crs b)) "EPSG:4326") eqn:E'; [discriminate|].
    apply String.eqb_neq in E. apply String.eqb_neq in E'.
    unfold get_extent, EXTENTS, str in Hext. cbn [crs_string WGS84_CRS WEB_MERCATOR_CRS] in Hext.
    rewrite lookup_insert_ne in Hext by congruence.
    rewrite lookup_insert_ne in Hext by congruence.
    rewrite lookup_empty in Hext. discriminate.
Qed.

(** X7.  The grid of the web Mercator DEM case is the world pyramid: the
    destination is square, its transform has no rotation terms, puts pixel
    (0, 0) on the top-left corner of the web Mercator extent and pixel
    (width, height) on its bottom-right corner, and its pixels are square
    and north-up. *)
Theorem special_case_world_grid (haversine : Q * Q -> Q * Q -> Q) (math_log : Q -> Q)
    (calc : CRS -> CRS -> Z -> Z -> Quad -> option (Q * Q) -> Result (Affine * Z * Z))
    (src : Source) (b : Bounds) (target_shape : Shape) (recipes : Recipes)
    (sr tr : Q * Q) (p : Plan) :
  get_resolution_in_meters haversine (mkBounds (src_bounds src) (src_crs src))
    (src_height src, src_width src) = Ok sr ->
  get_resolution b target_shape = Ok tr ->
  special_case recipes b sr tr = true ->
  plan_transform haversine math_log calc src b target_shape recipes = Ok p ->
  exists t w,
    dst_transform p = Some t /\ dst_width p = Some w /\ dst_height p = Some w
    /\ (af_b t == 0)%Q /\ (af_d t == 0)%Q
    /\ Point_eq (Affine_apply t (0, 0)%Q)
                (- math_pi * EARTH_RADIUS, math_pi * EARTH_RADIUS)%Q
    /\ Point_eq (Affine_apply t (w, w))
                (math_pi * EARTH_RADIUS, - math_pi * EARTH_RADIUS)%Q
    /\ (0 < af_a t)%Q /\ (af_e t == - af_a t)%Q.
Proof.
  intros Hsr Htr Hsp.
  unfold plan_transform. rewrite Hsr, Htr. cbn [bind]. rewrite Hsp.
  unfold plan_special. rewrite Hsr. cbn [bind].
  destruct (get_zoom math_log (py_max2 sr) math_ceil) as [z|]; cbn [bind]; [|discriminate].
  destruct (get_extent (crs b)) as [ext|] eqn:Hext; cbn [bind]; [|discriminate].
  rewrite (special_case_extent recipes b sr tr ext Hsp Hext).
  cbn [bind q0 q1 q2 q3].
  set (P := (2 ^ Z.min 22 z)%Q).
  assert (HP : (0 < P)%Q) by (apply Qpower_0_lt; reflexivity).
  assert (HP0 : ~ (P == 0)%Q) by (intros E; rewrite E in HP; discriminate).
  assert (Hdim : ~ (P * 256 == 0)%Q).
  { intros E. assert (H0 : (0 < P * 256)%Q)
      by (apply Qmult_lt_0_compat; [exact HP | reflexivity]).
    rewrite E in H0. discriminate. }
  rewrite !py_div_ok by exact Hdim. cbn [bind].
  intros [= <-]. do 2 eexists.
  cbn [dst_transform dst_width dst_height af_a af_b af_c af_d af_e af_f
       Affine_apply fst snd].
  split; [reflexivity|]. split; [reflexivity|]. split; [reflexivity|].
  split; [reflexivity|]. split; [reflexivity|].
  unfold Point_eq.
  cbn [af_a af_b af_c af_d af_e af_f Affine_apply fst snd].
  split; [split; field; exact HP0|]. split; [split; field; exact HP0|].
  split.
  - apply Qlt_shift_div_l.
    + apply Qmult_lt_0_compat; [exact HP | reflexivity].
    + rewrite Qmult_0_l. reflexivity.
  - field. exact HP0.
Qed.

Lemma special_case_world_grid_witness :
  exists t w, (af_b t == 0)%Q /\ (0 < af_a t)%Q /\ (af_e t == - af_a t)%Q
              /\ Some 33554432%Q = Some w.
Proof.
  edestruct (special_case_world_grid sample_haversine sample_log calc_oom
               dem_source dem_target (256, 256) dem_recipes
               (256 # 256, 256 # 256)%Q (1024 # 256, 1024 # 256)%Q)
    as (t & w & _ & Hw & _ & Hb & _ & _ & _ & Ha & He).
  - vm_compute. reflexivity.
  - vm_compute. reflexivity.
  - vm_compute. reflexivity.
  - vm_compute. reflexivity.
  - exists t, w. repeat split; assumption.
Defined.

Section GenericPlanFacts.
Variable calc : CRS -> CRS -> Z -> Z -> Quad -> option (Q * Q) -> Result (Affine * Z * Z).

(** X8.  A transform the generic branch returns is the calculator's answer
    for the source grid divided by a scale factor (1, or an even number),
    both scaled dimensions positive, brought back to full size: the
    dimensions are multiplied by the factor, the pixel size is divided by it,
    the origin is kept, and the far corner of the grid stays where the
    calculator put it. *)
Theorem plan_generic_rescaled (src : Source) (b : Bounds) (sr tr : Q * Q)
    (p : Plan) (t : Affine) :
  plan_generic calc src b sr tr = Ok p ->
  dst_transform p = Some t ->
  exists res, rescaled_from calc src b res p t.
Proof.
  unfold plan_generic. intros Hplan Ht.
  match type of Hplan with
  | context [retry_loop calc ?n src b ?res 0 1] =>
    destruct (retry_loop calc n src b res 0 1) as [r|] eqn:Hloop; [|discriminate];
    subst r; exists res;
    apply (retry_loop_rescaled calc src b res n 0 1 p t);
      [left; split; reflexivity | exact Hloop | exact Ht]
  end.
Qed.

Lemma retry_loop_ext (calc' : CRS -> CRS -> Z -> Z -> Quad -> option (Q * Q) ->
                              Result (Affine * Z * Z))
    (src : Source) (b : Bounds) (res : option (Q * Q)) :
  (forall c1 c2 w h bb, calc c1 c2 w h bb res = calc' c1 c2 w h bb res) ->
  forall (budget : nat) (attempts sf : Z),
    retry_loop calc budget src b res attempts sf
    = retry_loop calc' budget src b res attempts sf.
Proof.
  intros Hext. induction budget as [|budget IH]; intros attempts sf; simpl.
  - reflexivity.
  - destruct (_ && _); [|reflexivity]. rewrite Hext.
    destruct (calc' _ _ _ _ _ _) as [[[t0 w0] h0]|e]; [reflexivity|].
    destruct e; try reflexivity. apply IH.
Qed.

(** X10.  The generic branch passes the target resolution to the calculator
    exactly when the target is finer than the source along some axis, and no
    resolution otherwise: its result depends on the calculator's answers
    for that one value of the [resolution] argument only. *)
Theorem plan_generic_resolution_hint
    (calc' : CRS -> CRS -> Z -> Z -> Quad -> option (Q * Q) -> Result (Affine * Z * Z))
    (src : Source) (b : Bounds) (sr tr : Q * Q) :
  ((fst sr <= fst tr)%Q -> (snd sr <= snd tr)%Q ->
   (forall c1 c2 w h bb, calc c1 c2 w h bb None = calc' c1 c2 w h bb None) ->
   plan_generic calc src b sr tr = plan_generic calc' src b sr tr)
  /\ ((fst tr < fst sr)%Q \/ (snd tr < snd sr)%Q ->
      (forall c1 c2 w h bb, calc c1 c2 w h bb (Some tr) = calc' c1 c2 w h bb (Some tr)) ->
      plan_generic calc src b sr tr = plan_generic calc' src b sr tr).
Proof.
  unfold plan_generic. split.
  - intros H0 H1 Hext.
    destruct (Qlt_le_dec (fst tr) (fst sr)) as [Hlt|_];
      [exfalso; apply (Qlt_not_le _ _ Hlt H0)|].
    destruct (Qlt_le_dec (snd tr) (snd sr)) as [Hlt|_];
      [exfalso; apply (Qlt_not_le _ _ Hlt H1)|].
    rewrite (retry_loop_ext calc' src b None Hext). reflexivity.
  - intros Hfiner Hext.
    assert (Hres : (if Qlt_le_dec (fst tr) (fst sr) then Some tr
                    else if Qlt_le_dec (snd tr) (snd sr) then Some tr else None)
                   = Some tr).
    { destruct (Qlt_le_dec (fst tr) (fst sr)) as [_|H0]; [reflexivity|].
      destruct (Qlt_le_dec (snd tr) (snd sr)) as [_|H1]; [reflexivity|].
      destruct Hfiner as [Hlt | Hlt]; exfalso; eapply Qlt_not_le; eassumption. }
    rewrite Hres. rewrite (retry_loop_ext calc' src b (Some tr) Hext). reflexivity.
Qed.
End GenericPlanFacts.

(** X9.  A calculator that answers the first call, made for the whole source
    with the resolution argument of lines 208-215, is passed through: the
    plan holds its transform and its dimensions.  Nothing is asked of the
    calculator at any other size or resolution argument. *)
Theorem plan_generic_first_attempt
    (calc : CRS -> CRS -> Z -> Z -> Quad -> option (Q * Q) -> Result (Affine * Z * Z))
    (src : Source) (b : Bounds) (sr tr : Q * Q) (t0 : Affine) (w0 h0 : Z) :
  0 < src_width src -> 0 < src_height src ->
  calc (src_crs src) (crs b) (src_width src) (src_height src) (src_bounds src)
       (resolution_hint sr tr) = Ok (t0, w0, h0) ->
  exists t w h,
    plan_generic calc src b sr tr = Ok (mkPlan (Some t) (Some w) (Some h))
    /\ Affine_eq t t0 /\ (w == inject_Z w0)%Q /\ (h == inject_Z h0)%Q.
Proof.
  intros Hw Hh Hcalc. unfold plan_generic. fold (resolution_hint sr tr).
  destruct (Z.to_nat (src_width src)) as [|n] eqn:Hn; [lia|].
  cbn [retry_loop]. rewrite !Z.div_1_r.
  rewrite (proj2 (Z.ltb_lt 0 (src_width src)) Hw), (proj2 (Z.ltb_lt 0 (src_height src)) Hh).
  cbn [andb]. rewrite Hcalc.
  change (Affine_invert (Affine_scale (inject_Z 1) (inject_Z 1)))
    with (Ok (mkAffine (1 * (1 / (1 * 1 - 0 * 0))) (- 0 * (1 / (1 * 1 - 0 * 0)))
                (- 0 * (1 * (1 / (1 * 1 - 0 * 0))) - 0 * (- 0 * (1 / (1 * 1 - 0 * 0))))
                (- 0 * (1 / (1 * 1 - 0 * 0))) (1 * (1 / (1 * 1 - 0 * 0)))
                (- 0 * (- 0 * (1 / (1 * 1 - 0 * 0))) - 0 * (1 * (1 / (1 * 1 - 0 * 0)))))%Q).
  cbn [Affine_apply Affine_scale af_a af_b af_c af_d af_e af_f].
  do 3 eexists. split; [reflexivity|].
  unfold Affine_eq. cbn [Affine_mul af_a af_b af_c af_d af_e af_f].
  repeat split; field.
Qed.

Lemma plan_generic_rescaled_witness :
  exists p t res,
    plan_generic calc_same_grid (sample_source int16 None) sample_bounds
      (2 # 2, 2 # 2)%Q (2 # 3, 2)%Q = Ok p
    /\ rescaled_from calc_same_grid (sample_source int16 None) sample_bounds res p t.
Proof.
  assert (Hp : exists p,
             plan_generic calc_same_grid (sample_source int16 None) sample_bounds
               (2 # 2, 2 # 2)%Q (2 # 3, 2)%Q = Ok p
             /\ exists t, dst_transform p = Some t).
  { eexists. split; [vm_compute; reflexivity|]. eexists. reflexivity. }
  destruct Hp as (p & Hp & t & Ht).
  destruct (plan_generic_rescaled calc_same_grid (sample_source int16 None) sample_bounds
              (2 # 2, 2 # 2)%Q (2 # 3, 2)%Q p t Hp Ht) as [res H].
  exists p, t, res. split; assumption.
Defined.

Lemma plan_generic_resolution_hint_witness :
  plan_generic calc_oom (sample_source int16 None) sample_bounds (1, 1)%Q (2, 2)%Q
  = plan_generic calc_hinted (sample_source int16 None) sample_bounds (1, 1)%Q (2, 2)%Q.
Proof.
  apply (proj1 (plan_generic_resolution_hint calc_oom calc_hinted
                  (sample_source int16 None) sample_bounds (1, 1)%Q (2, 2)%Q)).
  - discriminate.
  - discriminate.
  - intros. reflexivity.
Defined.

Lemma plan_generic_first_attempt_witness :
  exists t w h,
    plan_generic calc_hinted (sample_source int16 None) sample_bounds (2, 2)%Q (1, 1)%Q
      = Ok (mkPlan (Some t) (Some w) (Some h))
    /\ Affine_eq t Affine_identity /\ (w == inject_Z 2)%Q /\ (h == inject_Z 2)%Q.
Proof.
  apply (plan_generic_first_attempt calc_hinted (sample_source int16 None) sample_bounds
           (2, 2)%Q (1, 1)%Q Affine_identity 2 2).
  - reflexivity.
  - reflexivity.
  - vm_compute. reflexivity.
Defined.

(** ** The windowed read *)

Section ReadFacts.
Variable haversine : Q * Q -> Q * Q -> Q.
Variable math_log : Q -> Q.
Variable calc : CRS -> CRS -> Z -> Z -> Quad -> option (Q * Q) -> Result (Affine * Z * Z).
Variable WarpedVRT : Source -> VRTOptions -> VRT.

Lemma Qceiling_lt_succ (x : Q) : (inject_Z (Qceiling x) < x + 1)%Q.
Proof.
  pose proof (Qceiling_lt x) as H.
  change (Qceiling x - 1)%Z with (Qceiling x + - 1)%Z in H.
  rewrite inject_Z_plus in H. change (inject_Z (- 1)) with (- 1)%Q in H. lra.
Qed.

(** A successful [read_window], taken apart. *)
Lemma read_window_inv (src : Source) (b : Bounds) (target_shape : Shape)
    (recipes : Recipes) (pc : PixelCollection MaskedArray) :
  read_window haversine math_log calc WarpedVRT src b target_shape (Some recipes) = Ok pc ->
  exists plan t vw vh,
    plan_transform haversine math_log calc src b target_shape recipes = Ok plan
    /\ dst_transform plan = Some t
    /\ existsb (String.eqb (resample_name src recipes)) Resampling_names = true
    /\ py_div (q2 (bounds b) - q0 (bounds b)) (af_a t) = Ok vw
    /\ py_div (q1 (bounds b) - q3 (bounds b)) (af_e t) = Ok vh
    /\ let o := mkVRTOptions
                  (if prefers_mask src then None else resolve_nodata src recipes)
                  (crs b) (math_ceil vw) (math_ceil vh)
                  (Affine_mul (Affine_mul (Affine_translation (q0 (bounds b)) (q3 (bounds b)))
                                          (Affine_scale (af_a t) (af_e t)))
                              Affine_identity)
                  (resample_name src recipes) (prefers_mask src) in
       let vrt := WarpedVRT src o in
       mask_read vrt (resolve_nodata src recipes)
         (vrt_read vrt (Z.of_nat (vrt_count vrt), fst target_shape, snd target_shape)
                   (vrt_window vrt (bounds b)))
       = Ok (data pc)
       /\ pc = PixelCollection_ (data pc) b.
Proof.
  intros Hread. unfold read_window in Hread.
  destruct (plan_transform _ _ _ _ _ _ _) as [plan|]; cbn [bind] in Hread;
    [|discriminate].
  assert (Hrs :
            (if existsb (ColorInterp_eqb CI_palette) (src_colorinterp src)
             then Resampling_lookup
                    (match r_resample recipes with Some n => n | None => "nearest" end)
             else Resampling_lookup
                    (match r_resample recipes with Some n => n | None => "bilinear" end))
            = Resampling_lookup (resample_name src recipes)).
  { unfold resample_name.
    destruct (existsb _ (src_colorinterp src)), (r_resample recipes); reflexivity. }
  rewrite Hrs in Hread. clear Hrs.
  unfold Resampling_lookup in Hread.
  destruct (existsb (String.eqb (resample_name src recipes)) Resampling_names) eqn:Hname;
    cbn [bind] in Hread; [|discriminate].
  fold (prefers_mask src) in Hread.
  destruct (bounds b) as [[[bw bs] be] bn] eqn:Hb.
  destruct (dst_transform plan) as [t|] eqn:Ht; [|destruct (prefers_mask src); discriminate].
  exists plan, t.
  assert (Hsplit :
    (let '(src_nodata, add_alpha) :=
       if prefers_mask src then (None, true) else (resolve_nodata src recipes, false) in
     let* vw := py_div (be - bw) (af_a t) in
     let* vh := py_div (bs - bn) (af_e t) in
     let vrt := WarpedVRT src
                  (mkVRTOptions src_nodata (crs b) (math_ceil vw) (math_ceil vh)
                     (Affine_mul (Affine_mul (Affine_translation bw bn)
                                             (Affine_scale (af_a t) (af_e t)))
                                 Affine_identity)
                     (resample_name src recipes) add_alpha) in
     let dst_window := vrt_window vrt (bw, bs, be, bn) in
     let d := vrt_read vrt (Z.of_nat (vrt_count vrt), fst target_shape, snd target_shape)
                dst_window in
     let* d' := mask_read vrt (resolve_nodata src recipes) d in
     Ok (PixelCollection_ d' b)) = Ok pc).
  { destruct (prefers_mask src); exact Hread. }
  clear Hread. cbn [q0 q1 q2 q3].
  destruct (py_div (be - bw) (af_a t)) as [vw|];
    [|destruct (prefers_mask src); discriminate].
  destruct (py_div (bs - bn) (af_e t)) as [vh|];
    [|destruct (prefers_mask src); discriminate].
  exists vw, vh. do 5 (split; [first [reflexivity | assumption]|]).
  cbv zeta. destruct (prefers_mask src); cbn [bind] in Hsplit;
    (match type of Hsplit with
     | context [mask_read ?v ?n ?d] =>
       destruct (mask_read v n d) as [m|] eqn:Hm; cbn [bind] in Hsplit; [|discriminate]
     end);
    injection Hsplit as <-; cbn [data]; split; reflexivity.
Qed.

(** X11.  What a successful [read_window] opened the warped view with: the
    target CRS; the resampling named by the recipe, or else nearest for a
    paletted source and bilinear for any other, always a member of
    [Resampling]; and, for a source with a per-dataset mask and no alpha
    band, no nodata value and a request for an alpha band, for any other
    source the resolved nodata value and no alpha band.  The returned data
    is the mask of a read of [vrt.count] bands in the target shape from that
    view. *)
Theorem read_window_view_options (src : Source) (b : Bounds) (target_shape : Shape)
    (recipes : Recipes) (pc : PixelCollection MaskedArray) :
  read_window haversine math_log calc WarpedVRT src b target_shape (Some recipes) = Ok pc ->
  exists o,
    o_crs o = crs b
    /\ o_resampling o = resample_name src recipes
    /\ In (o_resampling o) Resampling_names
    /\ o_add_alpha o = prefers_mask src
    /\ o_src_nodata o = (if prefers_mask src then None else resolve_nodata src recipes)
    /\ mask_read (WarpedVRT src o) (resolve_nodata src recipes)
         (vrt_read (WarpedVRT src o)
            (Z.of_nat (vrt_count (WarpedVRT src o)), fst target_shape, snd target_shape)
            (vrt_window (WarpedVRT src o) (bounds b)))
       = Ok (data pc).
Proof.
  intros Hread.
  destruct (read_window_inv src b target_shape recipes pc Hread)
    as (plan & t & vw & vh & _ & _ & Hname & _ & _ & Hmask & _).
  exists (mkVRTOptions
            (if prefers_mask src then None else resolve_nodata src recipes)
            (crs b) (math_ceil vw) (math_ceil vh)
            (Affine_mul (Affine_mul (Affine_translation (q0 (bounds b)) (q3 (bounds b)))
                                    (Affine_scale (af_a t) (af_e t)))
                        Affine_identity)
            (resample_name src recipes) (prefers_mask src)).
  cbn [o_crs o_resampling o_add_alpha o_src_nodata].
  split; [reflexivity|]. split; [reflexivity|].
  split.
  - apply existsb_exists in Hname as (n & Hin & Heq).
    apply String.eqb_eq in Heq. rewrite Heq. exact Hin.
  - split; [reflexivity|]. split; [reflexivity|]. exact Hmask.
Qed.

(** X12.  The view of a successful [read_window] is anchored at the
    top-left corner of the requested bounds, has the planned pixel size and
    no rotation, and just enough columns and rows to span the bounds (less
    than one more than the quotient); the returned PixelCollection carries
    the requested bounds, and neither band nor colormap. *)
Theorem read_window_view_grid (src : Source) (b : Bounds) (target_shape : Shape)
    (recipes : Recipes) (pc : PixelCollection MaskedArray) :
  read_window haversine math_log calc WarpedVRT src b target_shape (Some recipes) = Ok pc ->
  exists plan t o,
    plan_transform haversine math_log calc src b target_shape recipes = Ok plan
    /\ dst_transform plan = Some t
    /\ Point_eq (Affine_apply (o_transform o) (0, 0)%Q) (q0 (bounds b), q3 (bounds b))
    /\ (af_a (o_transform o) == af_a t)%Q /\ (af_e (o_transform o) == af_e t)%Q
    /\ (af_b (o_transform o) == 0)%Q /\ (af_d (o_transform o) == 0)%Q
    /\ ~ (af_a t == 0)%Q /\ ~ (af_e t == 0)%Q
    /\ ((q2 (bounds b) - q0 (bounds b)) / af_a t <= inject_Z (o_width o)
        < (q2 (bounds b) - q0 (bounds b)) / af_a t + 1)%Q
    /\ ((q1 (bounds b) - q3 (bounds b)) / af_e t <= inject_Z (o_height o)
        < (q1 (bounds b) - q3 (bounds b)) / af_e t + 1)%Q
    /\ mask_read (WarpedVRT src o) (resolve_nodata src recipes)
         (vrt_read (WarpedVRT src o)
            (Z.of_nat (vrt_count (WarpedVRT src o)), fst target_shape, snd target_shape)
            (vrt_window (WarpedVRT src o) (bounds b)))
       = Ok (data pc)
    /\ pc_bounds pc = b /\ pc_band pc = None /\ pc_colormap pc = None.
Proof.
  intros Hread.
  destruct (read_window_inv src b target_shape recipes pc Hread)
    as (plan & t & vw & vh & Hplan & Ht & _ & Hvw & Hvh & Hmask & Hpc).
  exists plan, t.
  exists (mkVRTOptions
            (if prefers_mask src then None else resolve_nodata src recipes)
            (crs b) (math_ceil vw) (math_ceil vh)
            (Affine_mul (Affine_mul (Affine_translation (q0 (bounds b)) (q3 (bounds b)))
                                    (Affine_scale (af_a t) (af_e t)))
                        Affine_identity)
            (resample_name src recipes) (prefers_mask src)).
  cbn [o_transform o_width o_height].
  split; [exact Hplan|]. split; [exact Ht|].
  assert (Hdiv : forall x y v, py_div x y = Ok v -> ~ (y == 0)%Q /\ v = (x / y)%Q).
  { intros x y v. unfold py_div. destruct (Qeq_bool y 0) eqn:E; [discriminate|].
    intros [= <-]. split; [apply Qeq_bool_neq; exact E | reflexivity]. }
  destruct (Hdiv _ _ _ Hvw) as [Ha ->]. destruct (Hdiv _ _ _ Hvh) as [He ->].
  unfold Point_eq.
  cbn [Affine_apply Affine_mul Affine_translation Affine_scale Affine_identity
       af_a af_b af_c af_d af_e af_f fst snd].
  split; [split; ring|]. split; [ring|]. split; [ring|]. split; [ring|]. split; [ring|].
  split; [exact Ha|]. split; [exact He|].
  unfold math_ceil.
  split; [split; [apply Qle_ceiling | apply Qceiling_lt_succ]|].
  split; [split; [apply Qle_ceiling | apply Qceiling_lt_succ]|].
  split; [exact Hmask|]. rewrite Hpc. repeat split.
Qed.

(** X13.  When the planner returns, a resampling name that [Resampling]
    does not have makes [read_window] raise KeyError with that name, before
    any view is opened. *)
Theorem read_window_unknown_resample (src : Source) (b : Bounds) (target_shape : Shape)
    (recipes : Recipes) (plan : Plan) :
  plan_transform haversine math_log calc src b target_shape recipes = Ok plan ->
  ~ In (resample_name src recipes) Resampling_names ->
  read_window haversine math_log calc WarpedVRT src b target_shape (Some recipes)
  = Raise (KeyError (resample_name src recipes)).
Proof.
  intros Hplan Hname. unfold read_window. rewrite Hplan. cbn [bind].
  assert (Hfalse : existsb (String.eqb (resample_name src recipes)) Resampling_names = false).
  { destruct (existsb _ Resampling_names) eqn:E; [|reflexivity].
    exfalso. apply Hname. apply existsb_exists in E as (n & Hin & Heq).
    apply String.eqb_eq in Heq. rewrite Heq. exact Hin. }
  unfold resample_name in *. unfold Resampling_lookup.
  destruct (existsb (ColorInterp_eqb CI_palette) (src_colorinterp src)),
    (r_resample recipes); rewrite Hfalse; reflexivity.
Qed.

(** X15.  Without an alpha band in the view, a recipe that sets "nodata" to
    None, or a view without a nodata value, turns masking by value off:
    every pixel read is valid. *)
Theorem read_window_unmasked (src : Source) (b : Bounds) (target_shape : Shape)
    (recipes : Recipes) (pc : PixelCollection MaskedArray) :
  read_window haversine math_log calc WarpedVRT src b target_shape (Some recipes) = Ok pc ->
  (forall o, existsb (ColorInterp_eqb CI_alpha) (vrt_colorinterp (WarpedVRT src o)) = false) ->
  r_nodata recipes = Some None \/ (forall o, vrt_nodata (WarpedVRT src o) = None) ->
  forall i j k, ma_mask (data pc) i j k = false.
Proof.
  intros Hread Halpha Hoff.
  destruct (read_window_inv src b target_shape recipes pc Hread)
    as (plan & t & vw & vh & _ & _ & _ & _ & _ & Hmask & _).
  cbv zeta in Hmask. unfold mask_read in Hmask. rewrite Halpha in Hmask.
  destruct Hoff as [Hrec | Hview].
  - rewrite (resolve_nodata_recipe src recipes None Hrec) in Hmask.
    injection Hmask as <-. reflexivity.
  - rewrite Hview in Hmask.
    destruct (resolve_nodata src recipes); injection Hmask as <-; reflexivity.
Qed.
End ReadFacts.

Lemma read_window_view_options_witness :
  exists o, o_crs o = WEB_MERCATOR_CRS /\ o_resampling o = "bilinear"
            /\ o_add_alpha o = false /\ o_src_nodata o = Some 7%Q.
Proof.
  assert (Hpc : exists pc,
             read_window sample_haversine sample_log calc_same_grid (raster_vrt sample_raster)
               (sample_source int16 (Some 7%Q)) sample_bounds (1, 3) (Some no_recipes) = Ok pc).
  { eexists. vm_compute. reflexivity. }
  destruct Hpc as [pc Hpc].
  destruct (read_window_view_options sample_haversine sample_log calc_same_grid
              (raster_vrt sample_raster) (sample_source int16 (Some 7%Q)) sample_bounds
              (1, 3) no_recipes pc Hpc) as (o & H1 & H2 & _ & H3 & H4 & _).
  exists o. repeat split; assumption.
Defined.

Lemma read_window_view_grid_witness :
  exists o, Point_eq (Affine_apply (o_transform o) (0, 0)%Q) (0, 2)%Q
            /\ (inject_Z (o_width o) < 2 / 1 + 1)%Q.
Proof.
  assert (Hpc : exists pc,
             read_window sample_haversine sample_log calc_same_grid (raster_vrt sample_raster)
               (sample_source int16 (Some 7%Q)) sample_bounds (1, 3) (Some no_recipes) = Ok pc).
  { eexists. vm_compute. reflexivity. }
  destruct Hpc as [pc Hpc].
  destruct (read_window_view_grid sample_haversine sample_log calc_same_grid
              (raster_vrt sample_raster) (sample_source int16 (Some 7%Q)) sample_bounds
              (1, 3) no_recipes pc Hpc)
    as (plan & t & o & Hplan & Ht & H0 & _ & _ & _ & _ & _ & _ & [_ Hw] & _).
  exists o. split; [exact H0|].
  assert (Ha : (af_a t == 1)%Q).
  { vm_compute in Hplan. injection Hplan as <-. injection Ht as <-. reflexivity. }
  cbn [sample_bounds bounds q0 q2] in Hw. rewrite Ha in Hw.
  eapply Qlt_le_trans; [exact Hw|]. discriminate.
Defined.

Lemma read_window_unknown_resample_witness :
  read_window sample_haversine sample_log calc_same_grid (raster_vrt sample_raster)
    (sample_source int16 None) sample_bounds (1, 3)
    (Some (mkRecipes None None (Some "sharp")))
  = Raise (KeyError "sharp").
Proof.
  assert (Hplan : exists plan,
             plan_transform sample_haversine sample_log calc_same_grid
               (sample_source int16 None) sample_bounds (1, 3)
               (mkRecipes None None (Some "sharp")) = Ok plan).
  { eexists. vm_compute. reflexivity. }
  destruct Hplan as [plan Hplan].
  apply (read_window_unknown_resample sample_haversine sample_log calc_same_grid
           (raster_vrt sample_raster) (sample_source int16 None) sample_bounds (1, 3)
           (mkRecipes None None (Some "sharp")) plan Hplan).
  vm_compute. intuition discriminate.
Defined.

Lemma read_window_unmasked_witness :
  exists pc,
    read_window sample_haversine sample_log calc_same_grid (plain_vrt sample_raster)
      (sample_source int16 (Some 7%Q)) sample_bounds (1, 3)
      (Some (mkRecipes None (Some None) None)) = Ok pc
    /\ ma_mask (data pc) 0 0 1 = false.
Proof.
  assert (Hpc : exists pc,
             read_window sample_haversine sample_log calc_same_grid (plain_vrt sample_raster)
               (sample_source int16 (Some 7%Q)) sample_bounds (1, 3)
               (Some (mkRecipes None (Some None) None)) = Ok pc).
  { eexists. vm_compute. reflexivity. }
  destruct Hpc as [pc Hpc]. exists pc. split; [exact Hpc|].
  apply (read_window_unmasked sample_haversine sample_log calc_same_grid
           (plain_vrt sample_raster) (sample_source int16 (Some 7%Q)) sample_bounds (1, 3)
           (mkRecipes None (Some None) None) pc Hpc).
  - intros o. reflexivity.
  - left. reflexivity.
Defined.

(** ** Masks *)

Lemma index_of_existsb (x : ColorInterp) (l : list ColorInterp) (i : nat) :
  index_of x l = Some i -> existsb (ColorInterp_eqb x) l = true.
Proof.
  revert i. induction l as [|y l IH]; intros i; simpl; [discriminate|].
  destruct (ColorInterp_eqb y x) eqn:E.
  - intros _. destruct x, y; try discriminate; reflexivity.
  - destruct (index_of x l) as [j|]; [|discriminate].
    intros _. rewrite (IH j eq_refl). apply orb_true_r.
Qed.

Lemma np_invert_zero (dt : dtype) (v : Q) :
  is_floating dt = false ->
  ((np_invert dt v == 0)%Q <-> (v == all_ones dt)%Q).
Proof.
  intros Hint. destruct dt; try discriminate; unfold np_invert, all_ones;
    split; intros E; lra.
Qed.

(** X14.  When the view has an alpha band, it alone decides validity,
    whatever the nodata value: an integer read comes back without that
    band, the other bands in their order, and a pixel is valid in every band
    exactly when its alpha item has all bits set (255 for uint8; the mask is
    the bitwise complement of the alpha band).  A floating-point read raises
    TypeError. *)
Theorem mask_read_alpha (vrt : VRT) (nodata : option Q) (d : ndarray)
    (idx c h w : nat) :
  index_of CI_alpha (vrt_colorinterp vrt) = Some idx ->
  shape d = (c, h, w) ->
  (is_floating (adtype d) = true ->
     mask_read vrt nodata d
     = Raise (TypeError "ufunc 'invert' not supported for the input types"))
  /\ (is_floating (adtype d) = false ->
      exists m,
        mask_read vrt nodata d = Ok m
        /\ ma_shape m = ((vrt_count vrt - 1)%nat, h, w)
        /\ forall k i j,
             ma_data m k i j = item d (if (k <? idx)%nat then k else S k) i j
             /\ (ma_mask m k i j = false <-> (item d idx i j == all_ones (adtype d))%Q)).
Proof.
  intros Hidx Hshape. unfold mask_read.
  rewrite (index_of_existsb _ _ _ Hidx), Hidx, Hshape.
  split; intros Hdt; rewrite Hdt; [reflexivity|].
  eexists. split; [reflexivity|]. split; [reflexivity|].
  intros k i j. cbn [ma_data ma_mask]. split; [reflexivity|].
  rewrite <- (np_invert_zero (adtype d) _ Hdt), negb_false_iff.
  apply Qeq_bool_iff.
Qed.

Lemma mask_read_alpha_witness :
  exists m,
    mask_read alpha_view (Some 10%Q) alpha_raster = Ok m
    /\ ma_shape m = (1, 1, 2)%nat
    /\ ma_mask m 0 0 0 = false.
Proof.
  destruct (proj2 (mask_read_alpha alpha_view (Some 10%Q) alpha_raster 1 2 1 2
                     eq_refl eq_refl) eq_refl) as (m & Hm & Hs & Hitems).
  exists m. split; [exact Hm|]. split; [exact Hs|].
  apply (proj2 (Hitems 0%nat 0%nat 0%nat)). reflexivity.
Defined.

(** X16.  [_mask] leaves the data as it is and masks every item equal to
    the nodata value, whatever the dtype; in an integer buffer it masks no
    other item, in a floating-point buffer it masks the items within
    1e-8 + 1e-5 |nodata| of the nodata value. *)
Theorem mask_by_value (d : ndarray) (nodata : Q) :
  ma_shape (_mask d nodata) = shape d
  /\ ma_data (_mask d nodata) = item d
  /\ (forall i j k, (item d i j k == nodata)%Q -> ma_mask (_mask d nodata) i j k = true)
  /\ (is_floating (adtype d) = false ->
      forall i j k, ma_mask (_mask d nodata) i j k = true -> (item d i j k == nodata)%Q)
  /\ (is_floating (adtype d) = true ->
      forall i j k,
        ma_mask (_mask d nodata) i j k = true
        <-> (Qabs (item d i j k - nodata)
             <= (1 # 100000000) + (1 # 100000) * Qabs nodata)%Q).
Proof.
  unfold _mask. destruct (is_floating (adtype d)); cbn [masked_values masked_equal ma_shape ma_data ma_mask];
    (split; [reflexivity|]); (split; [reflexivity|]); split.
  - intros i j k E. unfold np_isclose. apply Qle_bool_iff.
    assert (E0 : (item d i j k - nodata == 0)%Q) by (rewrite E; ring).
    rewrite E0. change (Qabs 0) with 0%Q.
    pose proof (Qabs_nonneg nodata). lra.
  - split; [discriminate|]. intros _ i j k. unfold np_isclose. apply Qle_bool_iff.
  - intros i j k E. apply Qeq_bool_iff. exact E.
  - split; [|discriminate]. intros _ i j k E. apply Qeq_bool_iff. exact E.
Qed.

Lemma mask_by_value_witness :
  ma_mask (_mask sample_raster 7) 0 0 1 = true
  /\ ma_mask (_mask sample_raster 7) 0 0 0 = false.
Proof.
  destruct (mask_by_value sample_raster 7) as (_ & _ & Heq & Hint & _).
  split.
  - apply Heq. reflexivity.
  - destruct (ma_mask (_mask sample_raster 7) 0 0 0) eqn:E; [|reflexivity].
    apply (Hint eq_refl 0%nat 0%nat 0%nat) in E. discriminate E.
Defined.

(** X17.  For a source of an unsigned integer dtype and no nodata recipe the
    resolved nodata value equals the declared one, zero included: the least
    value of the dtype, which takes the place of a declared zero, is zero
    too. *)
Theorem resolve_nodata_unsigned (src : Source) (recipes : Recipes) (v : Q) :
  r_nodata recipes = None ->
  src_nodata src = Some v ->
  src_dtype src = uint8 \/ src_dtype src = uint16 \/ src_dtype src = uint32 ->
  exists n, resolve_nodata src recipes = Some n /\ (n == v)%Q.
Proof.
  intros Hrec Hdecl Hdt. unfold resolve_nodata, py_or. rewrite Hrec, Hdecl.
  destruct (Qeq_bool v 0) eqn:E.
  - apply Qeq_bool_iff in E. eexists. split; [reflexivity|].
    rewrite E. destruct Hdt as [-> | [-> | ->]]; reflexivity.
  - eexists. split; reflexivity.
Qed.

Lemma resolve_nodata_unsigned_witness :
  exists n, resolve_nodata (sample_source uint8 (Some 0%Q)) no_recipes = Some n /\ (n == 0)%Q.
Proof.
  apply (resolve_nodata_unsigned (sample_source uint8 (Some 0%Q)) no_recipes 0).
  - reflexivity.
  - reflexivity.
  - left. reflexivity.
Defined.

(** ** More on crop *)

Lemma slice_bound_range (x : Z) (n : nat) : 0 <= slice_bound x n <= Z.of_nat n.
Proof. unfold slice_bound. destruct (x <? 0) eqn:E; [apply Z.ltb_lt in E | apply Z.ltb_ge in E]; lia. Qed.

Lemma py_slice_in_range (start stop : Z) (n : nat) :
  (fst (py_slice start stop n) + snd (py_slice start stop n) <= n)%nat.
Proof.
  unfold py_slice. cbn [fst snd].
  pose proof (slice_bound_range start n). pose proof (slice_bound_range stop n). lia.
Qed.

(** X18.  Whatever the offsets, negative or larger than the buffer, a crop
    that returns gives back a window of the input: along the two cropped
    axes a run of consecutive indices inside the buffer, the third axis
    whole, every item and mask bit the input's. *)
Theorem crop_window (pc pc' : PixelCollection MaskedArray) (fmt : string)
    (offsets : Offsets) :
  crop pc fmt offsets = Ok pc' ->
  let '(a0, a1, a2) := ma_shape (data pc) in
  let '(b0, b1, b2) := ma_shape (data pc') in
  ma_dtype (data pc') = ma_dtype (data pc)
  /\ crs (pc_bounds pc') = crs (pc_bounds pc)
  /\ if _isimage fmt
     then exists r c : nat,
            (r + b0 <= a0)%nat /\ (c + b1 <= a1)%nat /\ b2 = a2
            /\ forall i j k,
                 ma_data (data pc') i j k = ma_data (data pc) (r + i)%nat (c + j)%nat k
                 /\ ma_mask (data pc') i j k = ma_mask (data pc) (r + i)%nat (c + j)%nat k
     else exists r c : nat,
            b0 = a0 /\ (r + b1 <= a1)%nat /\ (c + b2 <= a2)%nat
            /\ forall i j k,
                 ma_data (data pc') i j k = ma_data (data pc) i (r + j)%nat (c + k)%nat
                 /\ ma_mask (data pc') i j k = ma_mask (data pc) i (r + j)%nat (c + k)%nat.
Proof.
  destruct pc as [d [bb dcrs] band cmap]. destruct offsets as [[[ol ob] or] ot].
  unfold crop. cbn [data pc_bounds bounds crs].
  destruct (ma_shape d) as [[a0 a1] a2] eqn:Hs.
  destruct (_isimage fmt).
  - destruct (from_bounds bb (Z.of_nat a0) (Z.of_nat a1)) as [t|]; cbn [bind]; [|discriminate].
    intros [= <-]. cbn [data pc_bounds PixelCollection_ crs].
    unfold slice_01. rewrite Hs. cbn [ma_shape ma_dtype ma_data ma_mask].
    split; [reflexivity|]. split; [reflexivity|].
    exists (fst (py_slice ot (Z.of_nat a1 - ob) a0)), (fst (py_slice ol (Z.of_nat a0 - or) a1)).
    split; [apply py_slice_in_range|]. split; [apply py_slice_in_range|].
    split; [reflexivity|]. intros i j k. split; reflexivity.
  - destruct (from_bounds bb (Z.of_nat a2) (Z.of_nat a1)) as [t|]; cbn [bind]; [|discriminate].
    intros [= <-]. cbn [data pc_bounds PixelCollection_ crs].
    unfold slice_12. rewrite Hs. cbn [ma_shape ma_dtype ma_data ma_mask].
    split; [reflexivity|]. split; [reflexivity|].
    exists (fst (py_slice ot (Z.of_nat a1 - ob) a1)), (fst (py_slice ol (Z.of_nat a2 - or) a2)).
    split; [reflexivity|].
    split; [apply py_slice_in_range|]. split; [apply py_slice_in_range|].
    intros i j k. split; reflexivity.
Qed.

Lemma crop_window_witness :
  exists pc',
    crop (sample_pixels (1, 4, 4)%nat) "raw" (-9, 7, 2, 1) = Ok pc'
    /\ ma_dtype (data pc') = uint8.
Proof.
  assert (Hpc : exists pc', crop (sample_pixels (1, 4, 4)%nat) "raw" (-9, 7, 2, 1) = Ok pc').
  { eexists. vm_compute. reflexivity. }
  destruct Hpc as [pc' Hpc]. exists pc'. split; [exact Hpc|].
  pose proof (crop_window (sample_pixels (1, 4, 4)%nat) pc' "raw" (-9, 7, 2, 1) Hpc) as H.
  cbn [sample_pixels PixelCollection_ data sample_grid ma_shape] in H.
  destruct (ma_shape (data pc')) as [[b0 b1] b2]. destruct H as [H _]. exact H.
Defined.

(** The band-major branch with offsets inside the buffer: the rows from
    [top] and the columns from [left]. *)
Lemma crop_band_major_slice (pc : PixelCollection MaskedArray) (fmt : string)
    (o_left o_bottom o_right o_top : Z) (c h w : nat) :
  _isimage fmt = false ->
  ma_shape (data pc) = (c, h, w) ->
  (0 < h)%nat -> (0 < w)%nat ->
  0 <= o_left -> 0 <= o_bottom -> 0 <= o_right -> 0 <= o_top ->
  o_top + o_bottom <= Z.of_nat h -> o_left + o_right <= Z.of_nat w ->
  exists bb,
    crop pc fmt (o_left, o_bottom, o_right, o_top)
    = Ok (PixelCollection_
            (slice_12 (data pc)
               (Z.to_nat o_top, Z.to_nat (Z.of_nat h - o_top - o_bottom))
               (Z.to_nat o_left, Z.to_nat (Z.of_nat w - o_left - o_right)))
            bb).
Proof.
  intros Hfmt Hshape Hh Hw Hl Hb Hr Ht Hv Hu.
  destruct pc as [d [[[[west south] east] north] dcrs] band cmap]. simpl in *.
  crop_begin Hfmt Hshape.
  rewrite !py_slice_inner by lia.
  replace (Z.of_nat h - o_bottom - o_top) with (Z.of_nat h - o_top - o_bottom) by lia.
  replace (Z.of_nat w - o_right - o_left) with (Z.of_nat w - o_left - o_right) by lia.
  eexists. reflexivity.
Qed.

(** X19.  With offsets inside a band-major buffer, the item at (band, row,
    column) of the result is the input's item at (band, top + row,
    left + column), with its mask bit; the dtype is kept. *)
Theorem crop_band_major_items (pc : PixelCollection MaskedArray) (fmt : string)
    (o_left o_bottom o_right o_top : Z) (c h w : nat) :
  _isimage fmt = false ->
  ma_shape (data pc) = (c, h, w) ->
  (0 < h)%nat -> (0 < w)%nat ->
  0 <= o_left -> 0 <= o_bottom -> 0 <= o_right -> 0 <= o_top ->
  o_top + o_bottom <= Z.of_nat h -> o_left + o_right <= Z.of_nat w ->
  exists pc',
    crop pc fmt (o_left, o_bottom, o_right, o_top) = Ok pc'
    /\ ma_dtype (data pc') = ma_dtype (data pc)
    /\ forall band row col,
         ma_data (data pc') band row col
         = ma_data (data pc) band (Z.to_nat o_top + row)%nat (Z.to_nat o_left + col)%nat
         /\ ma_mask (data pc') band row col
            = ma_mask (data pc) band (Z.to_nat o_top + row)%nat (Z.to_nat o_left + col)%nat.
Proof.
  intros Hfmt Hshape Hh Hw Hl Hb Hr Ht Hv Hu.
  destruct (crop_band_major_slice pc fmt o_left o_bottom o_right o_top c h w
              Hfmt Hshape Hh Hw Hl Hb Hr Ht Hv Hu) as [bb ->].
  eexists. split; [reflexivity|]. cbn [data PixelCollection_].
  unfold slice_12. rewrite Hshape. cbn [ma_dtype ma_data ma_mask fst].
  split; [reflexivity|]. intros band row col. split; reflexivity.
Qed.

Lemma crop_band_major_items_witness :
  exists pc',
    crop (sample_pixels (1, 4, 4)%nat) "raw" (1, 0, 0, 2) = Ok pc'
    /\ ma_data (data pc') 0 0 0 = ma_data (data (sample_pixels (1, 4, 4)%nat)) 0 2 1.
Proof.
  destruct (crop_band_major_items (sample_pixels (1, 4, 4)%nat) "raw" 1 0 0 2 1 4 4)
    as (pc' & Hpc & _ & Hitems); try reflexivity; try lia.
  exists pc'. split; [exact Hpc|]. apply (proj1 (Hitems 0%nat 0%nat 0%nat)).
Defined.

(** X20.  A buffer without rows or without columns cannot be cropped: the
    transform is fitted first and divides by the width and the height, so
    [crop] raises ZeroDivisionError, whatever the offsets, the zero ones
    included. *)
Theorem crop_empty_buffer (pc : PixelCollection MaskedArray) (fmt : string)
    (offsets : Offsets) (n0 n1 n2 : nat) :
  ma_shape (data pc) = (n0, n1, n2) ->
  (if _isimage fmt then n0 = 0%nat \/ n1 = 0%nat else n1 = 0%nat \/ n2 = 0%nat) ->
  crop pc fmt offsets = Raise ZeroDivisionError.
Proof.
  intros Hshape Hempty.
  destruct pc as [d [[[[west south] east] north] dcrs] band cmap].
  destruct offsets as [[[ol ob] or] ot]. simpl in Hshape.
  unfold crop. cbn [data pc_bounds bounds crs]. rewrite Hshape.
  destruct (_isimage fmt); unfold from_bounds.
  - destruct Hempty as [-> | ->]; [reflexivity|].
    destruct n0 as [|n0]; [reflexivity|].
    rewrite (py_div_Z _ (Z.of_nat (S n0))) by lia. reflexivity.
  - destruct Hempty as [-> | ->].
    + destruct n2 as [|n2]; [reflexivity|].
      rewrite (py_div_Z _ (Z.of_nat (S n2))) by lia. reflexivity.
    + reflexivity.
Qed.

Lemma crop_empty_buffer_witness :
  crop (sample_pixels (3, 0, 4)%nat) "raw" (0, 0, 0, 0) = Raise ZeroDivisionError.
Proof.
  apply (crop_empty_buffer (sample_pixels (3, 0, 4)%nat) "raw" (0, 0, 0, 0) 3 0 4).
  - reflexivity.
  - left. reflexivity.
Defined.

(** X21.  On a band-major buffer, cropping twice keeps the same data as
    cropping once by the sums of the offsets (the margins being inside the
    buffer and the first crop leaving pixels). *)
Theorem crop_twice_data (pc : PixelCollection MaskedArray) (fmt : string)
    (l1 b1 r1 t1 l2 b2 r2 t2 : Z) (c h w : nat) :
  _isimage fmt = false ->
  ma_shape (data pc) = (c, h, w) ->
  0 <= l1 -> 0 <= b1 -> 0 <= r1 -> 0 <= t1 ->
  0 <= l2 -> 0 <= b2 -> 0 <= r2 -> 0 <= t2 ->
  t1 + b1 < Z.of_nat h -> l1 + r1 < Z.of_nat w ->
  t1 + b1 + t2 + b2 <= Z.of_nat h -> l1 + r1 + l2 + r2 <= Z.of_nat w ->
  exists pc1 pc2 pc12,
    crop pc fmt (l1, b1, r1, t1) = Ok pc1
    /\ crop pc1 fmt (l2, b2, r2, t2) = Ok pc2
    /\ crop pc fmt (l1 + l2, b1 + b2, r1 + r2, t1 + t2) = Ok pc12
    /\ ma_same (data pc2) (data pc12).
Proof.
  intros Hfmt Hshape Hl1 Hb1 Hr1 Ht1 Hl2 Hb2 Hr2 Ht2 Hh1 Hw1 Hh Hw.
  destruct (crop_band_major_slice pc fmt l1 b1 r1 t1 c h w)
    as [bb1 Hc1]; try assumption; try lia.
  destruct (crop_band_major_slice pc fmt (l1 + l2) (b1 + b2) (r1 + r2) (t1 + t2) c h w)
    as [bb12 Hc12]; try assumption; try lia.
  set (h1 := Z.to_nat (Z.of_nat h - t1 - b1)) in *.
  set (w1 := Z.to_nat (Z.of_nat w - l1 - r1)) in *.
  set (d1 := slice_12 (data pc) (Z.to_nat t1, h1) (Z.to_nat l1, w1)) in *.
  assert (Hs1 : ma_shape d1 = (c, h1, w1)).
  { unfold d1, slice_12. rewrite Hshape. reflexivity. }
  destruct (crop_band_major_slice (PixelCollection_ d1 bb1) fmt l2 b2 r2 t2 c h1 w1)
    as [bb2 Hc2]; try assumption; try (unfold h1, w1; lia).
  do 3 eexists. split; [exact Hc1|]. split; [exact Hc2|]. split; [exact Hc12|].
  cbn [data PixelCollection_]. unfold ma_same, d1, slice_12.
  rewrite Hshape. cbn [ma_shape ma_data ma_mask fst snd].
  split.
  - f_equal; [f_equal|]; unfold h1, w1; lia.
  - intros i j k _ _ _.
    replace (Z.to_nat t1 + (Z.to_nat t2 + j))%nat with (Z.to_nat (t1 + t2) + j)%nat by lia.
    replace (Z.to_nat l1 + (Z.to_nat l2 + k))%nat with (Z.to_nat (l1 + l2) + k)%nat by lia.
    split; reflexivity.
Qed.

Lemma crop_twice_data_witness :
  exists pc1 pc2 pc12,
    crop (sample_pixels (1, 4, 4)%nat) "raw" (1, 0, 0, 1) = Ok pc1
    /\ crop pc1 "raw" (0, 1, 1, 0) = Ok pc2
    /\ crop (sample_pixels (1, 4, 4)%nat) "raw" (1 + 0, 0 + 1, 0 + 1, 1 + 0) = Ok pc12
    /\ ma_same (data pc2) (data pc12).
Proof.
  apply (crop_twice_data (sample_pixels (1, 4, 4)%nat) "raw" 1 0 0 1 0 1 1 0 1 4 4);
    try reflexivity; lia.
Defined.

(** ** More on the Image transformation *)

(** The call returns a reference to [image_output]. *)
Lemma Image_transform_output (h : Heap) (pixels : PixelCollection Ref) (d : MaskedArray) :
  h !! data pixels = Some d ->
  exists h' pc,
    Image_transform h pixels = (h', Ok (pc, "RGBA"))
    /\ h' !! data pc = Some (image_output d)
    /\ pc_bounds pc = pc_bounds pixels
    /\ h' !! data pixels = Some (scaled_input d).
Proof.
  intros Hd. rewrite (Image_transform_result h pixels d Hd).
  assert (Hlt : (data pixels < length h)%nat) by (eapply lookup_lt_Some; exact Hd).
  do 2 eexists. split; [reflexivity|]. cbn [data pc_bounds PixelCollection_].
  split; [apply list_lookup_middle; reflexivity|]. split; [reflexivity|].
  unfold scaled_input. destruct (dtype_eqb (ma_dtype d) float32).
  - rewrite lookup_app_l by (rewrite length_insert; exact Hlt).
    apply list_lookup_insert_eq. exact Hlt.
  - rewrite lookup_app_l by exact Hlt. exact Hd.
Qed.

Lemma scaled_input_dtype (d : MaskedArray) : ma_dtype (scaled_input d) = ma_dtype d.
Proof. unfold scaled_input. destruct (dtype_eqb _ _); reflexivity. Qed.

Lemma image_output_band (d : MaskedArray) (c rows cols i j k : nat) :
  ma_shape d = (c, rows, cols) -> (k < c)%nat ->
  ma_data (image_output d) i j k
  = to_uint8 (ma_dtype d) (ma_data (scaled_input d) k i j).
Proof.
  intros Hs Hk. unfold image_output, dstack, transpose_120, astype_uint8.
  cbn [ma_shape]. rewrite scaled_input_shape, scaled_input_dtype, Hs. cbn [fst].
  destruct (c =? 4)%nat; cbn [ma_shape ma_data]; [reflexivity|].
  apply Nat.ltb_lt in Hk. rewrite Hk. reflexivity.
Qed.

Lemma fits_int32_spec (n : Z) : fits_int32 n = true <-> - 2 ^ 31 <= n < 2 ^ 31.
Proof.
  unfold fits_int32. rewrite andb_true_iff, negb_true_iff, Z.leb_le, Z.leb_gt.
  reflexivity.
Qed.

(** Where the cast is defined it keeps the integer part, modulo 256. *)
Lemma to_uint8_wraps (dt : dtype) (x : Q) :
  is_floating dt = false \/ - 2 ^ 31 <= Qtrunc x < 2 ^ 31 ->
  to_uint8 dt x = inject_Z (Qtrunc x mod 256).
Proof.
  unfold to_uint8. intros [-> | Hfit]; [reflexivity|].
  apply fits_int32_spec in Hfit. rewrite Hfit, andb_false_r. reflexivity.
Qed.

(** X22.  The result is the input with the band axis moved last: the item at
    (row, column, band) comes from the input item at (band, row, column),
    taken after the scaling of a float32 input.  It is the integer part of
    that item modulo 256, for an item of an integer buffer and for an item of
    a floating-point buffer whose integer part fits int32; beyond that range
    C does not define the cast, and nothing is stated.  The result is a
    uint8 buffer and the PixelCollection keeps the bounds of the input. *)
Theorem transform_interleaves (h : Heap) (pixels : PixelCollection Ref) (d : MaskedArray)
    (c rows cols : nat) :
  h !! data pixels = Some d ->
  ma_shape d = (c, rows, cols) ->
  exists h' pc out,
    Image_transform h pixels = (h', Ok (pc, "RGBA"))
    /\ h' !! data pc = Some out
    /\ pc_bounds pc = pc_bounds pixels
    /\ ma_dtype out = uint8
    /\ forall row col band, (band < c)%nat ->
         is_floating (ma_dtype d) = false
         \/ - 2 ^ 31 <= Qtrunc (ma_data (scaled_input d) band row col) < 2 ^ 31 ->
         ma_data out row col band
         = inject_Z (Qtrunc (ma_data (scaled_input d) band row col) mod 256).
Proof.
  intros Hd Hs.
  destruct (Image_transform_output h pixels d Hd) as (h' & pc & Ht & Hout & Hb & _).
  exists h', pc, (image_output d).
  split; [exact Ht|]. split; [exact Hout|]. split; [exact Hb|]. split.
  - unfold image_output, dstack, transpose_120, astype_uint8.
    cbn [ma_shape]. rewrite scaled_input_shape, Hs.
    destruct (fst (fst (c, rows, cols)) =? 4)%nat; reflexivity.
  - intros row col band Hband Hdef.
    rewrite (image_output_band d c rows cols row col band Hs Hband).
    apply to_uint8_wraps. exact Hdef.
Qed.

Lemma transform_interleaves_witness :
  exists h' pc out,
    Image_transform [sample_grid (3, 2, 2)%nat uint8] (PixelCollection_ 0%nat sample_bounds)
      = (h', Ok (pc, "RGBA"))
    /\ h' !! data pc = Some out
    /\ ma_data out 1 0 2
       = inject_Z (Qtrunc (ma_data (sample_grid (3, 2, 2)%nat uint8) 2 1 0) mod 256).
Proof.
  destruct (transform_interleaves [sample_grid (3, 2, 2)%nat uint8]
              (PixelCollection_ 0%nat sample_bounds)
              (sample_grid (3, 2, 2)%nat uint8) 3 2 2 eq_refl eq_refl)
    as (h' & pc & out & H1 & H2 & _ & _ & Hitems).
  exists h', pc, out. split; [exact H1|]. split; [exact H2|].
  apply (Hitems 1%nat 0%nat 2%nat); [lia | left; reflexivity].
Defined.

Lemma to_uint8_range (dt : dtype) (x : Q) :
  exists n : Z, 0 <= n <= 255 /\ to_uint8 dt x = inject_Z n.
Proof.
  unfold to_uint8. destruct (is_floating dt && negb (fits_int32 (Qtrunc x))).
  - exists 0. split; [lia | reflexivity].
  - exists (Qtrunc x mod 256). split; [|reflexivity].
    pose proof (Z.mod_pos_bound (Qtrunc x) 256). lia.
Qed.

(** X23.  Every item of the result, the alpha band included, is an integer
    from 0 to 255. *)
Theorem transform_uint8_range (h : Heap) (pixels : PixelCollection Ref) (d : MaskedArray) :
  h !! data pixels = Some d ->
  exists h' pc out,
    Image_transform h pixels = (h', Ok (pc, "RGBA"))
    /\ h' !! data pc = Some out
    /\ forall row col band,
         exists n : Z, 0 <= n <= 255 /\ (ma_data out row col band == inject_Z n)%Q.
Proof.
  intros Hd.
  destruct (Image_transform_output h pixels d Hd) as (h' & pc & Ht & Hout & _ & _).
  exists h', pc, (image_output d). split; [exact Ht|]. split; [exact Hout|].
  intros row col band. unfold image_output, dstack, transpose_120, astype_uint8.
  cbn [ma_shape]. rewrite scaled_input_shape.
  destruct (ma_shape d) as [[c rows] cols]. cbn [fst].
  destruct (c =? 4)%nat; cbn [ma_shape ma_data].
  - destruct (to_uint8_range (ma_dtype (scaled_input d))
                  (ma_data (scaled_input d) band row col)) as (n & Hn & ->).
    exists n. split; [exact Hn | reflexivity].
  - destruct (band <? c)%nat.
    + destruct (to_uint8_range (ma_dtype (scaled_input d))
                  (ma_data (scaled_input d) band row col)) as (n & Hn & ->).
      exists n. split; [exact Hn | reflexivity].
    + unfold alpha_band. destruct (mask_any (scaled_input d)).
      * destruct (logical_and_reduce_not_mask (scaled_input d) row col).
        -- exists 255. split; [lia | reflexivity].
        -- exists 0. split; [lia | reflexivity].
      * exists 255. split; [lia | reflexivity].
Qed.

Lemma transform_uint8_range_witness :
  exists h' pc out,
    Image_transform [sample_grid (3, 2, 2)%nat float32] (PixelCollection_ 0%nat sample_bounds)
      = (h', Ok (pc, "RGBA"))
    /\ h' !! data pc = Some out
    /\ exists n : Z, 0 <= n <= 255 /\ (ma_data out 1 1 2 == inject_Z n)%Q.
Proof.
  destruct (transform_uint8_range [sample_grid (3, 2, 2)%nat float32]
              (PixelCollection_ 0%nat sample_bounds)
              (sample_grid (3, 2, 2)%nat float32) eq_refl)
    as (h' & pc & out & H1 & H2 & Hitems).
  exists h', pc, out. split; [exact H1|]. split; [exact H2|].
  apply (Hitems 1%nat 1%nat 2%nat).
Defined.

(** X24.  A four-band input keeps its mask, moved with the data; for any
    other band count the result carries no mask at all, and what is left of
    the validity of the input is the alpha band. *)
Theorem transform_mask (h : Heap) (pixels : PixelCollection Ref) (d : MaskedArray)
    (c rows cols : nat) :
  h !! data pixels = Some d ->
  ma_shape d = (c, rows, cols) ->
  exists h' pc out,
    Image_transform h pixels = (h', Ok (pc, "RGBA"))
    /\ h' !! data pc = Some out
    /\ (c = 4%nat -> forall row col band, ma_mask out row col band = ma_mask d band row col)
    /\ (c <> 4%nat -> forall row col band, ma_mask out row col band = false).
Proof.
  intros Hd Hs.
  destruct (Image_transform_output h pixels d Hd) as (h' & pc & Ht & Hout & _ & _).
  exists h', pc, (image_output d). split; [exact Ht|]. split; [exact Hout|].
  unfold image_output, dstack, transpose_120, astype_uint8.
  cbn [ma_shape]. rewrite scaled_input_shape, Hs. cbn [fst].
  split.
  - intros ->. cbn [Nat.eqb ma_mask]. intros row col band.
    rewrite scaled_input_mask. reflexivity.
  - intros Hc. apply Nat.eqb_neq in Hc. rewrite Hc. reflexivity.
Qed.

Lemma transform_mask_witness :
  exists h' pc out,
    Image_transform [sample_grid (3, 2, 2)%nat uint8] (PixelCollection_ 0%nat sample_bounds)
      = (h', Ok (pc, "RGBA"))
    /\ h' !! data pc = Some out
    /\ ma_mask out 0 0 0 = false.
Proof.
  destruct (transform_mask [sample_grid (3, 2, 2)%nat uint8]
              (PixelCollection_ 0%nat sample_bounds)
              (sample_grid (3, 2, 2)%nat uint8) 3 2 2 eq_refl eq_refl)
    as (h' & pc & out & H1 & H2 & _ & Hdrop).
  exists h', pc, out. split; [exact H1|]. split; [exact H2|].
  apply Hdrop. lia.
Defined.

(** X25.  Transforming the same float32 PixelCollection twice scales its
    buffer twice: after the second call every unmasked item of the caller's
    buffer is 255 * 255 times what it was, and the masked items are as they
    were. *)
Theorem transform_twice_float32 (h : Heap) (pixels : PixelCollection Ref) (d : MaskedArray) :
  h !! data pixels = Some d ->
  ma_dtype d = float32 ->
  exists h1 r1 h2 r2 d2,
    Image_transform h pixels = (h1, r1)
    /\ Image_transform h1 pixels = (h2, r2)
    /\ h2 !! data pixels = Some d2
    /\ forall i j k,
         (ma_mask d i j k = false -> (ma_data d2 i j k == ma_data d i j k * 65025)%Q)
         /\ (ma_mask d i j k = true -> (ma_data d2 i j k == ma_data d i j k)%Q).
Proof.
  intros Hd Hdt.
  destruct (Image_transform_output h pixels d Hd) as (h1 & pc1 & Ht1 & _ & _ & Hin1).
  destruct (Image_transform_output h1 pixels (scaled_input d) Hin1)
    as (h2 & pc2 & Ht2 & _ & _ & Hin2).
  do 4 eexists. exists (scaled_input (scaled_input d)).
  split; [exact Ht1|]. split; [exact Ht2|]. split; [exact Hin2|].
  unfold scaled_input. rewrite Hdt. cbn [dtype_eqb imul ma_dtype]. rewrite Hdt.
  cbn [dtype_eqb imul ma_data ma_mask].
  intros i j k. split; intros Hm; rewrite Hm.
  - change (inject_Z (iinfo_max uint8)) with 255%Q. ring.
  - ring.
Qed.

Lemma transform_twice_float32_witness :
  exists h1 r1 h2 r2 d2,
    Image_transform [sample_grid (3, 2, 2)%nat float32] (PixelCollection_ 0%nat sample_bounds)
      = (h1, r1)
    /\ Image_transform h1 (PixelCollection_ 0%nat sample_bounds) = (h2, r2)
    /\ h2 !! 0%nat = Some d2
    /\ (ma_data d2 1 0 0 == 100 * 65025)%Q.
Proof.
  destruct (transform_twice_float32 [sample_grid (3, 2, 2)%nat float32]
              (PixelCollection_ 0%nat sample_bounds)
              (sample_grid (3, 2, 2)%nat float32) eq_refl eq_refl)
    as (h1 & r1 & h2 & r2 & d2 & H1 & H2 & H3 & Hitems).
  exists h1, r1, h2, r2, d2. split; [exact H1|]. split; [exact H2|]. split; [exact H3|].
  apply (proj1 (Hitems 1%nat 0%nat 0%nat)). reflexivity.
Defined.

(** X26.  A float32 input holding normalised values is expanded to bytes: an
    unmasked item x with 0 <= x <= 1 gives the result item floor(255 x), a
    value from 0 to 255, with no wrap-around. *)
Theorem transform_normalised (h : Heap) (pixels : PixelCollection Ref) (d : MaskedArray)
    (c rows cols : nat) :
  h !! data pixels = Some d ->
  ma_shape d = (c, rows, cols) ->
  ma_dtype d = float32 ->
  exists h' pc out,
    Image_transform h pixels = (h', Ok (pc, "RGBA"))
    /\ h' !! data pc = Some out
    /\ forall row col band, (band < c)%nat ->
         ma_mask d band row col = false ->
         (0 <= ma_data d band row col <= 1)%Q ->
         ma_data out row col band = inject_Z (Qfloor (ma_data d band row col * 255))
         /\ 0 <= Qfloor (ma_data d band row col * 255) <= 255.
Proof.
  intros Hd Hs Hdt.
  destruct (Image_transform_output h pixels d Hd) as (h' & pc & Ht & Hout & _ & _).
  exists h', pc, (image_output d). split; [exact Ht|]. split; [exact Hout|].
  intros row col band Hband Hm [H0 H1].
  rewrite (image_output_band d c rows cols row col band Hs Hband).
  unfold scaled_input. rewrite Hdt. cbn [dtype_eqb imul ma_data]. rewrite Hm.
  change (inject_Z (iinfo_max uint8)) with 255%Q.
  set (x := ma_data d band row col) in *.
  assert (Hlo : (0 <= x * 255)%Q) by lra.
  assert (Hhi : (x * 255 <= 255)%Q) by lra.
  assert (Hf0 : 0 <= Qfloor (x * 255)).
  { change 0 with (Qfloor 0). apply Qfloor_resp_le. exact Hlo. }
  assert (Hf1 : Qfloor (x * 255) <= 255).
  { change 255 with (Qfloor 255). apply Qfloor_resp_le. exact Hhi. }
  split; [|lia].
  assert (Htr : Qtrunc (x * 255) = Qfloor (x * 255)).
  { unfold Qtrunc. apply Qle_bool_iff in Hlo. rewrite Hlo. reflexivity. }
  rewrite to_uint8_wraps by (right; rewrite Htr; lia).
  rewrite Htr, Z.mod_small by lia. reflexivity.
Qed.

Lemma transform_normalised_witness :
  exists h' pc out,
    Image_transform [normalised_grid] (PixelCollection_ 0%nat sample_bounds)
      = (h', Ok (pc, "RGBA"))
    /\ h' !! data pc = Some out
    /\ ma_data out 0 0 1 = inject_Z (Qfloor (ma_data normalised_grid 1 0 0 * 255)).
Proof.
  destruct (transform_normalised [normalised_grid] (PixelCollection_ 0%nat sample_bounds)
              normalised_grid 3 1 1 eq_refl eq_refl eq_refl)
    as (h' & pc & out & H1 & H2 & Hitems).
  exists h', pc, out. split; [exact H1|]. split; [exact H2|].
  assert (Hband : (1 < 3)%nat) by lia.
  assert (Hrange : (0 <= ma_data normalised_grid 1 0 0 <= 1)%Q)
    by (split; discriminate).
  exact (proj1 (Hitems 0%nat 0%nat 1%nat Hband eq_refl Hrange)).
Defined.

(** ** More on render *)

Section RenderMore.
Variable haversine : Q * Q -> Q * Q -> Q.
Variable SourceRef : Type.
Variable elapsed : string -> Q.
Variable header_name : string -> string.
Variable composite :
  list SourceRef -> Bounds -> Shape -> CRS -> bool ->
  Result (list (string * string) * Pixels).

Lemma bindT_ok_inv {A B} (m : Traced A) (k : A -> Traced B) (tr : list Event) (r : B) :
  bindT m k = (tr, Ok r) ->
  exists t1 a t2, m = (t1, Ok a) /\ k a = (t2, Ok r) /\ tr = (t1 ++ t2)%list.
Proof.
  unfold bindT. destruct m as [t1 [a|e]]; [|discriminate].
  destruct (k a) as [t2 r'] eqn:Hk. intros [= <- ->].
  exists t1, a, t2. auto.
Qed.

(** A render that succeeds, taken apart. *)
Lemma render_ok_inv (b : Bounds) (shape : Shape) (target_crs : CRS)
    (format : Formatter) (expand : bool) (catalog : option (Catalog SourceRef))
    (sources : option (list SourceRef)) (transformation : option Transformation)
    (tr : list Event) (hd : Headers) (bytes : list Byte.byte) :
  render haversine SourceRef elapsed header_name composite
    b shape target_crs format expand catalog sources transformation
  = (tr, Ok (hd, bytes)) ->
  exists res b' shape' srcs used pixels0 pixels1 fmt ctype,
    get_resolution_in_meters haversine b shape = Ok res
    /\ match transformation with
       | Some t =>
         exists offsets pixelsT,
           t_expand t b shape = Ok (b', shape', offsets)
           /\ t_transform t pixels0 = Ok (pixelsT, fmt)
           /\ t_postprocess t pixelsT fmt offsets = Ok pixels1
       | None => b' = b /\ shape' = shape /\ pixels1 = pixels0 /\ fmt = "raw"
       end
    /\ match sources with
       | Some s => srcs = s
       | None => exists c, catalog = Some c /\ get_sources SourceRef c b' res = Ok srcs
       end
    /\ srcs <> []
    /\ composite srcs b' shape' target_crs expand = Ok (used, pixels0)
    /\ data pixels0 <> None
    /\ format pixels1 fmt = Ok (ctype, bytes)
    /\ tr = render_calls (negb (is_None transformation)) (is_None sources)
    /\ hd = mkHeaders ctype
              (map (fun '(i, name) => OpEntry i name (elapsed name))
                   (enumerate_from 0
                      (render_labels (negb (is_None transformation)) (is_None sources)))
               ++ map (fun '(i, (name, url)) => SrcEntry i (header_name name) url)
                      (enumerate_from 0 used))%list.
Proof.
  intros H. unfold render in H.
  apply bindT_ok_inv in H as (t0 & res & t0' & Hres & H & ->).
  unfold lift in Hres. injection Hres as <- Hres.
  destruct (is_None sources && is_None catalog) eqn:Hnone; [discriminate|].
  apply bindT_ok_inv in H as (t1 & [[b' shape'] offsets] & t1' & Hexp & H & ->).
  apply bindT_ok_inv in H as (t2 & [srcs stats] & t2' & Hsrc & H & ->).
  destruct (length srcs =? 0)%nat eqn:Hlen; [discriminate|].
  apply bindT_ok_inv in H as (t3 & [used pixels0] & t3' & Hcomp & H & ->).
  unfold call in Hcomp. injection Hcomp as <- Hcomp.
  destruct (is_None (data pixels0)) eqn:Hdata; [discriminate|].
  apply bindT_ok_inv in H as (t4 & [[pixels1 fmt] stats'] & t4' & Htrans & H & ->).
  apply bindT_ok_inv in H as (t5 & [ctype formatted] & t5' & Hfmt & H & ->).
  unfold call in Hfmt. injection Hfmt as <- Hfmt.
  unfold ret in H. injection H as <- <- <-.
  assert (Hsrcs : srcs <> []) by (destruct srcs; [discriminate | discriminate]).
  assert (Hpix : data pixels0 <> None) by (destruct (data pixels0); discriminate).
  exists res, b', shape', srcs, used, pixels0, pixels1, fmt, ctype.
  split; [exact Hres|].
  destruct transformation as [t|].
  - apply bindT_ok_inv in Hexp as (e1 & [[b1 shape1] offs] & e2 & Hcall & Hret & ->).
    unfold call in Hcall. injection Hcall as <- Hcall.
    unfold ret in Hret. injection Hret as <- <- <- <-.
    apply bindT_ok_inv in Htrans as (e3 & [pixelsT fmtT] & e4 & Hcall2 & Htrans & ->).
    unfold call in Hcall2. injection Hcall2 as <- Hcall2.
    apply bindT_ok_inv in Htrans as (e5 & pixelsP & e6 & Hcall3 & Hret3 & ->).
    unfold call in Hcall3. injection Hcall3 as <- Hcall3.
    unfold ret in Hret3. injection Hret3 as <- <- <- <-.
    split; [exists offs, pixelsT; auto|].
    destruct sources as [s|].
    + unfold ret in Hsrc. injection Hsrc as <- <- <-.
      repeat (split; [first [reflexivity | assumption]|]). reflexivity.
    + destruct catalog as [c|]; [|discriminate].
      apply bindT_ok_inv in Hsrc as (e7 & s & e8 & Hcall4 & Hret4 & ->).
      unfold call in Hcall4. injection Hcall4 as <- Hcall4.
      unfold ret in Hret4. injection Hret4 as <- <- <-.
      split; [exists c; auto|].
      repeat (split; [first [reflexivity | assumption]|]). reflexivity.
  - unfold ret in Hexp. injection Hexp as <- <- <- <-.
    unfold ret in Htrans. injection Htrans as <- <- <- <-.
    split; [auto|].
    destruct sources as [s|].
    + unfold ret in Hsrc. injection Hsrc as <- <- <-.
      repeat (split; [first [reflexivity | assumption]|]). reflexivity.
    + destruct catalog as [c|]; [|discriminate].
      apply bindT_ok_inv in Hsrc as (e7 & s & e8 & Hcall4 & Hret4 & ->).
      unfold call in Hcall4. injection Hcall4 as <- Hcall4.
      unfold ret in Hret4. injection Hret4 as <- <- <-.
      split; [exists c; auto|].
      repeat (split; [first [reflexivity | assumption]|]). reflexivity.
Qed.

(** X28.  A render that succeeds has run the whole pipeline, in this order:
    [expand] (with a transformation), [get_sources] (without a source
    list), the compositor, [transform] and [postprocess] (with a
    transformation), the formatter.  The catalog is asked with the expanded
    bounds and the resolution of the request as it came; the compositor gets
    the expanded bounds and shape; [postprocess] gets the tag of [transform]
    and the offsets of [expand]; the formatter gets the post-processed
    buffer and that tag, or the composited buffer and "raw" without a
    transformation; its bytes are returned. *)
Theorem render_pipeline (b : Bounds) (shape : Shape) (target_crs : CRS)
    (format : Formatter) (expand : bool) (catalog : option (Catalog SourceRef))
    (sources : option (list SourceRef)) (transformation : option Transformation)
    (tr : list Event) (hd : Headers) (bytes : list Byte.byte) :
  render haversine SourceRef elapsed header_name composite
    b shape target_crs format expand catalog sources transformation
  = (tr, Ok (hd, bytes)) ->
  exists res b' shape' srcs used pixels0 pixels1 fmt ctype,
    get_resolution_in_meters haversine b shape = Ok res
    /\ match transformation with
       | Some t =>
         exists offsets pixelsT,
           t_expand t b shape = Ok (b', shape', offsets)
           /\ t_transform t pixels0 = Ok (pixelsT, fmt)
           /\ t_postprocess t pixelsT fmt offsets = Ok pixels1
       | None => b' = b /\ shape' = shape /\ pixels1 = pixels0 /\ fmt = "raw"
       end
    /\ match sources with
       | Some s => srcs = s
       | None => exists c, catalog = Some c /\ get_sources SourceRef c b' res = Ok srcs
       end
    /\ srcs <> []
    /\ composite srcs b' shape' target_crs expand = Ok (used, pixels0)
    /\ data pixels0 <> None
    /\ format pixels1 fmt = Ok (ctype, bytes)
    /\ tr = render_calls (negb (is_None transformation)) (is_None sources).
Proof.
  intros H.
  destruct (render_ok_inv b shape target_crs format expand catalog sources
              transformation tr hd bytes H)
    as (res & b' & shape' & srcs & used & pixels0 & pixels1 & fmt & ctype
        & H1 & H2 & H3 & H4 & H5 & H6 & H7 & H8 & _).
  exists res, b', shape', srcs, used, pixels0, pixels1, fmt, ctype.
  repeat (split; [assumption|]). assumption.
Qed.

(** X30.  The headers of a render that succeeds: the content type is the
    formatter's; Server-Timing lists the timed stages in the order run,
    numbered from 0 - "Get Sources" only when the catalog was asked,
    "Transform" and "Post-process" only with a transformation, "Composite"
    and "Format" always, [expand] never - and then one entry per source the
    compositor used, numbered from 0, with its name in header form and its
    URL. *)
Theorem render_headers (b : Bounds) (shape : Shape) (target_crs : CRS)
    (format : Formatter) (expand : bool) (catalog : option (Catalog SourceRef))
    (sources : option (list SourceRef)) (transformation : option Transformation)
    (tr : list Event) (hd : Headers) (bytes : list Byte.byte) :
  render haversine SourceRef elapsed header_name composite
    b shape target_crs format expand catalog sources transformation
  = (tr, Ok (hd, bytes)) ->
  exists b' shape' srcs used pixels0 pixels1 fmt,
    composite srcs b' shape' target_crs expand = Ok (used, pixels0)
    /\ format pixels1 fmt = Ok (content_type hd, bytes)
    /\ server_timing hd
       = (map (fun '(i, name) => OpEntry i name (elapsed name))
              (enumerate_from 0
                 (render_labels (negb (is_None transformation)) (is_None sources)))
          ++ map (fun '(i, (name, url)) => SrcEntry i (header_name name) url)
                 (enumerate_from 0 used))%list
    /\ length (server_timing hd)
       = (length (render_labels (negb (is_None transformation)) (is_None sources))
          + length used)%nat.
Proof.
  intros H.
  destruct (render_ok_inv b shape target_crs format expand catalog sources
              transformation tr hd bytes H)
    as (res & b' & shape' & srcs & used & pixels0 & pixels1 & fmt & ctype
        & _ & _ & _ & _ & H5 & _ & H7 & _ & ->).
  exists b', shape', srcs, used, pixels0, pixels1, fmt.
  cbn [content_type server_timing].
  split; [exact H5|]. split; [exact H7|]. split; [reflexivity|].
  assert (Hlen : forall (A : Type) (l : list A) (i : nat),
            length (enumerate_from i l) = length l).
  { intros A l. induction l as [|x l IH]; intros i; simpl; [reflexivity|].
    rewrite IH. reflexivity. }
  rewrite length_app, !length_map, !Hlen. reflexivity.
Qed.

Lemma bindT_trace {A B} (m : Traced A) (k : A -> Traced B) (ev : Event) :
  In ev (fst (bindT m k)) ->
  In ev (fst m) \/ exists a, snd m = Ok a /\ In ev (fst (k a)).
Proof.
  unfold bindT. destruct m as [t [a|e]]; cbn [fst snd]; [|auto].
  destruct (k a) as [t' r] eqn:Hk. cbn [fst]. intros Hin.
  apply in_app_or in Hin as [Hin | Hin]; [auto|].
  right. exists a. rewrite Hk. auto.
Qed.

(** X27.  With a source list given, the catalog is never asked, whether one
    was supplied or not and whatever the outcome of the render. *)
Theorem render_sources_skip_catalog (b : Bounds) (shape : Shape) (target_crs : CRS)
    (format : Formatter) (expand : bool) (catalog : option (Catalog SourceRef))
    (s : list SourceRef) (transformation : option Transformation) :
  ~ In EvGetSources
       (fst (render haversine SourceRef elapsed header_name composite
               b shape target_crs format expand catalog (Some s) transformation)).
Proof.
  intros Hin. unfold render in Hin.
  apply bindT_trace in Hin as [Hin | (res & _ & Hin)]; [exact Hin|].
  cbn [is_None andb] in Hin.
  apply bindT_trace in Hin as [Hin | ([[b' shape'] offsets] & _ & Hin)].
  { destruct transformation as [t|]; [|exact Hin].
    apply bindT_trace in Hin as [Hin | ([[b1 s1] o1] & _ & Hin)]; [|exact Hin].
    destruct Hin as [Hin | []]. discriminate. }
  apply bindT_trace in Hin as [Hin | ([srcs stats] & _ & Hin)]; [exact Hin|].
  destruct (length srcs =? 0)%nat; [exact Hin|].
  apply bindT_trace in Hin as [Hin | ([used pixels0] & _ & Hin)].
  { destruct Hin as [Hin | []]. discriminate. }
  destruct (is_None (data pixels0)); [exact Hin|].
  apply bindT_trace in Hin as [Hin | ([[pixels1 fmt] stats'] & _ & Hin)].
  { destruct transformation as [t|]; [|exact Hin].
    destruct offsets as [offs|]; [|exact Hin].
    apply bindT_trace in Hin as [Hin | ([pT fT] & _ & Hin)].
    - destruct Hin as [Hin | []]. discriminate.
    - apply bindT_trace in Hin as [Hin | (pP & _ & Hin)]; [|exact Hin].
      destruct Hin as [Hin | []]. discriminate. }
  apply bindT_trace in Hin as [Hin | ([ctype formatted] & _ & Hin)]; [|exact Hin].
  destruct Hin as [Hin | []]. discriminate.
Qed.

(** X29.  When the compositor returns a PixelCollection without data, the
    render raises NoDataAvailable right after it, whether the sources were
    given or came from the catalog: nothing is transformed, post-processed
    or formatted. *)
Theorem render_composite_no_data (b : Bounds) (shape : Shape) (target_crs : CRS)
    (format : Formatter) (expand : bool) (catalog : option (Catalog SourceRef))
    (sources : option (list SourceRef)) (transformation : option Transformation)
    (res : Q * Q) (b' : Bounds) (shape' : Shape) (srcs : list SourceRef)
    (used : list (string * string)) (pixels0 : Pixels) :
  get_resolution_in_meters haversine b shape = Ok res ->
  match transformation with
  | Some t => exists offsets, t_expand t b shape = Ok (b', shape', offsets)
  | None => b' = b /\ shape' = shape
  end ->
  match sources with
  | Some s => srcs = s
  | None => exists c, catalog = Some c /\ get_sources SourceRef c b' res = Ok srcs
  end ->
  srcs <> [] ->
  composite srcs b' shape' target_crs expand = Ok (used, pixels0) ->
  data pixels0 = None ->
  render haversine SourceRef elapsed header_name composite
    b shape target_crs format expand catalog sources transformation
  = ((if is_None transformation then [] else [EvExpand])
     ++ (if is_None sources then [EvGetSources] else [])
     ++ [EvComposite],
     Raise NoDataAvailable)%list.
Proof.
  intros Hres Hexp Hsrc Hs Hcomp Hdata. unfold render. rewrite Hres.
  assert (Hlen : (length srcs =? 0)%nat = false)
    by (destruct srcs; [contradiction | reflexivity]).
  destruct sources as [s|].
  - subst s. cbn [lift bindT is_None andb app].
    destruct transformation as [t|].
    + destruct Hexp as [offsets ->]. cbn. rewrite Hlen, Hcomp. cbn.
      rewrite Hdata. reflexivity.
    + destruct Hexp as [-> ->]. cbn. rewrite Hlen, Hcomp. cbn.
      rewrite Hdata. reflexivity.
  - destruct Hsrc as (c & -> & Hget). cbn [lift bindT is_None andb app].
    destruct transformation as [t|].
    + destruct Hexp as [offsets ->]. cbn. rewrite Hget. cbn.
      rewrite Hlen, Hcomp. cbn. rewrite Hdata. reflexivity.
    + destruct Hexp as [-> ->]. cbn. rewrite Hget. cbn.
      rewrite Hlen, Hcomp. cbn. rewrite Hdata. reflexivity.
Qed.
End RenderMore.

Lemma render_sources_skip_catalog_witness :
  ~ In EvGetSources
       (fst (render sample_haversine string (fun _ => 0%Q) (fun s => s) full_composite
               sample_bounds (2, 2) WEB_MERCATOR_CRS sample_format false
               (Some one_source_catalog) (Some ["imagery"]) (Some sample_transformation))).
Proof.
  apply (render_sources_skip_catalog sample_haversine string (fun _ => 0%Q) (fun s => s)
           full_composite sample_bounds (2, 2) WEB_MERCATOR_CRS sample_format false
           (Some one_source_catalog) ["imagery"] (Some sample_transformation)).
Defined.

Lemma render_pipeline_witness :
  exists tr hd bytes,
    render sample_haversine string (fun _ => 0%Q) (fun s => s) full_composite
      sample_bounds (2, 2) WEB_MERCATOR_CRS sample_format false
      (Some one_source_catalog) None (Some sample_transformation)
    = (tr, Ok (hd, bytes))
    /\ tr = [EvExpand; EvGetSources; EvComposite; EvTransform; EvPostprocess; EvFormat].
Proof.
  assert (Hrun : exists tr hd bytes,
             render sample_haversine string (fun _ => 0%Q) (fun s => s) full_composite
               sample_bounds (2, 2) WEB_MERCATOR_CRS sample_format false
               (Some one_source_catalog) None (Some sample_transformation)
             = (tr, Ok (hd, bytes))).
  { do 3 eexists. vm_compute. reflexivity. }
  destruct Hrun as (tr & hd & bytes & Hrun). exists tr, hd, bytes.
  split; [exact Hrun|].
  destruct (render_pipeline sample_haversine string (fun _ => 0%Q) (fun s => s)
              full_composite sample_bounds (2, 2) WEB_MERCATOR_CRS sample_format false
              (Some one_source_catalog) None (Some sample_transformation) tr hd bytes Hrun)
    as (_ & _ & _ & _ & _ & _ & _ & _ & _ & _ & _ & _ & _ & _ & _ & _ & Htr).
  exact Htr.
Defined.

Lemma render_headers_witness :
  exists tr hd bytes,
    render sample_haversine string (fun _ => 0%Q) (fun s => s) full_composite
      sample_bounds (2, 2) WEB_MERCATOR_CRS sample_format false
      None (Some ["imagery"]) None
    = (tr, Ok (hd, bytes))
    /\ length (server_timing hd) = 3%nat.
Proof.
  assert (Hrun : exists tr hd bytes,
             render sample_haversine string (fun _ => 0%Q) (fun s => s) full_composite
               sample_bounds (2, 2) WEB_MERCATOR_CRS sample_format false
               None (Some ["imagery"]) None
             = (tr, Ok (hd, bytes))).
  { do 3 eexists. vm_compute. reflexivity. }
  destruct Hrun as (tr & hd & bytes & Hrun). exists tr, hd, bytes.
  split; [exact Hrun|].
  destruct (render_headers sample_haversine string (fun _ => 0%Q) (fun s => s)
              full_composite sample_bounds (2, 2) WEB_MERCATOR_CRS sample_format false
              None (Some ["imagery"]) None tr hd bytes Hrun)
    as (b' & shape' & srcs & used & p0 & p1 & fmt & Hcomp & _ & _ & Hlen).
  rewrite Hlen. injection Hcomp as <- _. reflexivity.
Defined.

Lemma render_composite_no_data_witness :
  render sample_haversine string (fun _ => 0%Q) (fun s => s) sample_composite
    sample_bounds (2, 2) WEB_MERCATOR_CRS sample_format false
    (Some one_source_catalog) None (Some sample_transformation)
  = ([EvExpand; EvGetSources; EvComposite], Raise NoDataAvailable).
Proof.
  apply (render_composite_no_data sample_haversine string (fun _ => 0%Q) (fun s => s)
           sample_composite sample_bounds (2, 2) WEB_MERCATOR_CRS sample_format false
           (Some one_source_catalog) None (Some sample_transformation)
           (2 # 2, 2 # 2)%Q sample_bounds (4, 4) ["imagery"] []
           (PixelCollection_ None sample_bounds)).
  - vm_compute. reflexivity.
  - exists (1, 1, 1, 1). reflexivity.
  - exists one_source_catalog. split; reflexivity.
  - discriminate.
  - reflexivity.
  - reflexivity.
Defined.
